(** * TimeTableLib: a shallow embedding of [timetable.js]

    The source file holds two revisions of the [Timetable] class, one after
    the other.  The first (lines 6-621) draws a fixed 08:00-18:00 grid, caches
    a [slotIndex] on every event and computes row spans without a minimum; the
    second (lines 638-1026) derives the grid from the events and enforces
    [minRowSpan].  Both are embedded here: what they share is written once and
    the two classes live in the modules [V1] and [V2].

    Numbers are integers ([Z]): every number the code handles is parsed from
    decimal digits or is produced from such numbers by [+], [-], [*],
    [Math.floor(a / b)], [Math.ceil(a / b)], [Math.min] and [Math.max], and
    [timeInterval] is a positive integer by its documentation.  Strings are
    byte strings holding the UTF-8 encoding of the JavaScript text. *)

From Stdlib Require Import ZArith List String Ascii Lia Sorted Permutation.
From stdpp Require Import gmap strings list pretty.

Local Open Scope string_scope.
Local Open Scope list_scope.
Local Open Scope Z_scope.

(** ** The JavaScript runtime, as far as the class uses it *)

Module JS.

(** The exception the language itself raises in the class: a property read
    or a method call on [undefined] or [null].  (Those of the DOM come with
    [classList_add], further down.) *)
Inductive error : Type :=
  | TypeError.

(** What running a piece of code comes to: it returns, it throws, or it
    loops for ever. *)
Inductive result (A : Type) : Type :=
  | Ok (a : A)
  | Throw (e : error)
  | Diverge.
Arguments Ok {A} a.
Arguments Throw {A} e.
Arguments Diverge {A}.

Definition bind {A B : Type} (r : result A) (k : A -> result B) : result B :=
  match r with
  | Ok a => k a
  | Throw e => Throw e
  | Diverge => Diverge
  end.

(** [arr.forEach(f)] where [f] may throw and updates the state [s]. *)
Fixpoint forEach {A S : Type} (f : S -> A -> result S) (arr : list A) (s : S)
  : result S :=
  match arr with
  | [] => Ok s
  | x :: rest => bind (f s x) (forEach f rest)
  end.

(** [a || d] on string-valued properties: [undefined], [null] (both an absent
    key here) and the empty string are falsy. *)
Definition or_else (a : option string) (d : string) : string :=
  match a with
  | Some s => if String.eqb s EmptyString then d else s
  | None => d
  end.

(** [s.split(sep)] for a one-character separator. *)
Fixpoint split_chars (sep : ascii) (cs : list ascii) (cur : list ascii)
  : list (list ascii) :=
  match cs with
  | [] => [rev cur]
  | c :: rest =>
      if Ascii.eqb c sep then rev cur :: split_chars sep rest []
      else split_chars sep rest (c :: cur)
  end.

Definition split (sep : ascii) (s : string) : list string :=
  map string_of_list_ascii (split_chars sep (list_ascii_of_string s) []).

Definition is_digit (c : ascii) : bool :=
  let n := nat_of_ascii c in (48 <=? n)%nat && (n <=? 57)%nat.

Definition digit_value (c : ascii) : Z := Z.of_nat (nat_of_ascii c) - 48.

(** The value of a run of decimal digits. *)
Definition digits_value (cs : list ascii) : Z :=
  fold_left (fun acc c => 10 * acc + digit_value c) cs 0.

(** [Number(s)] for [s] a run of decimal digits, the only strings the
    capture groups of the time pattern can hold (see [hhmm_digits]). *)
Definition Number_digits (s : string) : Z :=
  digits_value (list_ascii_of_string s).

(** [Number(s)]: [None] is [NaN].  Modelled on the strings the date format
    [dd/mm/yyyy] is made of: a run of decimal digits (the empty string is 0).
    Every other string (signs, blanks, fractions, exponents, hexadecimal) is
    taken to [NaN]. *)
Definition Number (s : string) : option Z :=
  let cs := list_ascii_of_string s in
  if forallb is_digit cs then Some (digits_value cs) else None.

(** [Number] of an array element that may be [undefined]. *)
Definition Number_opt (s : option string) : option Z :=
  match s with
  | Some s => Number s
  | None => None
  end.

(** Days from 1970-01-01 to the first of month [m] (0-based) of year [y], in
    the proleptic Gregorian calendar: [MakeDay(y, m, 1)] of ECMA-262. *)
Definition days_from_civil (y m : Z) : Z :=
  let ym := y + m / 12 in
  let mn := m mod 12 + 1 in
  let y' := if mn <=? 2 then ym - 1 else ym in
  let era := y' / 400 in
  let yoe := y' - era * 400 in
  let mp := if 2 <? mn then mn - 3 else mn + 9 in
  let doy := (153 * mp + 2) / 5 in
  let doe := yoe * 365 + yoe / 4 - yoe / 100 + doy in
  era * 146097 + doe - 719468.

(** [new Date(y, m, d).getDay()]: [None] is the [NaN] of an invalid date.
    A year from 0 to 99 means 1900 + year; month and day overflow into the
    neighbouring months; a date more than 100,000,000 days from the epoch is
    invalid.  The date is built and read back in the same local time zone, so
    the zone does not show. *)
Definition Date_getDay (y m d : option Z) : option Z :=
  match y, m, d with
  | Some y, Some m, Some d =>
      let yr := if (0 <=? y) && (y <=? 99) then 1900 + y else y in
      let day := days_from_civil yr m + d - 1 in
      if Z.abs day <=? 100000000 then Some ((day + 4) mod 7) else None
  | _, _, _ => None
  end.

(** Array read at a number that may be [NaN], negative or out of range. *)
Definition index {A : Type} (arr : list A) (i : option Z) : option A :=
  match i with
  | Some i => if i <? 0 then None else arr !! Z.to_nat i
  | None => None
  end.

(** The property key a value is turned into by [obj[value]]. *)
Definition property_key (v : option string) : string :=
  match v with
  | Some s => s
  | None => "undefined"
  end.

(** [n.toString()] for an integer. *)
Definition toString (n : Z) : string := pretty n.

(** [s.padStart(2, "0")]. *)
Definition padStart2 (s : string) : string :=
  match String.length s with
  | O => "00"
  | S O => "0" +:+ s
  | _ => s
  end.

(** [Math.floor(a / b)] and [Math.ceil(a / b)] on integers, [b] positive. *)
Definition floor_div (a b : Z) : Z := a / b.
Definition ceil_div (a b : Z) : Z := - ((- a) / b).

(** [arr.sort(cmp)].  ECMAScript 2019 requires the sort to be stable, and for
    a consistent comparator the sorted order is then unique; it is computed
    here by insertion, an element going before the first one it does not
    compare greater than. *)
Section Sort.
Context {A : Type} (cmp : A -> A -> Z).

Fixpoint sort_insert (x : A) (l : list A) : list A :=
  match l with
  | [] => [x]
  | y :: l' => if cmp x y <=? 0 then x :: y :: l' else y :: sort_insert x l'
  end.

Definition sort (l : list A) : list A := foldr sort_insert [] l.

End Sort.

End JS.

#[global] Instance result_bind : MBind JS.result :=
  fun A B k r => JS.bind r k.

(** ** What the two revisions share *)

(** A raw record is a JavaScript object with string-valued properties; a
    property that is missing, [undefined] or [null] is an absent key. *)
Abbreviation RawEvent := (gmap string string).

(** The object literal pushed by [prepareData]; [slotIndex] is the property
    the first revision's [render] adds later ([None] while it is unset). *)
Record Event : Type := mkEvent {
  startTime : string;
  endTime : string;
  startMinutes : Z;
  endMinutes : Z;
  duration : Z;
  name : string;
  location : string;
  staff : string;
  group : string;
  category : string;
  remarks : string;
  slotIndex : option Z
}.

Record Options : Type := mkOptions {
  weekdays : list string;
  timeInterval : Z;
  minRowSpan : Z;
  showIcons : bool;
  modalEnabled : bool
}.

(** The argument of the constructor: any key may be left out. *)
Record UserOptions : Type := mkUserOptions {
  u_weekdays : option (list string);
  u_timeInterval : option Z;
  u_minRowSpan : option Z;
  u_showIcons : option bool;
  u_modalEnabled : option bool
}.

Record TimeSlot : Type := mkTimeSlot {
  label : string;
  minutes : Z;
  isHour : bool;
  isHalfHour : bool
}.

(** A JavaScript object used as a dictionary whose key order matters
    ([Object.keys] lists the keys in insertion order; the keys here are
    weekday names, none of which is an array index). *)
Definition Obj (V : Type) : Type := list (string * V).

Fixpoint obj_get {V : Type} (k : string) (o : Obj V) : option V :=
  match o with
  | [] => None
  | (k', v) :: rest => if String.eqb k k' then Some v else obj_get k rest
  end.

(** [o[k] = v]: an existing key keeps its place. *)
Fixpoint obj_set {V : Type} (k : string) (v : V) (o : Obj V) : Obj V :=
  match o with
  | [] => [(k, v)]
  | (k', v') :: rest =>
      if String.eqb k k' then (k, v) :: rest else (k', v') :: obj_set k v rest
  end.

Definition Schedule : Type := Obj (list Event).

(** *** The time pattern [/(\d{1,2}:\d{2})-(\d{1,2}:\d{2})/] *)

Definition Parser : Type := list ascii -> option (list ascii * list ascii).

Definition p_digit : Parser := fun cs =>
  match cs with
  | c :: rest => if JS.is_digit c then Some ([c], rest) else None
  | [] => None
  end.

Definition p_char (x : ascii) : Parser := fun cs =>
  match cs with
  | c :: rest => if Ascii.eqb c x then Some ([c], rest) else None
  | [] => None
  end.

Definition p_seq (p q : Parser) : Parser := fun cs =>
  match p cs with
  | Some (a, rest) =>
      match q rest with
      | Some (b, rest') => Some (a ++ b, rest')
      | None => None
      end
  | None => None
  end.

Definition p_alt (p q : Parser) : Parser := fun cs =>
  match p cs with
  | Some m => Some m
  | None => q cs
  end.

(** [\d{1,2}:\d{2}]: the greedy two-digit hour is tried first.  The two
    branches exclude each other (the second character is a digit or a colon),
    so nothing is lost by not backtracking into the group. *)
Definition hhmm : Parser :=
  p_alt
    (p_seq p_digit (p_seq p_digit (p_seq (p_char ":") (p_seq p_digit p_digit))))
    (p_seq p_digit (p_seq (p_char ":") (p_seq p_digit p_digit))).

(** The pattern anchored at the head of [cs]: the whole match and the two
    groups. *)
Definition match_here (cs : list ascii)
  : option (list ascii * list ascii * list ascii) :=
  match hhmm cs with
  | Some (g1, rest) =>
      match p_char "-" rest with
      | Some (_, rest') =>
          match hhmm rest' with
          | Some (g2, _) => Some (g1 ++ "-"%char :: g2, g1, g2)
          | None => None
          end
      | None => None
      end
  | None => None
  end.

(** [timeStr.match(...)]: the leftmost match, [None] for [null]. *)
Fixpoint regex_match (cs : list ascii)
  : option (list ascii * list ascii * list ascii) :=
  match match_here cs with
  | Some m => Some m
  | None =>
      match cs with
      | [] => None
      | _ :: rest => regex_match rest
      end
  end.

Definition time_match (timeStr : string) : option (string * string * string) :=
  match regex_match (list_ascii_of_string timeStr) with
  | Some (range, g1, g2) =>
      Some (string_of_list_ascii range, string_of_list_ascii g1,
            string_of_list_ascii g2)
  | None => None
  end.

Record TimeInfo : Type := mkTimeInfo {
  ti_startTime : string;
  ti_endTime : string;
  ti_startMinutes : Z;
  ti_endMinutes : Z;
  ti_duration : Z
}.

(** [getMinutes] is only ever applied to a capture group, which splits into
    two runs of digits (see [hhmm_digits]); the last branch is never taken. *)
Definition getMinutes (time : string) : Z :=
  match map JS.Number_digits (JS.split ":" time) with
  | hours :: minutes :: _ => hours * 60 + minutes
  | _ => 0
  end.

(** [processTime]: [.match] on a missing [Heure] and [.slice] on the [null]
    of a failed match both raise a [TypeError]. *)
Definition processTime (timeStr : option string) : JS.result TimeInfo :=
  match timeStr with
  | None => JS.Throw JS.TypeError
  | Some timeStr =>
      match time_match timeStr with
      | None => JS.Throw JS.TypeError
      | Some (_, startTime, endTime) =>
          let startMinutes := getMinutes startTime in
          let endMinutes := getMinutes endTime in
          JS.Ok (mkTimeInfo startTime endTime startMinutes endMinutes
                   (endMinutes - startMinutes))
      end
  end.

Section PrepareData.

(** The two revisions differ in the table of day names and in the spelling
    of the category key. *)
Variable days : list string.
Variable categoryKey : string.

(** [getDayOfWeek]: [None] is [undefined]; a missing [Date] raises. *)
Definition getDayOfWeek (dateStr : option string) : JS.result (option string) :=
  match dateStr with
  | None => JS.Throw JS.TypeError
  | Some dateStr =>
      let parts := JS.split "/" dateStr in
      let year := JS.Number_opt (parts !! 2%nat) in
      let month := (fun m => m - 1) <$> JS.Number_opt (parts !! 1%nat) in
      let day := JS.Number_opt (parts !! 0%nat) in
      JS.Ok (JS.index days (JS.Date_getDay year month day))
  end.

Definition makeEvent (timeInfo : TimeInfo) (event : RawEvent) : Event :=
  {| startTime := ti_startTime timeInfo;
     endTime := ti_endTime timeInfo;
     startMinutes := ti_startMinutes timeInfo;
     endMinutes := ti_endMinutes timeInfo;
     duration := ti_duration timeInfo;
     name := JS.or_else (event !! "Matière")
               (JS.or_else (event !! categoryKey) "Unspecified");
     location := JS.or_else (event !! "Salle") "TBD";
     staff := JS.or_else (event !! "Personnel") "N/A";
     group := JS.or_else (event !! "Groupe") "All";
     category := JS.or_else (event !! categoryKey) "Other";
     remarks := JS.or_else (event !! "Remarques") EmptyString;
     slotIndex := None |}.

(** The body of [rawData.forEach]. *)
Definition prepareEvent (prepared : Schedule) (event : RawEvent)
  : JS.result Schedule :=
  day ← getDayOfWeek (event !! "Date");
  match obj_get (JS.property_key day) prepared with
  | Some bucket =>
      timeInfo ← processTime (event !! "Heure");
      JS.Ok (obj_set (JS.property_key day)
               (bucket ++ [makeEvent timeInfo event]) prepared)
  | None => JS.Ok prepared
  end.

Definition initPrepared (options : Options) : Schedule :=
  fold_left (fun prepared day => obj_set day [] prepared) (weekdays options) [].

Definition prepareData (options : Options) (rawData : list RawEvent)
  : JS.result Schedule :=
  JS.forEach prepareEvent rawData (initPrepared options).

End PrepareData.

(** *** Time slots *)

(** The object pushed for minute [time] by either [generateTimeSlots]. *)
Definition makeSlot (time : Z) : TimeSlot :=
  let hour := JS.floor_div time 60 in
  let minute := Z.rem time 60 in
  {| label := JS.padStart2 (JS.toString hour) +:+ ":" +:+
              JS.padStart2 (JS.toString minute);
     minutes := time;
     isHour := minute =? 0;
     isHalfHour := minute =? 30 |}.

(** [for (let time = ...; time < endTime; time += interval) slots.push(...)].
    The loop does not end when [interval] is not positive; [fuel] bounds the
    number of turns and running out of it is [Diverge]. *)
Fixpoint slotsLoop (fuel : nat) (interval endTime time : Z)
  : JS.result (list TimeSlot) :=
  if time <? endTime then
    match fuel with
    | O => JS.Diverge
    | S fuel =>
        slots ← slotsLoop fuel interval endTime (time + interval);
        JS.Ok (makeSlot time :: slots)
    end
  else JS.Ok [].

(** One turn per minute of the window is enough for a positive interval. *)
Definition slotsBetween (startTime endTime interval : Z)
  : JS.result (list TimeSlot) :=
  slotsLoop (Z.to_nat (endTime - startTime)) interval endTime startTime.

(** *** The table body built by [render]

    Of the DOM only the layout is kept: for every row the cells appended to
    it, each tagged with the day whose column it was made for.  An event cell
    records its event, its [rowspan] attribute (set only above 1) and whether
    a click handler was attached. *)

Inductive CellContent : Type :=
  | EventCell (event : Event) (rowspan : option Z) (clickable : bool)
  | EmptyCell.

Record Cell : Type := mkCell {
  cell_day : string;
  cell_content : CellContent
}.

Record Row : Type := mkRow {
  row_slot : TimeSlot;
  row_cells : list Cell
}.

(** [cellOccupied]: the pairs [(day, row)] set to [true]. *)
Abbreviation Occupied := (gset (string * Z)).

(** [for (let i = 1; i < rowSpan && slotIndex + i < length; i++)
       cellOccupied[day][slotIndex + i] = true;] entered at [i]. *)
Fixpoint markLoop (fuel : nat) (day : string) (slotIndex rowSpan len i : Z)
  (cellOccupied : Occupied) : Occupied :=
  match fuel with
  | O => cellOccupied
  | S fuel =>
      if (i <? rowSpan) && (slotIndex + i <? len) then
        markLoop fuel day slotIndex rowSpan len (i + 1)
          ({[ (day, slotIndex + i) ]} ∪ cellOccupied)
      else cellOccupied
  end.

Definition markOccupied (day : string) (slotIndex rowSpan len : Z)
  (cellOccupied : Occupied) : Occupied :=
  markLoop (Z.to_nat rowSpan) day slotIndex rowSpan len 1 cellOccupied.

Section RenderBody.

(** The two [render] methods differ in the test that picks the events of a
    row, in [getRowSpan] and in the click handler. *)
Variable startsHere : Z -> TimeSlot -> Event -> bool.
Variable getRowSpan : Z -> Z.
Variable clickable : bool.
(** [this.timeSlots.length] *)
Variable len : Z.

(** The body of [eventsStartingHere.forEach]. *)
Definition renderEvent (day : string) (slotIndex : Z)
  (acc : list Cell * Occupied) (event : Event) : list Cell * Occupied :=
  let '(cells, cellOccupied) := acc in
  let rowSpan := getRowSpan (duration event) in
  if 1 <? rowSpan then
    (cells ++ [mkCell day (EventCell event (Some rowSpan) clickable)],
     markOccupied day slotIndex rowSpan len cellOccupied)
  else
    (cells ++ [mkCell day (EventCell event None clickable)], cellOccupied).

(** The body of [days.forEach] inside a row. *)
Definition renderDay (slotIndex : Z) (timeSlot : TimeSlot)
  (acc : list Cell * Occupied) (entry : string * list Event)
  : list Cell * Occupied :=
  let '(cells, cellOccupied) := acc in
  let '(day, events) := entry in
  if bool_decide ((day, slotIndex) ∈ cellOccupied) then acc
  else
    let eventsStartingHere := List.filter (startsHere slotIndex timeSlot) events in
    if (0 <? length eventsStartingHere)%nat then
      fold_left (renderEvent day slotIndex) eventsStartingHere acc
    else if negb (bool_decide ((day, slotIndex) ∈ cellOccupied)) then
      (cells ++ [mkCell day EmptyCell], cellOccupied)
    else acc.

(** The body of [this.timeSlots.forEach]. *)
Definition renderRow (data : Schedule) (slotIndex : Z) (timeSlot : TimeSlot)
  (acc : list Row * Occupied) : list Row * Occupied :=
  let '(rows, cellOccupied) := acc in
  let '(cells, cellOccupied') :=
    fold_left (renderDay slotIndex timeSlot) data ([], cellOccupied) in
  (rows ++ [mkRow timeSlot cells], cellOccupied').

(** [this.timeSlots.forEach((timeSlot, slotIndex) => ...)] from [slotIndex]. *)
Fixpoint renderRows (data : Schedule) (slotIndex : Z) (timeSlots : list TimeSlot)
  (acc : list Row * Occupied) : list Row * Occupied :=
  match timeSlots with
  | [] => acc
  | timeSlot :: rest =>
      renderRows data (slotIndex + 1) rest (renderRow data slotIndex timeSlot acc)
  end.

End RenderBody.

(** What a call of [render] leaves behind: the rows of the table body and the
    final [cellOccupied]. *)
Record Layout : Type := mkLayout {
  rows : list Row;
  cellOccupied : Occupied
}.

(** The fields of a [Timetable] instance; [container] tells whether
    [document.getElementById] found the element. *)
Record Timetable : Type := mkTimetable {
  container : bool;
  options : Options;
  data : Schedule;
  timeSlots : list TimeSlot
}.

(** [this.data[day].sort((a, b) => a.startMinutes - b.startMinutes)] for
    every day. *)
Definition sortDays (data : Schedule) : Schedule :=
  map (fun entry : string * list Event =>
         (entry.1, JS.sort (fun a b => startMinutes a - startMinutes b) entry.2))
      data.

Definition defaultWeekdays : list string :=
  ["Monday"; "Tuesday"; "Wednesday"; "Thursday"; "Friday"].

(** ** The first revision (lines 6-621) *)

Module V1.

Definition mergeDefaultOptions (userOptions : UserOptions) : Options :=
  {| weekdays := default defaultWeekdays (u_weekdays userOptions);
     timeInterval := default 15 (u_timeInterval userOptions);
     minRowSpan := default 2 (u_minRowSpan userOptions);
     showIcons := default true (u_showIcons userOptions);
     modalEnabled := default true (u_modalEnabled userOptions) |}.

(** The table in [getDayOfWeek]; it stops at Friday. *)
Definition days : list string :=
  ["Sunday"; "Monday"; "Tuesday"; "Wednesday"; "Thursday"; "Friday"].

(** The category key is spelled with a typographic apostrophe (U+2019). *)
Definition categoryKey : string := "Catégorie d’événement".

Definition prepareData : Options -> list RawEvent -> JS.result Schedule :=
  prepareData days categoryKey.

Definition generateTimeSlots (options : Options) : JS.result (list TimeSlot) :=
  let startHour := 8 in
  let endHour := 18 in
  let startTimeMinutes := startHour * 60 in
  let endTimeMinutes := endHour * 60 in
  slotsBetween startTimeMinutes endTimeMinutes (timeInterval options).

(** Reading [this.timeSlots[0].minutes] of an empty array raises. *)
Definition getTimeSlotIndex (options : Options) (timeSlots : list TimeSlot)
  (timeInMinutes : Z) : JS.result Z :=
  let interval := timeInterval options in
  match timeSlots with
  | [] => JS.Throw JS.TypeError
  | first :: _ =>
      let firstSlotMinutes := minutes first in
      let slotIndex := JS.floor_div (timeInMinutes - firstSlotMinutes) interval in
      JS.Ok (Z.max 0 (Z.min slotIndex (Z.of_nat (length timeSlots) - 1)))
  end.

Definition getRowSpan (options : Options) (duration : Z) : Z :=
  let rowSpan := JS.ceil_div duration (timeInterval options) in
  rowSpan.

(** [event.slotIndex = this.getTimeSlotIndex(event.startMinutes)] *)
Definition assignSlot (options : Options) (timeSlots : list TimeSlot)
  (event : Event) : JS.result Event :=
  index ← getTimeSlotIndex options timeSlots (startMinutes event);
  JS.Ok {| startTime := startTime event;
           endTime := endTime event;
           startMinutes := startMinutes event;
           endMinutes := endMinutes event;
           duration := duration event;
           name := name event;
           location := location event;
           staff := staff event;
           group := group event;
           category := category event;
           remarks := remarks event;
           slotIndex := Some index |}.

Fixpoint assignSlotsDay (options : Options) (timeSlots : list TimeSlot)
  (events : list Event) : JS.result (list Event) :=
  match events with
  | [] => JS.Ok []
  | event :: rest =>
      event' ← assignSlot options timeSlots event;
      rest' ← assignSlotsDay options timeSlots rest;
      JS.Ok (event' :: rest')
  end.

(** The pre-processing pass over all days. *)
Fixpoint assignSlots (options : Options) (timeSlots : list TimeSlot)
  (data : Schedule) : JS.result Schedule :=
  match data with
  | [] => JS.Ok []
  | (day, events) :: rest =>
      events' ← assignSlotsDay options timeSlots events;
      rest' ← assignSlots options timeSlots rest;
      JS.Ok ((day, events') :: rest')
  end.

(** [event.slotIndex === slotIndex], the row being [row] here. *)
Definition startsHere (row : Z) (timeSlot : TimeSlot) (event : Event) : bool :=
  match slotIndex event with
  | Some index => index =? row
  | None => false
  end.

Definition renderBody (options : Options) (timeSlots : list TimeSlot)
  (data : Schedule) : Layout :=
  let '(rows, cellOccupied) :=
    renderRows startsHere (getRowSpan options) (modalEnabled options)
      (Z.of_nat (length timeSlots)) data 0 timeSlots ([], ∅) in
  mkLayout rows cellOccupied.

(** [render]: the instance afterwards and, unless the container is missing,
    the layout drawn. *)
Definition render (this : Timetable) : JS.result (Timetable * option Layout) :=
  if negb (container this) then JS.Ok (this, None)
  else
    let sorted := sortDays (data this) in
    data' ← assignSlots (options this) (timeSlots this) sorted;
    JS.Ok (mkTimetable (container this) (options this) data' (timeSlots this),
           Some (renderBody (options this) (timeSlots this) data')).

(** [new Timetable(containerId, data, options)] *)
Definition new (container : bool) (rawData : list RawEvent)
  (userOptions : UserOptions) : JS.result (Timetable * option Layout) :=
  let options := mergeDefaultOptions userOptions in
  data ← prepareData options rawData;
  timeSlots ← generateTimeSlots options;
  render (mkTimetable container options data timeSlots).

End V1.

(** ** The second revision (lines 638-1026) *)

Module V2.

(** This revision has no [modalEnabled] default and never reads the option. *)
Definition mergeDefaultOptions (userOptions : UserOptions) : Options :=
  {| weekdays := default defaultWeekdays (u_weekdays userOptions);
     timeInterval := default 15 (u_timeInterval userOptions);
     minRowSpan := default 2 (u_minRowSpan userOptions);
     showIcons := default true (u_showIcons userOptions);
     modalEnabled := default false (u_modalEnabled userOptions) |}.

Definition days : list string :=
  ["Sunday"; "Monday"; "Tuesday"; "Wednesday"; "Thursday"; "Friday";
   "Saturday"].

(** The category key is spelled with a plain apostrophe. *)
Definition categoryKey : string := "Catégorie d'événement".

Definition prepareData : Options -> list RawEvent -> JS.result Schedule :=
  prepareData days categoryKey.

(** The two nested [forEach] that track the earliest start and latest end. *)
Definition boundsDay (acc : Z * Z) (dayEvents : list Event) : Z * Z :=
  fold_left
    (fun (acc : Z * Z) (event : Event) =>
       (Z.min acc.1 (startMinutes event), Z.max acc.2 (endMinutes event)))
    dayEvents acc.

Definition bounds (data : Schedule) : Z * Z :=
  fold_left boundsDay (map snd data) (23 * 60 + 59, 0).

Definition generateTimeSlots (options : Options) (data : Schedule)
  : JS.result (list TimeSlot) :=
  let '(earliestStart, latestEnd) := bounds data in
  let earliestStart :=
    JS.floor_div earliestStart (timeInterval options) * timeInterval options in
  let latestEnd :=
    JS.ceil_div latestEnd (timeInterval options) * timeInterval options in
  slotsBetween earliestStart latestEnd (timeInterval options).

Definition getRowSpan (options : Options) (duration : Z) : Z :=
  let rowSpan :=
    Z.max (minRowSpan options) (JS.ceil_div duration (timeInterval options)) in
  rowSpan.

(** The filter of [eventsStartingHere]. *)
Definition startsHere (options : Options) (slotIndex : Z) (timeSlot : TimeSlot)
  (event : Event) : bool :=
  (minutes timeSlot <=? startMinutes event) &&
  (startMinutes event <? minutes timeSlot + timeInterval options).

Definition renderBody (options : Options) (timeSlots : list TimeSlot)
  (data : Schedule) : Layout :=
  let '(rows, cellOccupied) :=
    renderRows (startsHere options) (getRowSpan options) false
      (Z.of_nat (length timeSlots)) data 0 timeSlots ([], ∅) in
  mkLayout rows cellOccupied.

Definition render (this : Timetable) : Timetable * option Layout :=
  if negb (container this) then (this, None)
  else
    let sorted := sortDays (data this) in
    (mkTimetable (container this) (options this) sorted (timeSlots this),
     Some (renderBody (options this) (timeSlots this) sorted)).

(** [new Timetable(containerId, data, options)] *)
Definition new (container : bool) (rawData : list RawEvent)
  (userOptions : UserOptions) : JS.result (Timetable * option Layout) :=
  let options := mergeDefaultOptions userOptions in
  data ← prepareData options rawData;
  timeSlots ← generateTimeSlots options data;
  JS.Ok (render (mkTimetable container options data timeSlots)).

End V2.

(** ** The rest of the class: labels, class names, event elements, the modal *)

(** [formatTimeLabel], the same in both revisions. *)
Definition formatTimeLabel (minutes : Z) : string :=
  let hour := JS.floor_div minutes 60 in
  let minute := Z.rem minutes 60 in
  JS.padStart2 (JS.toString hour) +:+ ":" +:+ JS.padStart2 (JS.toString minute).

(** *** Strings and class lists

    White space and letter case are modelled on ASCII: [\s] is tab, line
    feed, vertical tab, form feed, carriage return and space, and
    [toLowerCase] maps [A]-[Z]; the other bytes (of UTF-8 sequences) are
    left alone.  This is what JavaScript does to a string whose characters
    beyond ASCII are neither upper-case letters nor white space (the
    accented lower-case letters of the category names, say). *)

Definition is_space (c : ascii) : bool :=
  let n := nat_of_ascii c in
  ((9 <=? n)%nat && (n <=? 13)%nat) || (n =? 32)%nat.

Definition to_lower (c : ascii) : ascii :=
  let n := nat_of_ascii c in
  if (65 <=? n)%nat && (n <=? 90)%nat then ascii_of_nat (n + 32) else c.

Definition toLowerCase (cs : list ascii) : list ascii := map to_lower cs.

Fixpoint trimStart (cs : list ascii) : list ascii :=
  match cs with
  | c :: rest => if is_space c then trimStart rest else cs
  | [] => []
  end.

Definition trim (cs : list ascii) : list ascii :=
  rev (trimStart (rev (trimStart cs))).

(** [s.replace(/\s+/g, "-")]; [inRun] tells that the previous character was
    white space, already replaced. *)
Fixpoint hyphenate (inRun : bool) (cs : list ascii) : list ascii :=
  match cs with
  | [] => []
  | c :: rest =>
      if is_space c then
        if inRun then hyphenate true rest else "-"%char :: hyphenate true rest
      else c :: hyphenate false rest
  end.

(** [[^)]*\)] at the head of [cs]: what follows the first closing
    parenthesis. *)
Fixpoint afterClose (cs : list ascii) : option (list ascii) :=
  match cs with
  | [] => None
  | c :: rest => if Ascii.eqb c ")" then Some rest else afterClose rest
  end.

(** [\s*\([^)]*\)] at the head of [cs]: what follows the match.  The greedy
    [\s*] needs no backtracking, an opening parenthesis being no white
    space. *)
Fixpoint matchParenthetical (cs : list ascii) : option (list ascii) :=
  match cs with
  | [] => None
  | c :: rest =>
      if is_space c then matchParenthetical rest
      else if Ascii.eqb c "(" then afterClose rest
      else None
  end.

(** [s.replace(/\s*\([^)]*\)/g, '')]: every match is dropped, scanning from
    the left and resuming after each match.  A match is never empty, so the
    length of the string is fuel enough. *)
Fixpoint stripParentheticals (fuel : nat) (cs : list ascii) : list ascii :=
  match fuel with
  | O => cs
  | S fuel =>
      match matchParenthetical cs with
      | Some rest => stripParentheticals fuel rest
      | None =>
          match cs with
          | [] => []
          | c :: rest => c :: stripParentheticals fuel rest
          end
      end
  end.

(** Exceptions of [classList.add]. *)
Inductive DOMException : Type :=
  | SyntaxError
  | InvalidCharacterError.

(** ASCII white space in the sense of the DOM standard. *)
Definition is_ascii_whitespace (c : ascii) : bool :=
  let n := nat_of_ascii c in
  (n =? 9)%nat || (n =? 10)%nat || (n =? 12)%nat || (n =? 13)%nat || (n =? 32)%nat.

(** The check [classList.add] runs on every token before it adds any. *)
Definition validateToken (token : string) : option DOMException :=
  if String.eqb token EmptyString then Some SyntaxError
  else if existsb is_ascii_whitespace (list_ascii_of_string token)
       then Some InvalidCharacterError
       else None.

Definition appendToken (classes : list string) (token : string) : list string :=
  if existsb (String.eqb token) classes then classes else classes ++ [token].

(** [el.classList.add(t1, ..., tn)] *)
Definition classList_add (tokens : list string) (classes : list string)
  : DOMException + list string :=
  match omap validateToken tokens with
  | e :: _ => inl e
  | [] => inr (fold_left appendToken tokens classes)
  end.

(** One line of [detailsElem]: its class, the icon classes when icons are
    shown, the label when they are not, and the field shown. *)
Record Detail : Type := mkDetail {
  detail_class : string;
  detail_icon : option string;
  detail_label : option string;
  detail_value : string
}.

(** [value && value !== sentinel] *)
Definition shown (value sentinel : string) : bool :=
  negb (String.eqb value EmptyString) && negb (String.eqb value sentinel).

(** The [if (this.options.showIcons) ... else ...] block of [render], the
    same in both revisions. *)
Definition eventDetails (options : Options) (event : Event) : list Detail :=
  let line (class icon label value : string) : Detail :=
    if showIcons options then mkDetail class (Some icon) None value
    else mkDetail class None (Some label) value in
  (if shown (location event) "TBD"
   then [line "location" "fas fa-map-marker-alt" "Location: " (location event)]
   else []) ++
  (if shown (staff event) "N/A"
   then [line "staff" "fas fa-user" "Staff: " (staff event)] else []) ++
  (if shown (group event) "All"
   then [line "group" "fas fa-users" "Group: " (group event)] else []) ++
  (if negb (String.eqb (remarks event) EmptyString)
   then [line "remarks" "fas fa-info-circle" "Note: " (remarks event)] else []).

(** The class added for the duration. *)
Definition durationClass (event : Event) : string :=
  if duration event <=? 30 then "short-event"
  else if duration event <=? 60 then "medium-event"
  else "long-event".

(** The [div] built for an event: its classes, those of the colour bar, the
    title, the time range, the details and whether it takes clicks. *)
Record EventDiv : Type := mkEventDiv {
  div_classes : list string;
  bar_classes : list string;
  div_title : string;
  div_time : string;
  div_details : list Detail;
  div_click : bool
}.

Section EventElement.

(** The two revisions differ in how the class of the category is made and
    in the click handler. *)
Variable categoryClass : string -> string.
Variable clickable : bool.

(** "Create the event div" up to [cell.appendChild(eventDiv)].  The table
    body above keeps the layout only; whether the element of an event cell
    can be built at all is told here. *)
Definition makeEventDiv (options : Options) (event : Event)
  : DOMException + EventDiv :=
  match classList_add ["event"; categoryClass (category event)] [] with
  | inl e => inl e
  | inr classes =>
      let classes := appendToken classes (durationClass event) in
      match classList_add ["event-color-bar"; categoryClass (category event)] [] with
      | inl e => inl e
      | inr bar =>
          inr (mkEventDiv classes bar (name event)
                 (startTime event +:+ " - " +:+ endTime event)
                 (eventDetails options event) clickable)
      end
  end.

End EventElement.

Section Elements.

(** How the element of an event is built. *)
Variable build : Event -> DOMException + EventDiv.

(** The elements of the event cells of a row, in the order in which
    [render] appends the cells; the first exception ends the rendering. *)
Fixpoint buildCells (cells : list Cell) : DOMException + list EventDiv :=
  match cells with
  | [] => inr []
  | cell :: rest =>
      match cell_content cell with
      | EmptyCell => buildCells rest
      | EventCell event _ _ =>
          match build event with
          | inl e => inl e
          | inr div =>
              match buildCells rest with
              | inl e => inl e
              | inr divs => inr (div :: divs)
              end
          end
      end
  end.

Fixpoint buildRows (rows : list Row) : DOMException + list EventDiv :=
  match rows with
  | [] => inr []
  | row :: rest =>
      match buildCells (row_cells row) with
      | inl e => inl e
      | inr divs =>
          match buildRows rest with
          | inl e => inl e
          | inr divs' => inr (divs ++ divs')
          end
      end
  end.

End Elements.

(** *** The modal of the first revision *)

(** One [timetable-modal-info] block: heading and text. *)
Record InfoBlock : Type := mkInfoBlock {
  info_heading : string;
  info_text : string
}.

(** What of the modal can be seen: the classes of the colour indicator, the
    title, the blocks of the body, whether the footer holds its button and
    whether the backdrop carries the class [active]. *)
Record Modal : Type := mkModal {
  modal_colorClasses : list string;
  modal_title : string;
  modal_body : list InfoBlock;
  modal_footerButton : bool;
  modal_active : bool
}.

(** [this.modalElement] ([None] for [null]) and
    [document.body.style.overflow]. *)
Record Page : Type := mkPage {
  modalElement : option Modal;
  bodyOverflow : string
}.

(** ** The first revision, continued *)

Module V1More.

(** [_cleanCategoryForCss] *)
Definition cleanCategoryForCss (category : string) : string :=
  if String.eqb category EmptyString then "other"
  else
    let cs := list_ascii_of_string category in
    string_of_list_ascii
      (hyphenate false
         (trim (toLowerCase (stripParentheticals (length cs) cs)))).

Definition makeEventDiv (options : Options) (event : Event)
  : DOMException + EventDiv :=
  makeEventDiv cleanCategoryForCss (modalEnabled options) options event.


(** The [content] string of [openModal], block by block. *)
Definition modalContent (event : Event) : list InfoBlock :=
  [mkInfoBlock "Time" (startTime event +:+ " - " +:+ endTime event)] ++
  (if negb (String.eqb (category event) EmptyString)
   then [mkInfoBlock "Category" (category event)] else []) ++
  (if shown (location event) "TBD"
   then [mkInfoBlock "Location" (location event)] else []) ++
  (if shown (staff event) "N/A"
   then [mkInfoBlock "Staff" (staff event)] else []) ++
  (if shown (group event) "All"
   then [mkInfoBlock "Group" (group event)] else []) ++
  (if negb (String.eqb (remarks event) EmptyString)
   then [mkInfoBlock "Notes" (remarks event)] else []).

(** [openModal]: [inl] carries the exception of [classList.add] together
    with the page as the exception leaves it (the class name of the colour
    indicator is reset before the class is added). *)
Definition openModal (options : Options) (page : Page) (event : Event)
  : DOMException * Page + Page :=
  match modalElement page with
  | None => inr page
  | Some modal =>
      if negb (modalEnabled options) then inr page
      else
        let categoryClass := cleanCategoryForCss (category event) in
        match classList_add [categoryClass] ["modal-color-indicator"] with
        | inl e =>
            inl (e, mkPage (Some (mkModal ["modal-color-indicator"]
                                    (modal_title modal) (modal_body modal)
                                    (modal_footerButton modal)
                                    (modal_active modal)))
                      (bodyOverflow page))
        | inr classes =>
            inr (mkPage (Some (mkModal classes (name event)
                                 (modalContent event) true true))
                   "hidden")
        end
  end.



End V1More.

(** ** The second revision, continued *)

Module V2More.

(** [event.category.toLowerCase().replace(/\s+/g, "-")] *)
Definition categoryClass (category : string) : string :=
  string_of_list_ascii
    (hyphenate false (toLowerCase (list_ascii_of_string category))).

Definition makeEventDiv (options : Options) (event : Event)
  : DOMException + EventDiv :=
  makeEventDiv categoryClass false options event.

End V2More.

(** * The vocabulary of the statements *)

(** ** Grids, buckets and fields *)

(** The minutes [start], [start + interval], ... of [n] consecutive rows. *)
Definition gridTimes (start interval : Z) (n : nat) : list Z :=
  map (fun k : nat => start + Z.of_nat k * interval) (seq 0 n).

(** The number of turns of the loop entered at [time]. *)
Definition slotCount (interval endTime time : Z) : nat :=
  Z.to_nat (JS.ceil_div (endTime - time) interval).

(** A grid whose rows start [interval] minutes apart, as both generators
    build it. *)
Definition regularGrid (start interval : Z) (timeSlots : list TimeSlot) : Prop :=
  map minutes timeSlots = gridTimes start interval (length timeSlots).

Definition allEvents (data : Schedule) : list Event := concat (map snd data).

Definition boundsStep (acc : Z * Z) (event : Event) : Z * Z :=
  (Z.min acc.1 (startMinutes event), Z.max acc.2 (endMinutes event)).

Section Buckets.

Variable days : list string.
Variable categoryKey : string.

(** What a record adds to the bucket of day [k]: its event when its date
    resolves to [k] and its time range parses, nothing otherwise. *)
Definition bucketEvent (k : string) (event : RawEvent) : list Event :=
  match getDayOfWeek days (event !! "Date"), processTime (event !! "Heure") with
  | JS.Ok day, JS.Ok timeInfo =>
      if String.eqb (JS.property_key day) k
      then [makeEvent categoryKey timeInfo event] else []
  | _, _ => []
  end.

(** The events of day [k], in the order of the raw records. *)
Definition bucketOf (k : string) (rawData : list RawEvent) : list Event :=
  concat (map (bucketEvent k) rawData).

End Buckets.

Definition returned {A : Type} (r : JS.result A) : bool :=
  match r with
  | JS.Ok _ => true
  | _ => false
  end.

Definition eventsOf (r : JS.result Schedule) : list Event :=
  match r with
  | JS.Ok data => allEvents data
  | _ => []
  end.



(** The comparator [(a, b) => key(a) - key(b)]. *)
Definition byKey {A : Type} (key : A -> Z) (a b : A) : Z := key a - key b.

(** ** Layouts *)

(** An event cell for [e] stands in row [k] of the table, in the column of
    day [d]. *)
Definition placedAt (layout : Layout) (k : nat) (d : string) (e : Event) : Prop :=
  exists (row : Row) (rowspan : option Z) (clickable : bool),
    rows layout !! k = Some row /\
    mkCell d (EventCell e rowspan clickable) ∈ row_cells row.


Section Layouts.

Variable startsHere : Z -> TimeSlot -> Event -> bool.
Variable getRowSpan : Z -> Z.
Variable clickable : bool.
Variable len : Z.

(** The cell made for an event. *)
Definition eventCell (day : string) (event : Event) : Cell :=
  let rowSpan := getRowSpan (duration event) in
  mkCell day (EventCell event (if 1 <? rowSpan then Some rowSpan else None)
                clickable).

(** The rows below [slotIndex] covered by the span of [event]. *)
Definition inSpan (slotIndex : Z) (event : Event) (r : Z) : Prop :=
  slotIndex + 1 <= r <= slotIndex + getRowSpan (duration event) - 1 /\ r < len.

(** The cells a day contributes to the row [slotIndex], given which of its
    rows are occupied. *)
Definition dayCells (occupied : Occupied) (slotIndex : Z) (timeSlot : TimeSlot)
  (entry : string * list Event) : list Cell :=
  if bool_decide ((entry.1, slotIndex) ∈ occupied) then []
  else
    let eventsStartingHere := List.filter (startsHere slotIndex timeSlot) entry.2 in
    if (0 <? length eventsStartingHere)%nat
    then map (eventCell entry.1) eventsStartingHere
    else [mkCell entry.1 EmptyCell].

(** The rows of the table, given the final occupancy. *)
Fixpoint layoutRows (occupied : Occupied) (data : Schedule) (slotIndex : Z)
  (timeSlots : list TimeSlot) : list Row :=
  match timeSlots with
  | [] => []
  | timeSlot :: rest =>
      mkRow timeSlot (concat (map (dayCells occupied slotIndex timeSlot) data))
      :: layoutRows occupied data (slotIndex + 1) rest
  end.

(** The whole table body, as both [render] methods build it. *)
Definition renderLayout (timeSlots : list TimeSlot) (data : Schedule) : Layout :=
  let '(rows, occupied) :=
    renderRows startsHere getRowSpan clickable len data 0 timeSlots ([], ∅) in
  mkLayout rows occupied.

End Layouts.

(** The event cells of a table: row, day and event name of each. *)
Definition eventCells (layout : Layout) : list (nat * string * string) :=
  concat
    (imap
       (fun (k : nat) (row : Row) =>
          omap
            (fun cell : Cell =>
               match cell_content cell with
               | EventCell e _ _ => Some (k, cell_day cell, name e)
               | EmptyCell => None
               end)
            (row_cells row))
       (rows layout)).

(** The occupied rows of each day, in row order. *)
Definition occupiedRows (this : Timetable) (layout : Layout)
  : list (string * list Z) :=
  map (fun day : string =>
         (day,
          List.filter (fun r : Z => bool_decide ((day, r) ∈ cellOccupied layout))
            (seqZ 0 (Z.of_nat (length (rows layout))))))
      (map fst (data this)).

(** What a construction leaves to see: per event of the schedule its name
    and cached [slotIndex], the event cells drawn, and the occupied rows. *)
Definition summary (r : JS.result (Timetable * option Layout))
  : option (list (string * option Z) * list (nat * string * string)
            * list (string * list Z)) :=
  match r with
  | JS.Ok (this, Some layout) =>
      Some (map (fun e => (name e, slotIndex e)) (allEvents (data this)),
            eventCells layout, occupiedRows this layout)
  | _ => None
  end.

(** ** Inputs of the scenarios *)

Definition noOptions : UserOptions := mkUserOptions None None None None None.

(** Events from 09:05 to 10:50 on two days and 30-minute rows. *)
Definition scenarioOptions : Options :=
  V2.mergeDefaultOptions (mkUserOptions None (Some 30) None None None).

Definition scenarioRaw : list RawEvent :=
  [ {[ "Date" := "10/03/2025"; "Heure" := "09:05-09:50" ]};
    {[ "Date" := "11/03/2025"; "Heure" := "10:00-10:50" ]} ].

Definition scenarioData : Schedule :=
  match V2.prepareData scenarioOptions scenarioRaw with
  | JS.Ok data => data
  | _ => []
  end.

(** Monday 10, Tuesday 11 March 2025 and Saturday 6 January 2024. *)
Definition mondayRaw : RawEvent :=
  {[ "Date" := "10/03/2025"; "Heure" := "14:00-15:00"; "Matière" := "IN2R06" ]}.
Definition tuesdayRaw : RawEvent :=
  {[ "Date" := "11/03/2025"; "Heure" := "09:00-10:30"; "Matière" := "IN2R07" ]}.
Definition saturdayRaw : RawEvent :=
  {[ "Date" := "06/01/2024"; "Heure" := "10:00-11:00"; "Matière" := "IN2R08" ]}.

Definition badTimeSaturdayRaw : RawEvent :=
  {[ "Date" := "06/01/2024"; "Heure" := "9h00-10h00"; "Matière" := "IN2R08" ]}.
Definition badTimeMondayRaw : RawEvent :=
  {[ "Date" := "10/03/2025"; "Heure" := "9h00-10h00"; "Matière" := "IN2R08" ]}.

Definition bareRaw : RawEvent :=
  {[ "Date" := "10/03/2025"; "Heure" := "14:00-15:00" ]}.

Definition categoryOnlyEvent : Event :=
  mkEvent "14:00" "15:00" 840 900 60 "Travaux Dirigés (TD)" "TBD" "N/A" "All"
    "Travaux Dirigés (TD)" EmptyString None.

(** Three Monday records, the first and the last both starting at 10:00. *)
Definition tieRaw : list RawEvent :=
  [ {[ "Date" := "10/03/2025"; "Heure" := "10:00-11:00"; "Matière" := "first" ]};
    {[ "Date" := "10/03/2025"; "Heure" := "08:30-09:30"; "Matière" := "early" ]};
    {[ "Date" := "10/03/2025"; "Heure" := "10:00-12:00"; "Matière" := "second" ]} ].

Definition tieData : Schedule :=
  match V2.prepareData (V2.mergeDefaultOptions noOptions) tieRaw with
  | JS.Ok data => data
  | _ => []
  end.

Definition tieSorted : list Event :=
  default [] (obj_get "Monday" (sortDays tieData)).

(** Two Monday events: A from 09:00 to 10:00 and B from 09:30 to 11:00. *)
Definition overlapRaw : list RawEvent :=
  [ {[ "Date" := "10/03/2025"; "Heure" := "09:00-10:00"; "Matière" := "A" ]};
    {[ "Date" := "10/03/2025"; "Heure" := "09:30-11:00"; "Matière" := "B" ]} ].

Definition mondayOnly : UserOptions :=
  mkUserOptions (Some ["Monday"]) None None None None.

(** The first revision's instance and table for [overlapRaw], default
    options on a Monday-only week. *)
Definition overlapThis : Timetable :=
  match V1.new true overlapRaw mondayOnly with
  | JS.Ok (this, _) => this
  | _ => mkTimetable false (V1.mergeDefaultOptions mondayOnly) [] []
  end.

Definition overlapLayout : Layout :=
  V1.renderBody (options overlapThis) (timeSlots overlapThis) (data overlapThis).

Definition eventB : Event :=
  mkEvent "09:30" "11:00" 570 660 90 "B" "TBD" "N/A" "All" "Other" EmptyString
    (Some 6).

(** ** Inputs of further scenarios *)


Definition noDateRaw : RawEvent :=
  {[ "Heure" := "10:00-11:00"; "Matière" := "IN2R09" ]}.
Definition noTimeRaw : RawEvent :=
  {[ "Date" := "10/03/2025"; "Matière" := "IN2R09" ]}.
Definition isoDateRaw : RawEvent :=
  {[ "Date" := "2025-03-10"; "Heure" := "9h00-10h00"; "Matière" := "IN2R09" ]}.

(** A week with Saturday in it. *)
Definition weekendOptions : Options :=
  mkOptions ["Monday"; "Saturday"] 15 2 true true.

Definition weekendDataV1 : Schedule :=
  match V1.prepareData weekendOptions [saturdayRaw; mondayRaw] with
  | JS.Ok data => data
  | _ => []
  end.

Definition bareData : Schedule :=
  match V1.prepareData (V1.mergeDefaultOptions noOptions) [bareRaw] with
  | JS.Ok data => data
  | _ => []
  end.

(** ** Vocabulary for the state [render] leaves behind *)

(** [event] with its [slotIndex] property set to [index] and nothing else
    changed. *)
Definition setSlotIndex (index : option Z) (event : Event) : Event :=
  {| startTime := startTime event;
     endTime := endTime event;
     startMinutes := startMinutes event;
     endMinutes := endMinutes event;
     duration := duration event;
     name := name event;
     location := location event;
     staff := staff event;
     group := group event;
     category := category event;
     remarks := remarks event;
     slotIndex := index |}.

(** [event] carrying the row [getTimeSlotIndex] gives its start. *)
Definition withSlot (options : Options) (timeSlots : list TimeSlot)
  (event : Event) : Event :=
  setSlotIndex
    (match V1.getTimeSlotIndex options timeSlots (startMinutes event) with
     | JS.Ok index => Some index
     | _ => None
     end) event.

(** The schedule the first revision's [render] stores: every day sorted and
    every event carrying its row. *)
Definition slotted (options : Options) (timeSlots : list TimeSlot)
  (data : Schedule) : Schedule :=
  map (fun entry : string * list Event =>
         (entry.1, map (withSlot options timeSlots) entry.2))
      (sortDays data).

(** The table body of a schedule without events: one row per time slot and
    in each an empty cell for every day, nothing occupied. *)
Definition emptyTable (timeSlots : list TimeSlot) (data : Schedule) : Layout :=
  mkLayout
    (map (fun timeSlot : TimeSlot =>
            mkRow timeSlot
              (map (fun entry : string * list Event => mkCell entry.1 EmptyCell)
                 data))
       timeSlots)
    ∅.

(** Row [k] of the table has a cell in the column of [day]. *)
Definition hasCell (layout : Layout) (k : nat) (day : string) : Prop :=
  exists (row : Row) (cell : Cell),
    rows layout !! k = Some row /\ cell ∈ row_cells row /\ cell_day cell = day.

(** The other event of [overlapRaw], as the first revision stores it. *)
Definition eventA : Event :=
  mkEvent "09:00" "10:00" 540 600 60 "A" "TBD" "N/A" "All" "Other" EmptyString
    (Some 4).

(** The events of the event cells of a table, in the order of the cells. *)
Definition drawnEvents (layout : Layout) : list Event :=
  concat
    (map (fun row : Row =>
            omap (fun cell : Cell =>
                    match cell_content cell with
                    | EventCell e _ _ => Some e
                    | EmptyCell => None
                    end)
              (row_cells row))
       (rows layout)).

(** A class token [classList.add] accepts. *)
Definition validToken (token : string) : Prop := validateToken token = None.

(** A record of Monday 10 March 2025 whose category is all in parentheses,
    under either spelling of the key. *)
Definition parenthesizedRaw : RawEvent :=
  {[ "Date" := "10/03/2025"; "Heure" := "09:00-10:00"; "Matière" := "IN2R06";
     V1.categoryKey := "(TD)"; V2.categoryKey := "(TD)" ]}.

(** The event [bareRaw] is normalized to. *)
Definition bareEvent : Event :=
  mkEvent "14:00" "15:00" 840 900 60 "Unspecified" "TBD" "N/A" "All" "Other"
    EmptyString None.

(** The element built for an event whose category gives the class token
    [categoryClass (category event)]. *)
Definition builtDiv (categoryClass : string -> string) (clickable : bool)
  (options : Options) (event : Event) : EventDiv :=
  mkEventDiv
    (appendToken (appendToken ["event"] (categoryClass (category event)))
       (durationClass event))
    (appendToken ["event-color-bar"] (categoryClass (category event)))
    (name event) (startTime event +:+ " - " +:+ endTime event)
    (eventDetails options event) clickable.


Definition parenthesizedEvent : Event :=
  mkEvent "09:00" "10:00" 540 600 60 "IN2R06" "TBD" "N/A" "All" "(TD)"
    EmptyString (Some 4).

(** ** Vocabulary for the modal and the details *)

(** The page while the modal shows [event]. *)
Definition openedPage (event : Event) : Page :=
  mkPage
    (Some (mkModal
             (appendToken ["modal-color-indicator"]
                (V1More.cleanCategoryForCss (category event)))
             (name event) (V1More.modalContent event) true true))
    "hidden".






(** The second revision's instance and table for [overlapRaw], and its two
    events, which carry no [slotIndex]. *)
Definition overlapThis2 : Timetable :=
  match V2.new true overlapRaw mondayOnly with
  | JS.Ok (this, _) => this
  | _ => mkTimetable false (V2.mergeDefaultOptions mondayOnly) [] []
  end.

Definition overlapLayout2 : Layout :=
  V2.renderBody (options overlapThis2) (timeSlots overlapThis2)
    (data overlapThis2).

Definition eventA2 : Event := setSlotIndex None eventA.
Definition eventB2 : Event := setSlotIndex None eventB.

(** * Properties *)

(** ** Floor and ceiling *)

Lemma ceil_div_bounds (a b : Z) :
  0 < b -> (JS.ceil_div a b - 1) * b < a <= JS.ceil_div a b * b.
Proof.
  intros Hb. unfold JS.ceil_div.
  pose proof (Z.div_mod (- a) b ltac:(lia)) as Hdm.
  pose proof (Z.mod_pos_bound (- a) b Hb) as Hmod.
  nia.
Qed.

Lemma ceil_div_unique (a b n : Z) :
  0 < b -> (n - 1) * b < a <= n * b -> JS.ceil_div a b = n.
Proof.
  intros Hb Hn. pose proof (ceil_div_bounds a b Hb) as Hc. nia.
Qed.

Lemma ceil_div_step (a b : Z) :
  0 < b -> JS.ceil_div (a - b) b = JS.ceil_div a b - 1.
Proof.
  intros Hb. apply ceil_div_unique; [done|].
  pose proof (ceil_div_bounds a b Hb). nia.
Qed.

Lemma ceil_div_pos (a b : Z) : 0 < b -> 0 < a -> 0 < JS.ceil_div a b.
Proof. intros Hb Ha. pose proof (ceil_div_bounds a b Hb). nia. Qed.

Lemma ceil_div_nonpos (a b : Z) : 0 < b -> a <= 0 -> JS.ceil_div a b <= 0.
Proof. intros Hb Ha. pose proof (ceil_div_bounds a b Hb). nia. Qed.

Lemma ceil_div_multiple (k b : Z) : 0 < b -> JS.ceil_div (k * b) b = k.
Proof. intros Hb. apply ceil_div_unique; [done|]. nia. Qed.

Lemma floor_div_bounds (a b : Z) :
  0 < b -> JS.floor_div a b * b <= a < (JS.floor_div a b + 1) * b.
Proof.
  intros Hb. unfold JS.floor_div.
  pose proof (Z.div_mod a b ltac:(lia)) as Hdm.
  pose proof (Z.mod_pos_bound a b Hb) as Hmod.
  nia.
Qed.


(** ** The slot loop *)

Lemma gridTimes_S (start interval : Z) (n : nat) :
  gridTimes start interval (S n) = start :: gridTimes (start + interval) interval n.
Proof.
  unfold gridTimes. simpl. f_equal; [lia|].
  rewrite <- seq_shift, map_map. apply map_ext. intros k. lia.
Qed.

Lemma gridTimes_length (start interval : Z) (n : nat) :
  length (gridTimes start interval n) = n.
Proof. unfold gridTimes. by rewrite length_map, length_seq. Qed.

Lemma gridTimes_lookup (start interval : Z) (n k : nat) :
  (k < n)%nat -> gridTimes start interval n !! k = Some (start + Z.of_nat k * interval).
Proof.
  intros Hk. unfold gridTimes. rewrite list_lookup_fmap.
  rewrite lookup_seq_lt by done. done.
Qed.

Lemma elem_of_gridTimes (start interval : Z) (n : nat) (t : Z) :
  t ∈ gridTimes start interval n <->
  exists k : nat, (k < n)%nat /\ t = start + Z.of_nat k * interval.
Proof.
  unfold gridTimes. rewrite list_elem_of_fmap. split.
  - intros (k & -> & Hk). apply elem_of_seq in Hk. exists k. split; [lia|done].
  - intros (k & Hk & ->). exists k. split; [done|]. apply elem_of_seq. lia.
Qed.

Lemma slotsLoop_total (interval endTime : Z) (fuel : nat) (time : Z) :
  0 < interval ->
  endTime - time <= Z.of_nat fuel ->
  slotsLoop fuel interval endTime time =
    JS.Ok (map makeSlot (gridTimes time interval (slotCount interval endTime time))).
Proof.
  intros Hi. revert time. induction fuel as [|fuel IH]; intros time Hfuel.
  - simpl. destruct (Z.ltb_spec time endTime) as [Hlt|Hge]; [lia|].
    unfold slotCount.
    pose proof (ceil_div_nonpos (endTime - time) interval Hi ltac:(lia)).
    by replace (Z.to_nat _) with O by lia.
  - simpl. destruct (Z.ltb_spec time endTime) as [Hlt|Hge].
    + rewrite IH by lia. simpl.
      assert (slotCount interval endTime time
              = S (slotCount interval endTime (time + interval))) as ->.
      { unfold slotCount.
        replace (endTime - (time + interval)) with (endTime - time - interval) by lia.
        rewrite ceil_div_step by done.
        pose proof (ceil_div_pos (endTime - time) interval Hi ltac:(lia)). lia. }
      by rewrite gridTimes_S.
    + unfold slotCount.
      pose proof (ceil_div_nonpos (endTime - time) interval Hi ltac:(lia)).
      by replace (Z.to_nat _) with O by lia.
Qed.

Lemma slotsBetween_total (startTime endTime interval : Z) :
  0 < interval ->
  slotsBetween startTime endTime interval =
    JS.Ok (map makeSlot
             (gridTimes startTime interval (slotCount interval endTime startTime))).
Proof.
  intros Hi. unfold slotsBetween. apply slotsLoop_total; [done|lia].
Qed.

Lemma minutes_makeSlot (times : list Z) : map minutes (map makeSlot times) = times.
Proof. rewrite map_map. simpl. apply map_id. Qed.

(** ** Row spans *)

(** C2.  With a positive interval, the first revision's [getRowSpan] is the
    ceiling of [duration / interval], that is the one integer [n] with
    [(n - 1) * interval < duration <= n * interval], whatever [minRowSpan] is
    (policy A), and the second revision's is the larger of [minRowSpan] and
    that ceiling (policy B). *)
Theorem getRowSpan_policies (options : Options) (duration : Z) :
  0 < timeInterval options ->
  ((V1.getRowSpan options duration - 1) * timeInterval options < duration
     <= V1.getRowSpan options duration * timeInterval options) /\
  (forall n : Z,
     (n - 1) * timeInterval options < duration <= n * timeInterval options ->
     V1.getRowSpan options duration = n) /\
  (forall m : Z,
     V1.getRowSpan
       (mkOptions (weekdays options) (timeInterval options) m
          (showIcons options) (modalEnabled options)) duration
     = V1.getRowSpan options duration) /\
  V2.getRowSpan options duration
    = Z.max (minRowSpan options) (V1.getRowSpan options duration).
Proof.
  intros Hi. unfold V1.getRowSpan, V2.getRowSpan. simpl.
  repeat split.
  - apply ceil_div_bounds, Hi.
  - apply ceil_div_bounds, Hi.
  - intros n Hn. by apply ceil_div_unique.
Qed.

(** Under the default options (interval 15, [minRowSpan] 2): 14:00-15:00
    lasts 60 minutes and spans 4 rows under both policies; 14:00-14:10 lasts
    10 minutes, its ceiling is 1 and policy B gives 2. *)
Lemma getRowSpan_policies_witness :
  processTime (Some "14:00-15:00")
    = JS.Ok (mkTimeInfo "14:00" "15:00" 840 900 60) /\
  V1.getRowSpan (V1.mergeDefaultOptions noOptions) 60 = 4 /\
  V2.getRowSpan (V2.mergeDefaultOptions noOptions) 60 = 4 /\
  processTime (Some "14:00-14:10")
    = JS.Ok (mkTimeInfo "14:00" "14:10" 840 850 10) /\
  V1.getRowSpan (V1.mergeDefaultOptions noOptions) 10 = 1 /\
  V2.getRowSpan (V2.mergeDefaultOptions noOptions) 10 = 2.
Proof.
  assert (0 < timeInterval (V1.mergeDefaultOptions noOptions)) as H1
    by (simpl; lia).
  assert (0 < timeInterval (V2.mergeDefaultOptions noOptions)) as H2
    by (simpl; lia).
  destruct (getRowSpan_policies (V1.mergeDefaultOptions noOptions) 60 H1)
    as (_ & Ha & _ & _).
  destruct (getRowSpan_policies (V2.mergeDefaultOptions noOptions) 60 H2)
    as (_ & Hb & _ & Hc).
  destruct (getRowSpan_policies (V1.mergeDefaultOptions noOptions) 10 H1)
    as (_ & Hd & _ & _).
  destruct (getRowSpan_policies (V2.mergeDefaultOptions noOptions) 10 H2)
    as (_ & He & _ & Hf).
  split; [reflexivity|]. split; [apply Ha; simpl; lia|].
  split; [rewrite Hc, (Hb 4) by (simpl; lia); reflexivity|].
  split; [reflexivity|]. split; [apply Hd; simpl; lia|].
  rewrite Hf, (He 1) by (simpl; lia). reflexivity.
Defined.

(** ** The data-driven grid *)

Lemma bounds_allEvents (data : Schedule) (acc : Z * Z) :
  fold_left V2.boundsDay (map snd data) acc
  = fold_left boundsStep (allEvents data) acc.
Proof.
  revert acc. induction data as [|[day events] data IH]; intros acc; [done|].
  unfold allEvents. simpl. rewrite fold_left_app. apply IH.
Qed.

Lemma boundsStep_fold (events : list Event) (acc : Z * Z) :
  let r := fold_left boundsStep events acc in
  (r.1 <= acc.1 /\ Forall (fun e => r.1 <= startMinutes e) events /\
   (r.1 = acc.1 \/ Exists (fun e => r.1 = startMinutes e) events)) /\
  (acc.2 <= r.2 /\ Forall (fun e => endMinutes e <= r.2) events /\
   (r.2 = acc.2 \/ Exists (fun e => r.2 = endMinutes e) events)).
Proof.
  revert acc. induction events as [|e events IH]; intros acc; simpl.
  - repeat split; try lia; auto.
  - destruct (IH (boundsStep acc e)) as ((H1 & H2 & H3) & (H4 & H5 & H6)).
    simpl in *. split; split_and!.
    + lia.
    + constructor; [lia|done].
    + destruct H3 as [H3|H3]; [|by right; apply Exists_cons_tl].
      destruct (Z.min_spec acc.1 (startMinutes e)) as [[? Hm]|[? Hm]].
      * left. lia.
      * right. apply Exists_cons_hd. lia.
    + lia.
    + constructor; [lia|done].
    + destruct H6 as [H6|H6]; [|by right; apply Exists_cons_tl].
      destruct (Z.max_spec acc.2 (endMinutes e)) as [[? Hm]|[? Hm]].
      * right. apply Exists_cons_hd. lia.
      * left. lia.
Qed.

(** With at least one event starting by 23:59, the bounds are the least
    start and the greatest end. *)
Lemma bounds_min_max (data : Schedule) (lo hi : Z) :
  lo ∈ map startMinutes (allEvents data) ->
  (forall e, e ∈ allEvents data -> lo <= startMinutes e) ->
  hi ∈ map endMinutes (allEvents data) ->
  (forall e, e ∈ allEvents data -> endMinutes e <= hi) ->
  lo <= 1439 -> 0 <= hi ->
  V2.bounds data = (lo, hi).
Proof.
  intros Hlo Hmin Hhi Hmax Hlo' Hhi'. unfold V2.bounds.
  rewrite bounds_allEvents.
  pose proof (boundsStep_fold (allEvents data) (23 * 60 + 59, 0)) as Hb.
  destruct (fold_left boundsStep (allEvents data) (23 * 60 + 59, 0)) as [s e].
  simpl in Hb. destruct Hb as ((H1 & H2 & H3) & (H4 & H5 & H6)).
  rewrite Forall_forall in H2, H5.
  apply list_elem_of_fmap in Hlo as (elo & -> & Helo).
  apply list_elem_of_fmap in Hhi as (ehi & -> & Hehi).
  f_equal.
  - apply Z.le_antisymm.
    + apply H2, Helo.
    + destruct H3 as [->|H3]; [lia|].
      apply Exists_exists in H3 as (x & Hx & ->). apply Hmin, Hx.
  - apply Z.le_antisymm.
    + destruct H6 as [->|H6]; [lia|].
      apply Exists_exists in H6 as (x & Hx & ->). apply Hmax, Hx.
    + apply H5, Hehi.
Qed.

Lemma bounds_no_events (data : Schedule) :
  Forall (fun entry : string * list Event => entry.2 = []) data ->
  V2.bounds data = (23 * 60 + 59, 0).
Proof.
  intros Hempty. unfold V2.bounds. rewrite bounds_allEvents.
  replace (allEvents data) with (@nil Event); [done|].
  unfold allEvents. induction Hempty as [|[day events] data Hx _ IH]; [done|].
  simpl in *. by rewrite Hx, <- IH.
Qed.

(** C6.  Data-driven policy of the second revision: when [lo] is the least
    start and [hi] the greatest end over the events of all days (with some
    event starting by 23:59, as times of day do), the grid runs from
    [gridStart = floor(lo / interval) * interval] up to, and not including,
    [gridEnd = ceil(hi / interval) * interval] in steps of [interval]. *)
Theorem generateTimeSlots_data_driven
  (options : Options) (data : Schedule) (lo hi : Z) :
  0 < timeInterval options ->
  lo ∈ map startMinutes (allEvents data) ->
  (forall e, e ∈ allEvents data -> lo <= startMinutes e) ->
  hi ∈ map endMinutes (allEvents data) ->
  (forall e, e ∈ allEvents data -> endMinutes e <= hi) ->
  lo <= 1439 -> 0 <= hi ->
  exists (gridStart gridEnd : Z) (slots : list TimeSlot),
    (timeInterval options | gridStart) /\
    gridStart <= lo < gridStart + timeInterval options /\
    (timeInterval options | gridEnd) /\
    gridEnd - timeInterval options < hi <= gridEnd /\
    V2.generateTimeSlots options data = JS.Ok slots /\
    slots = map makeSlot (map minutes slots) /\
    map minutes slots
      = gridTimes gridStart (timeInterval options)
          (Z.to_nat ((gridEnd - gridStart) / timeInterval options)) /\
    (forall t : Z,
       t ∈ map minutes slots <->
       gridStart <= t < gridEnd /\ (timeInterval options | t - gridStart)).
Proof.
  intros Hi Hlo Hmin Hhi Hmax Hlo' Hhi'.
  set (i := timeInterval options) in *.
  set (f := JS.floor_div lo i). set (c := JS.ceil_div hi i).
  pose proof (floor_div_bounds lo i Hi) as Hf.
  pose proof (ceil_div_bounds hi i Hi) as Hc.
  fold f in Hf. fold c in Hc.
  assert (Hcount : slotCount i (c * i) (f * i) = Z.to_nat (c - f)).
  { unfold slotCount. replace (c * i - f * i) with ((c - f) * i) by lia.
    by rewrite ceil_div_multiple. }
  assert (Hdiv : (c * i - f * i) / i = c - f).
  { replace (c * i - f * i) with ((c - f) * i) by lia.
    apply Z.div_mul. lia. }
  exists (f * i), (c * i), (map makeSlot (gridTimes (f * i) i (Z.to_nat (c - f)))).
  split; [by exists f|]. split; [lia|]. split; [by exists c|]. split; [lia|].
  split.
  { unfold V2.generateTimeSlots.
    rewrite (bounds_min_max data lo hi) by done.
    fold i f c. rewrite slotsBetween_total by done. by rewrite Hcount. }
  rewrite minutes_makeSlot, Hdiv. split; [done|]. split; [done|].
  intros t. rewrite elem_of_gridTimes. split.
  - intros (k & Hk & ->). split; [nia|]. exists (Z.of_nat k). lia.
  - intros (Ht & z & Hz). exists (Z.to_nat z).
    assert (0 <= z) by nia. split; [nia|]. lia.
Qed.

Lemma generateTimeSlots_data_driven_witness :
  map (fun e => (startTime e, endTime e)) (allEvents scenarioData)
    = [("09:05", "09:50"); ("10:00", "10:50")] /\
  V2.generateTimeSlots scenarioOptions scenarioData
    = JS.Ok [mkTimeSlot "09:00" 540 true false; mkTimeSlot "09:30" 570 false true;
             mkTimeSlot "10:00" 600 true false; mkTimeSlot "10:30" 630 false true] /\
  exists (gridStart gridEnd : Z) (slots : list TimeSlot),
    (30 | gridStart) /\ gridStart <= 545 < gridStart + 30 /\
    (30 | gridEnd) /\ gridEnd - 30 < 650 <= gridEnd /\
    V2.generateTimeSlots scenarioOptions scenarioData = JS.Ok slots /\
    slots = map makeSlot (map minutes slots) /\
    map minutes slots
      = gridTimes gridStart 30 (Z.to_nat ((gridEnd - gridStart) / 30)) /\
    (forall t : Z,
       t ∈ map minutes slots <-> gridStart <= t < gridEnd /\ (30 | t - gridStart)).
Proof.
  split; [vm_compute; reflexivity|]. split; [vm_compute; reflexivity|].
  apply (generateTimeSlots_data_driven scenarioOptions scenarioData 545 650).
  - simpl. lia.
  - vm_compute. repeat constructor.
  - apply Forall_forall. vm_compute. repeat constructor; discriminate.
  - vm_compute. repeat constructor.
  - apply Forall_forall. vm_compute. repeat constructor; discriminate.
  - lia.
  - lia.
Defined.

(** C9.  With no event in any day, the second revision's generator returns
    the empty grid, whatever the interval: the bounds stay at their initial
    23:59 and 0, and a start at or after the end gives no row. *)
Theorem generateTimeSlots_no_events (options : Options) (data : Schedule) :
  Forall (fun entry : string * list Event => entry.2 = []) data ->
  V2.generateTimeSlots options data = JS.Ok [].
Proof.
  intros Hempty. unfold V2.generateTimeSlots.
  rewrite (bounds_no_events data Hempty).
  unfold slotsBetween, JS.floor_div, JS.ceil_div.
  set (i := timeInterval options). simpl (- 0). rewrite Zdiv_0_l.
  assert (0 <= (23 * 60 + 59) / i * i) as Hs.
  { destruct (Z.lt_trichotomy i 0) as [Hneg|[->|Hpos]].
    - pose proof (Z.div_mod (23 * 60 + 59) i ltac:(lia)).
      pose proof (Z.mod_neg_bound (23 * 60 + 59) i Hneg). nia.
    - rewrite Z.mul_0_r. lia.
    - pose proof (Z.div_pos (23 * 60 + 59) i ltac:(lia) Hpos). nia. }
  replace (- 0 * i) with 0 by lia.
  generalize dependent ((23 * 60 + 59) / i * i). intros s Hs.
  destruct (Z.to_nat (0 - s)); simpl;
    destruct (Z.ltb_spec s 0); (lia || done).
Qed.

Lemma generateTimeSlots_no_events_witness :
  V2.prepareData (V2.mergeDefaultOptions noOptions) []
    = JS.Ok (initPrepared (V2.mergeDefaultOptions noOptions)) /\
  V2.generateTimeSlots (V2.mergeDefaultOptions noOptions)
    (initPrepared (V2.mergeDefaultOptions noOptions)) = JS.Ok [].
Proof.
  split; [reflexivity|].
  apply generateTimeSlots_no_events. vm_compute. repeat constructor.
Defined.

(** ** The starting row *)

Lemma regularGrid_lookup (start interval : Z) (timeSlots : list TimeSlot)
  (k : nat) (slot : TimeSlot) :
  regularGrid start interval timeSlots ->
  timeSlots !! k = Some slot ->
  minutes slot = start + Z.of_nat k * interval.
Proof.
  intros Hreg Hk.
  assert (map minutes timeSlots !! k = Some (minutes slot)) as Hm.
  { change (map minutes timeSlots) with (minutes <$> timeSlots).
    rewrite list_lookup_fmap, Hk. done. }
  rewrite Hreg, gridTimes_lookup in Hm by (by eapply lookup_lt_Some).
  by injection Hm.
Qed.

Lemma regularGrid_makeSlot (start interval : Z) (n : nat) :
  regularGrid start interval (map makeSlot (gridTimes start interval n)).
Proof.
  unfold regularGrid. by rewrite minutes_makeSlot, length_map, gridTimes_length.
Qed.

Lemma V1_generateTimeSlots_regular (options : Options) :
  0 < timeInterval options ->
  exists timeSlots : list TimeSlot,
    V1.generateTimeSlots options = JS.Ok timeSlots /\
    timeSlots <> [] /\
    regularGrid (8 * 60) (timeInterval options) timeSlots.
Proof.
  intros Hi. unfold V1.generateTimeSlots. simpl.
  rewrite slotsBetween_total by done.
  eexists. split; [done|]. split; [|apply regularGrid_makeSlot].
  unfold slotCount.
  pose proof (ceil_div_pos (18 * 60 - 8 * 60) (timeInterval options) Hi
                ltac:(lia)) as Hc.
  destruct (Z.to_nat _) as [|n] eqn:Hn; [lia|].
  by rewrite gridTimes_S.
Qed.



(** The second revision computes no index: an event goes to the row whose
    window holds its start.  On the grid it derives from the events, every
    event that ends after it starts has exactly one such row. *)
Lemma V2_event_row_in_grid (options : Options) (data : Schedule) (e : Event) :
  0 < timeInterval options ->
  e ∈ allEvents data ->
  startMinutes e < endMinutes e ->
  exists (timeSlots : list TimeSlot) (k : nat) (timeSlot : TimeSlot),
    V2.generateTimeSlots options data = JS.Ok timeSlots /\
    timeSlots !! k = Some timeSlot /\
    V2.startsHere options (Z.of_nat k) timeSlot e = true /\
    forall (k' : nat) (timeSlot' : TimeSlot),
      timeSlots !! k' = Some timeSlot' ->
      V2.startsHere options (Z.of_nat k') timeSlot' e = true -> k' = k.
Proof.
  intros Hi He Hdur. set (i := timeInterval options) in *.
  unfold V2.generateTimeSlots, V2.bounds. rewrite bounds_allEvents.
  pose proof (boundsStep_fold (allEvents data) (23 * 60 + 59, 0)) as Hb.
  destruct (fold_left boundsStep (allEvents data) (23 * 60 + 59, 0)) as [lo hi].
  simpl in Hb. destruct Hb as ((_ & Hlo & _) & (_ & Hhi & _)).
  rewrite Forall_forall in Hlo, Hhi.
  specialize (Hlo e He). specialize (Hhi e He). fold i.
  set (f := JS.floor_div lo i). set (c := JS.ceil_div hi i).
  pose proof (floor_div_bounds lo i Hi) as Hf. fold f in Hf.
  pose proof (ceil_div_bounds hi i Hi) as Hc. fold c in Hc.
  rewrite slotsBetween_total by done.
  assert (Hcount : slotCount i (c * i) (f * i) = Z.to_nat (c - f)).
  { unfold slotCount. replace (c * i - f * i) with ((c - f) * i) by lia.
    by rewrite ceil_div_multiple. }
  rewrite Hcount.
  set (q := JS.floor_div (startMinutes e - f * i) i).
  pose proof (floor_div_bounds (startMinutes e - f * i) i Hi) as Hq. fold q in Hq.
  assert (0 <= q < c - f) as Hrange by nia.
  assert (Hlookup : forall k : nat,
            (k < Z.to_nat (c - f))%nat ->
            map makeSlot (gridTimes (f * i) i (Z.to_nat (c - f))) !! k
            = Some (makeSlot (f * i + Z.of_nat k * i))).
  { intros k Hk.
    change (map makeSlot ?l) with (makeSlot <$> l).
    by rewrite list_lookup_fmap, gridTimes_lookup. }
  eexists _, (Z.to_nat q), _. split; [done|].
  split; [apply Hlookup; lia|]. split.
  - unfold V2.startsHere. simpl. fold i. rewrite Z2Nat.id by lia.
    apply andb_true_iff. lia.
  - intros k' ts' Hk' Hstart.
    assert (k' < Z.to_nat (c - f))%nat as Hlt.
    { apply lookup_lt_Some in Hk'.
      by rewrite length_map, gridTimes_length in Hk'. }
    rewrite Hlookup in Hk' by done. injection Hk' as <-.
    unfold V2.startsHere in Hstart. simpl in Hstart. fold i in Hstart.
    apply andb_true_iff in Hstart. nia.
Qed.

(** ** Objects as ordered dictionaries *)

Section ObjFacts.

Context {V : Type}.
Implicit Types (o : Obj V) (k : string) (v : V).

Lemma obj_get_set k k' v o :
  obj_get k (obj_set k' v o) = if String.eqb k k' then Some v else obj_get k o.
Proof.
  induction o as [|[k0 v0] o IH]; simpl.
  - by destruct (String.eqb_spec k k').
  - destruct (String.eqb_spec k' k0) as [->|Hne]; simpl.
    + by destruct (String.eqb_spec k k0).
    + destruct (String.eqb_spec k k0) as [->|Hne']; [|done].
      destruct (String.eqb_spec k0 k'); [congruence|done].
Qed.

Lemma obj_get_None k o : obj_get k o = None <-> k ∉ map fst o.
Proof.
  induction o as [|[k0 v0] o IH]; simpl.
  - split; [intros _; apply not_elem_of_nil|done].
  - rewrite not_elem_of_cons. destruct (String.eqb_spec k k0) as [->|Hne].
    + split; [done|]. by intros [? _].
    + rewrite IH. tauto.
Qed.

Lemma obj_get_Some_key k v o : obj_get k o = Some v -> k ∈ map fst o.
Proof.
  intros Hget. destruct (decide (k ∈ map fst o)) as [|Hn]; [done|].
  apply obj_get_None in Hn. congruence.
Qed.

Lemma obj_get_elem_of k v o : obj_get k o = Some v -> (k, v) ∈ o.
Proof.
  induction o as [|[k0 v0] o IH]; simpl; [done|].
  destruct (String.eqb_spec k k0) as [->|Hne].
  - intros [= ->]. left.
  - intros Hget. right. by apply IH.
Qed.

Lemma elem_of_obj_get k v o : NoDup (map fst o) -> (k, v) ∈ o -> obj_get k o = Some v.
Proof.
  induction o as [|[k0 v0] o IH]; simpl; intros Hnd Hin.
  - by apply elem_of_nil in Hin.
  - apply NoDup_cons in Hnd as [Hk0 Hnd].
    apply elem_of_cons in Hin as [[= -> ->]|Hin].
    + by rewrite String.eqb_refl.
    + destruct (String.eqb_spec k k0) as [->|Hne]; [|by apply IH].
      exfalso. apply Hk0. apply list_elem_of_fmap. by exists (k0, v).
Qed.

Lemma obj_set_keys_present k v o :
  k ∈ map fst o -> map fst (obj_set k v o) = map fst o.
Proof.
  induction o as [|[k0 v0] o IH]; simpl; intros Hin.
  - by apply elem_of_nil in Hin.
  - destruct (String.eqb_spec k k0) as [->|Hne]; simpl; [done|].
    apply elem_of_cons in Hin as [?|Hin]; [done|]. by rewrite IH.
Qed.

Lemma obj_set_keys_absent k v o :
  k ∉ map fst o -> map fst (obj_set k v o) = map fst o ++ [k].
Proof.
  induction o as [|[k0 v0] o IH]; simpl; intros Hin; [done|].
  apply not_elem_of_cons in Hin as [Hne Hin].
  destruct (String.eqb_spec k k0) as [->|_]; [done|]. simpl. by rewrite IH.
Qed.

Lemma obj_set_NoDup k v o : NoDup (map fst o) -> NoDup (map fst (obj_set k v o)).
Proof.
  intros Hnd. destruct (decide (k ∈ map fst o)) as [Hin|Hnin].
  - by rewrite obj_set_keys_present.
  - rewrite obj_set_keys_absent by done. apply NoDup_app. split; [done|].
    split; [|apply NoDup_singleton].
    intros x Hx Hx'. apply list_elem_of_singleton in Hx' as ->. done.
Qed.

Lemma elem_of_obj_set_keys k k' v o :
  k ∈ map fst (obj_set k' v o) <-> k = k' \/ k ∈ map fst o.
Proof.
  destruct (decide (k' ∈ map fst o)) as [Hin|Hnin].
  - rewrite obj_set_keys_present by done. split; [tauto|]. by intros [->|].
  - rewrite obj_set_keys_absent by done. rewrite elem_of_app, list_elem_of_singleton.
    tauto.
Qed.

End ObjFacts.

(** ** The normalizer *)

Lemma elem_of_concat {A : Type} (x : A) (ls : list (list A)) :
  x ∈ concat ls <-> exists l : list A, x ∈ l /\ l ∈ ls.
Proof.
  induction ls as [|l ls IH]; simpl.
  - split; [by intros ?%elem_of_nil|]. by intros (l & _ & ?%elem_of_nil).
  - rewrite elem_of_app, IH. split.
    + intros [Hx|(l' & Hx & Hl')].
      * exists l. split; [done|left].
      * exists l'. split; [done|by right].
    + intros (l' & Hx & [->|Hl']%elem_of_cons); [by left|].
      right. by exists l'.
Qed.

Lemma forEach_app {A S : Type} (f : S -> A -> JS.result S) (l1 l2 : list A) (s : S) :
  JS.forEach f (l1 ++ l2) s = JS.bind (JS.forEach f l1 s) (JS.forEach f l2).
Proof.
  revert s. induction l1 as [|x l1 IH]; intros s; simpl; [done|].
  destruct (f s x); simpl; [apply IH|done|done].
Qed.

Lemma initPrepared_keys (options : Options) (k : string) :
  k ∈ map fst (initPrepared options) <-> k ∈ weekdays options.
Proof.
  unfold initPrepared.
  assert (forall (l : list string) (o : Schedule),
            k ∈ map fst (fold_left (fun p day => obj_set day [] p) l o)
            <-> k ∈ l \/ k ∈ map fst o) as Hgen.
  { induction l as [|d l IH]; intros o; simpl.
    - rewrite elem_of_nil. tauto.
    - rewrite IH, elem_of_obj_set_keys, elem_of_cons. tauto. }
  rewrite Hgen. simpl. rewrite elem_of_nil. tauto.
Qed.

Lemma initPrepared_NoDup (options : Options) : NoDup (map fst (initPrepared options)).
Proof.
  unfold initPrepared.
  assert (forall (l : list string) (o : Schedule),
            NoDup (map fst o) ->
            NoDup (map fst (fold_left (fun p day => obj_set day [] p) l o)))
    as Hgen.
  { induction l as [|d l IH]; intros o Ho; simpl; [done|].
    apply IH. by apply obj_set_NoDup. }
  apply Hgen. constructor.
Qed.

Lemma initPrepared_empty (options : Options) :
  Forall (fun entry : string * list Event => entry.2 = []) (initPrepared options).
Proof.
  unfold initPrepared.
  assert (forall (l : list string) (o : Schedule),
            Forall (fun entry : string * list Event => entry.2 = []) o ->
            Forall (fun entry : string * list Event => entry.2 = [])
              (fold_left (fun p day => obj_set day [] p) l o)) as Hgen.
  { induction l as [|d l IH]; intros o Ho; simpl; [done|].
    apply IH. clear IH. induction Ho as [|[k0 v0] o Hx Ho IHo]; simpl.
    - by constructor.
    - destruct (String.eqb d k0); constructor; done. }
  apply Hgen. constructor.
Qed.

Section PrepareDataFacts.

Variable days : list string.
Variable categoryKey : string.

Local Abbreviation bucketEvent := (bucketEvent days categoryKey).
Local Abbreviation bucketOf := (bucketOf days categoryKey).

Lemma prepareEvent_dropped (prepared : Schedule) (event : RawEvent)
  (day : option string) :
  getDayOfWeek days (event !! "Date") = JS.Ok day ->
  JS.property_key day ∉ map fst prepared ->
  prepareEvent days categoryKey prepared event = JS.Ok prepared.
Proof.
  intros Hday Hkey. unfold prepareEvent. rewrite Hday. simpl.
  apply obj_get_None in Hkey. by rewrite Hkey.
Qed.

Lemma prepareEvent_throws (prepared : Schedule) (event : RawEvent)
  (day : option string) :
  getDayOfWeek days (event !! "Date") = JS.Ok day ->
  JS.property_key day ∈ map fst prepared ->
  processTime (event !! "Heure") = JS.Throw JS.TypeError ->
  prepareEvent days categoryKey prepared event = JS.Throw JS.TypeError.
Proof.
  intros Hday Hkey Htime. unfold prepareEvent. rewrite Hday. simpl.
  destruct (obj_get (JS.property_key day) prepared) as [bucket|] eqn:Hget.
  - by rewrite Htime.
  - apply obj_get_None in Hget. done.
Qed.

Lemma prepareEvent_Ok (prepared prepared' : Schedule) (event : RawEvent) :
  prepareEvent days categoryKey prepared event = JS.Ok prepared' ->
  map fst prepared' = map fst prepared /\
  forall k : string,
    obj_get k prepared' = (fun b => b ++ bucketEvent k event) <$> obj_get k prepared.
Proof.
  unfold prepareEvent, bucketEvent.
  destruct (getDayOfWeek days (event !! "Date")) as [day| |]; simpl; [|done..].
  destruct (obj_get (JS.property_key day) prepared) as [bucket|] eqn:Hget.
  - destruct (processTime (event !! "Heure")) as [timeInfo| |]; simpl; [|done..].
    intros [= <-]. split.
    + apply obj_set_keys_present. by eapply obj_get_Some_key.
    + intros k. rewrite obj_get_set.
      destruct (String.eqb_spec k (JS.property_key day)) as [->|Hne].
      * by rewrite Hget, String.eqb_refl.
      * destruct (String.eqb_spec (JS.property_key day) k); [congruence|].
        destruct (obj_get k prepared); simpl; [|done]. by rewrite app_nil_r.
  - intros [= <-]. split; [done|]. intros k.
    destruct (String.eqb_spec (JS.property_key day) k) as [<-|Hne].
    + by rewrite Hget.
    + destruct (processTime (event !! "Heure")), (obj_get k prepared);
        simpl; by rewrite ?app_nil_r.
Qed.

Lemma prepareEvent_no_diverge (prepared : Schedule) (event : RawEvent) :
  prepareEvent days categoryKey prepared event <> JS.Diverge.
Proof.
  unfold prepareEvent.
  destruct (event !! "Date"); simpl; [|done].
  destruct (obj_get _ prepared); [|done].
  unfold processTime. destruct (event !! "Heure") as [timeStr|]; simpl; [|done].
  by destruct (time_match timeStr) as [[[? ?] ?]|].
Qed.

Lemma forEach_prepareEvent_Ok (rawData : list RawEvent)
  (prepared prepared' : Schedule) :
  JS.forEach (prepareEvent days categoryKey) rawData prepared = JS.Ok prepared' ->
  map fst prepared' = map fst prepared /\
  forall k : string,
    obj_get k prepared' = (fun b => b ++ bucketOf k rawData) <$> obj_get k prepared.
Proof.
  revert prepared. induction rawData as [|event rawData IH]; intros prepared; simpl.
  - intros [= <-]. split; [done|]. intros k. unfold bucketOf. simpl.
    destruct (obj_get k prepared); simpl; by rewrite ?app_nil_r.
  - destruct (prepareEvent days categoryKey prepared event) as [p1| |] eqn:H1;
      simpl; [|done..].
    intros Hrest. apply prepareEvent_Ok in H1 as [Hk1 Hg1].
    apply IH in Hrest as [Hk2 Hg2]. split; [congruence|].
    intros k. rewrite Hg2, Hg1. unfold bucketOf. simpl.
    destruct (obj_get k prepared); simpl; [|done]. by rewrite app_assoc.
Qed.

Lemma forEach_prepareEvent_no_diverge (rawData : list RawEvent) (prepared : Schedule) :
  JS.forEach (prepareEvent days categoryKey) rawData prepared <> JS.Diverge.
Proof.
  revert prepared. induction rawData as [|event rawData IH]; intros prepared; simpl.
  - done.
  - pose proof (prepareEvent_no_diverge prepared event).
    destruct (prepareEvent days categoryKey prepared event); simpl; [apply IH|done..].
Qed.

(** The buckets of a successful [prepareData]: one per configured weekday,
    each holding the events of that day in raw order. *)
Lemma prepareData_buckets (options : Options) (rawData : list RawEvent)
  (data : Schedule) :
  prepareData days categoryKey options rawData = JS.Ok data ->
  NoDup (map fst data) /\
  (forall k : string, k ∈ map fst data <-> k ∈ weekdays options) /\
  (forall (k : string) (events : list Event),
     obj_get k data = Some events <->
     k ∈ weekdays options /\ events = bucketOf k rawData).
Proof.
  unfold prepareData. intros Hok.
  apply forEach_prepareEvent_Ok in Hok as [Hkeys Hget].
  split; [rewrite Hkeys; apply initPrepared_NoDup|].
  split; [intros k; rewrite Hkeys; apply initPrepared_keys|].
  intros k events. rewrite Hget.
  destruct (obj_get k (initPrepared options)) as [b|] eqn:Hinit; simpl.
  - assert (b = []) as ->.
    { apply obj_get_elem_of in Hinit.
      pose proof (initPrepared_empty options) as Hempty.
      rewrite Forall_forall in Hempty. by apply (Hempty (k, b)). }
    apply obj_get_Some_key, initPrepared_keys in Hinit. simpl.
    split; [by intros [= <-]|]. by intros [_ ->].
  - apply obj_get_None in Hinit. rewrite initPrepared_keys in Hinit.
    split; [done|]. by intros [? _].
Qed.

Lemma elem_of_bucketOf (k : string) (rawData : list RawEvent) (e : Event) :
  e ∈ bucketOf k rawData <->
  exists (event : RawEvent) (day : option string) (timeInfo : TimeInfo),
    event ∈ rawData /\
    getDayOfWeek days (event !! "Date") = JS.Ok day /\
    JS.property_key day = k /\
    processTime (event !! "Heure") = JS.Ok timeInfo /\
    e = makeEvent categoryKey timeInfo event.
Proof.
  unfold bucketOf. rewrite elem_of_concat. split.
  - intros (l & He & Hl). apply list_elem_of_fmap in Hl as (event & -> & Hev).
    unfold bucketEvent in He.
    destruct (getDayOfWeek days (event !! "Date")) as [day| |] eqn:Hday;
      [|by apply elem_of_nil in He..].
    destruct (processTime (event !! "Heure")) as [timeInfo| |] eqn:Htime;
      [|by apply elem_of_nil in He..].
    destruct (String.eqb_spec (JS.property_key day) k) as [Hk|Hk];
      [|by apply elem_of_nil in He].
    apply list_elem_of_singleton in He. by exists event, day, timeInfo.
  - intros (event & day & timeInfo & Hev & Hday & Hk & Htime & ->).
    exists (bucketEvent k event). split.
    + unfold bucketEvent. rewrite Hday, Htime, Hk, String.eqb_refl.
      apply list_elem_of_singleton. done.
    + apply list_elem_of_fmap. by exists event.
Qed.

End PrepareDataFacts.

Section PrepareDataOutcomes.

Variable days : list string.
Variable categoryKey : string.

Lemma prepareData_keys_after (options : Options) (rawData : list RawEvent)
  (prepared : Schedule) (k : string) :
  JS.forEach (prepareEvent days categoryKey) rawData (initPrepared options)
    = JS.Ok prepared ->
  k ∈ map fst prepared <-> k ∈ weekdays options.
Proof.
  intros Hok. apply forEach_prepareEvent_Ok in Hok as [-> _].
  apply initPrepared_keys.
Qed.

(** A record whose day is not a configured weekday leaves no trace. *)
Lemma prepareData_drop (options : Options) (before after : list RawEvent)
  (event : RawEvent) (day : option string) :
  getDayOfWeek days (event !! "Date") = JS.Ok day ->
  JS.property_key day ∉ weekdays options ->
  prepareData days categoryKey options (before ++ event :: after)
    = prepareData days categoryKey options (before ++ after) /\
  forall k : string,
    k ∈ weekdays options -> bucketEvent days categoryKey k event = [].
Proof.
  intros Hday Hout. split.
  - unfold prepareData. rewrite !forEach_app.
    destruct (JS.forEach _ before _) as [prepared| |] eqn:Hbefore; simpl; [|done..].
    rewrite (prepareEvent_dropped days categoryKey prepared event day Hday); [done|].
    by rewrite (prepareData_keys_after options before prepared).
  - intros k Hk. unfold bucketEvent. rewrite Hday.
    destruct (processTime _); [|done..].
    destruct (String.eqb_spec (JS.property_key day) k); [congruence|done].
Qed.

(** A record of a configured weekday whose time range has no match aborts
    the whole pass. *)
Lemma prepareData_malformed (options : Options) (before after : list RawEvent)
  (event : RawEvent) (day : option string) (timeStr : string) :
  getDayOfWeek days (event !! "Date") = JS.Ok day ->
  JS.property_key day ∈ weekdays options ->
  event !! "Heure" = Some timeStr ->
  time_match timeStr = None ->
  prepareData days categoryKey options (before ++ event :: after)
    = JS.Throw JS.TypeError.
Proof.
  intros Hday Hin Hheure Hmatch. unfold prepareData. rewrite forEach_app.
  pose proof (forEach_prepareEvent_no_diverge days categoryKey before
                (initPrepared options)) as Hnd.
  destruct (JS.forEach _ before _) as [prepared|[]|] eqn:Hbefore; simpl; [|done..].
  rewrite (prepareEvent_throws days categoryKey prepared event day Hday); [done| |].
  - by rewrite (prepareData_keys_after options before prepared).
  - unfold processTime. by rewrite Hheure, Hmatch.
Qed.

End PrepareDataOutcomes.



(** ** Malformed time ranges *)

(** C4 as stated fails: a record with the time string "9h00-10h00" dated on a
    Saturday, under the default Monday-Friday weekdays, raises nothing in
    either revision; it is skipped, the schedule comes out with its five empty
    buckets and the construction returns. *)
Lemma malformed_time_on_excluded_day_is_skipped :
  time_match "9h00-10h00" = None /\
  V1.prepareData (V1.mergeDefaultOptions noOptions) [badTimeSaturdayRaw]
    = JS.Ok [("Monday", []); ("Tuesday", []); ("Wednesday", []);
             ("Thursday", []); ("Friday", [])] /\
  V2.prepareData (V2.mergeDefaultOptions noOptions) [badTimeSaturdayRaw]
    = JS.Ok [("Monday", []); ("Tuesday", []); ("Wednesday", []);
             ("Thursday", []); ("Friday", [])] /\
  returned (V1.new true [badTimeSaturdayRaw] noOptions) = true /\
  returned (V2.new true [badTimeSaturdayRaw] noOptions) = true.
Proof. repeat split; vm_compute; reflexivity. Qed.

(** C4, amended.  A record whose date resolves to a configured weekday and
    whose time string holds no occurrence of the pattern makes normalization
    raise (a [TypeError]) in both revisions, wherever the record stands in the
    input, and the construction raises with it: no schedule is produced. *)
Theorem malformed_time_aborts
  (container : bool) (userOptions : UserOptions)
  (before after : list RawEvent) (event : RawEvent) (timeStr : string) :
  event !! "Heure" = Some timeStr ->
  time_match timeStr = None ->
  (forall day : option string,
     getDayOfWeek V1.days (event !! "Date") = JS.Ok day ->
     JS.property_key day ∈ weekdays (V1.mergeDefaultOptions userOptions) ->
     V1.prepareData (V1.mergeDefaultOptions userOptions) (before ++ event :: after)
       = JS.Throw JS.TypeError /\
     V1.new container (before ++ event :: after) userOptions
       = JS.Throw JS.TypeError) /\
  (forall day : option string,
     getDayOfWeek V2.days (event !! "Date") = JS.Ok day ->
     JS.property_key day ∈ weekdays (V2.mergeDefaultOptions userOptions) ->
     V2.prepareData (V2.mergeDefaultOptions userOptions) (before ++ event :: after)
       = JS.Throw JS.TypeError /\
     V2.new container (before ++ event :: after) userOptions
       = JS.Throw JS.TypeError).
Proof.
  intros Hheure Hmatch. split; intros day Hday Hin.
  - pose proof (prepareData_malformed V1.days V1.categoryKey _ before after
                  event day timeStr Hday Hin Hheure Hmatch) as Hthrow.
    split; [exact Hthrow|]. unfold V1.new, V1.prepareData. by rewrite Hthrow.
  - pose proof (prepareData_malformed V2.days V2.categoryKey _ before after
                  event day timeStr Hday Hin Hheure Hmatch) as Hthrow.
    split; [exact Hthrow|]. unfold V2.new, V2.prepareData. by rewrite Hthrow.
Qed.

(** The string "9h00-10h00" on a Monday, between two well-formed records. *)
Lemma malformed_time_aborts_witness :
  time_match "9h00-10h00" = None /\
  V1.new true ([mondayRaw] ++ badTimeMondayRaw :: [tuesdayRaw]) noOptions
    = JS.Throw JS.TypeError /\
  V2.new true ([mondayRaw] ++ badTimeMondayRaw :: [tuesdayRaw]) noOptions
    = JS.Throw JS.TypeError.
Proof.
  destruct (malformed_time_aborts true noOptions [mondayRaw] [tuesdayRaw]
              badTimeMondayRaw "9h00-10h00" eq_refl eq_refl) as [H1 H2].
  split; [reflexivity|]. split.
  - apply (H1 (Some "Monday")); [reflexivity|]. compute_done.
  - apply (H2 (Some "Monday")); [reflexivity|]. compute_done.
Defined.

(** ** Display fields *)







(** ** Sorting the days *)

Section SortByKey.

Context {A : Type} (key : A -> Z).

Local Abbreviation byKey := (byKey key).

Lemma sort_insert_Permutation (x : A) (l : list A) :
  Permutation (JS.sort_insert byKey x l) (x :: l).
Proof.
  induction l as [|y l IH]; simpl; [done|].
  destruct (byKey x y <=? 0); [done|].
  rewrite IH. apply perm_swap.
Qed.

Lemma sort_Permutation (l : list A) : Permutation (JS.sort byKey l) l.
Proof.
  induction l as [|x l IH]; simpl; [done|].
  unfold JS.sort in *. simpl. rewrite sort_insert_Permutation. by constructor.
Qed.

Lemma sort_insert_sorted (x : A) (l : list A) :
  StronglySorted (fun a b => key a <= key b) l ->
  StronglySorted (fun a b => key a <= key b) (JS.sort_insert byKey x l).
Proof.
  induction 1 as [|y l Hl IH Hy]; simpl.
  - repeat constructor.
  - unfold byKey at 1. destruct (Z.leb_spec (key x - key y) 0) as [Hle|Hgt].
    + constructor; [by constructor|]. constructor; [lia|].
      eapply Forall_impl; [exact Hy|]. simpl. intros. lia.
    + constructor; [exact IH|].
      rewrite sort_insert_Permutation. constructor; [lia|done].
Qed.

Lemma sort_sorted (l : list A) :
  StronglySorted (fun a b => key a <= key b) (JS.sort byKey l).
Proof.
  induction l as [|x l IH]; [constructor|].
  unfold JS.sort in *. simpl. by apply sort_insert_sorted.
Qed.

(** Stability: the elements of any one key keep their order. *)
Lemma sort_insert_stable (m : Z) (x : A) (l : list A) :
  List.filter (fun a => key a =? m) (JS.sort_insert byKey x l)
  = List.filter (fun a => key a =? m) (x :: l).
Proof.
  induction l as [|y l IH]; simpl; [done|].
  unfold byKey at 1. destruct (Z.leb_spec (key x - key y) 0) as [Hle|Hgt]; [done|].
  simpl. rewrite IH. simpl.
  destruct (Z.eqb_spec (key x) m), (Z.eqb_spec (key y) m); try done. lia.
Qed.

Lemma sort_stable (m : Z) (l : list A) :
  List.filter (fun a => key a =? m) (JS.sort byKey l)
  = List.filter (fun a => key a =? m) l.
Proof.
  induction l as [|x l IH]; [done|].
  unfold JS.sort in *. simpl. rewrite sort_insert_stable. simpl. by rewrite IH.
Qed.

End SortByKey.

Lemma obj_get_sortDays (day : string) (data : Schedule) :
  obj_get day (sortDays data)
  = JS.sort (byKey startMinutes) <$> obj_get day data.
Proof.
  induction data as [|[k events] data IH]; simpl; [done|].
  by destruct (String.eqb day k).
Qed.

Lemma sortDays_sorted (days : list string) (categoryKey : string)
  (options : Options) (rawData : list RawEvent) (data : Schedule)
  (day : string) (events : list Event) :
  prepareData days categoryKey options rawData = JS.Ok data ->
  obj_get day (sortDays data) = Some events ->
  day ∈ weekdays options /\
  StronglySorted (fun a b => startMinutes a <= startMinutes b) events /\
  Permutation events (bucketOf days categoryKey day rawData) /\
  forall m : Z,
    List.filter (fun e => startMinutes e =? m) events
    = List.filter (fun e => startMinutes e =? m)
        (bucketOf days categoryKey day rawData).
Proof.
  intros Hok. apply prepareData_buckets in Hok as (_ & _ & Hget).
  rewrite obj_get_sortDays.
  destruct (obj_get day data) as [bucket|] eqn:Hbucket; simpl; [|done].
  intros [= <-]. apply Hget in Hbucket as [Hday ->].
  split; [done|]. split; [apply sort_sorted|].
  split; [apply sort_Permutation|]. intros m. apply sort_stable.
Qed.

(** C8.  In both revisions the sort step of [render] leaves, for every day,
    the events of that day (those the raw records dated on it gave, in the
    order of the raw input) in ascending order of [startMinutes], and the
    events of any one start time in the order they have in the raw input. *)
Theorem sortDays_stable
  (options : Options) (rawData : list RawEvent) (data : Schedule)
  (day : string) (events : list Event) :
  obj_get day (sortDays data) = Some events ->
  (V1.prepareData options rawData = JS.Ok data ->
   StronglySorted (fun a b => startMinutes a <= startMinutes b) events /\
   Permutation events (bucketOf V1.days V1.categoryKey day rawData) /\
   forall m : Z,
     List.filter (fun e => startMinutes e =? m) events
     = List.filter (fun e => startMinutes e =? m)
         (bucketOf V1.days V1.categoryKey day rawData)) /\
  (V2.prepareData options rawData = JS.Ok data ->
   StronglySorted (fun a b => startMinutes a <= startMinutes b) events /\
   Permutation events (bucketOf V2.days V2.categoryKey day rawData) /\
   forall m : Z,
     List.filter (fun e => startMinutes e =? m) events
     = List.filter (fun e => startMinutes e =? m)
         (bucketOf V2.days V2.categoryKey day rawData)).
Proof.
  intros Hget. split; intros Hok.
  - by destruct (sortDays_sorted _ _ _ _ _ _ _ Hok Hget) as (_ & ? & ? & ?).
  - by destruct (sortDays_sorted _ _ _ _ _ _ _ Hok Hget) as (_ & ? & ? & ?).
Qed.

Lemma sortDays_stable_witness :
  map name (bucketOf V2.days V2.categoryKey "Monday" tieRaw)
    = ["first"; "early"; "second"] /\
  map name tieSorted = ["early"; "first"; "second"] /\
  StronglySorted (fun a b => startMinutes a <= startMinutes b) tieSorted /\
  List.filter (fun e => startMinutes e =? 600) tieSorted
    = List.filter (fun e => startMinutes e =? 600)
        (bucketOf V2.days V2.categoryKey "Monday" tieRaw).
Proof.
  split; [vm_compute; reflexivity|]. split; [vm_compute; reflexivity|].
  destruct (proj2 (sortDays_stable (V2.mergeDefaultOptions noOptions) tieRaw
                     tieData "Monday" tieSorted
                     ltac:(vm_compute; reflexivity))
              ltac:(vm_compute; reflexivity)) as (Hsorted & _ & Hstable).
  split; [exact Hsorted|]. apply Hstable.
Defined.

(** ** The occupancy grid *)

Lemma elem_of_markLoop (fuel : nat) (day : string) (slotIndex rowSpan len i : Z)
  (occupied : Occupied) (d : string) (r : Z) :
  rowSpan - i <= Z.of_nat fuel ->
  (d, r) ∈ markLoop fuel day slotIndex rowSpan len i occupied <->
  (d, r) ∈ occupied \/
  (d = day /\ slotIndex + i <= r < slotIndex + rowSpan /\ r < len).
Proof.
  revert i occupied. induction fuel as [|fuel IH]; intros i occupied Hfuel; simpl.
  - split; [by left|]. intros [?|(_ & ? & _)]; [done|lia].
  - destruct (Z.ltb_spec i rowSpan) as [Hlt|Hge]; simpl.
    + destruct (Z.ltb_spec (slotIndex + i) len) as [Hin|Hout].
      * rewrite IH by lia. rewrite elem_of_union, elem_of_singleton. split.
        -- intros [[[= -> ->]|?]|(-> & ? & ?)];
             [right; split; [done|lia]|by left|right; split; [done|lia]].
        -- intros [?|(-> & ? & ?)]; [by left; right|].
           destruct (decide (r = slotIndex + i)) as [->|?]; [by left; left|].
           right. split; [done|lia].
      * split; [by left|]. intros [?|(_ & ? & ?)]; [done|lia].
    + split; [by left|]. intros [?|(_ & ? & _)]; [done|lia].
Qed.

(** The marking loop of an event placed at row [slotIndex] marks exactly
    the rows [slotIndex + 1] to [slotIndex + rowSpan - 1] below [len]. *)
Lemma elem_of_markOccupied (day : string) (slotIndex rowSpan len : Z)
  (occupied : Occupied) (d : string) (r : Z) :
  (d, r) ∈ markOccupied day slotIndex rowSpan len occupied <->
  (d, r) ∈ occupied \/
  (d = day /\ slotIndex + 1 <= r <= slotIndex + rowSpan - 1 /\ r < len).
Proof.
  unfold markOccupied. rewrite elem_of_markLoop by lia.
  split; (intros [?|(? & ? & ?)]; [by left|right; split; [done|lia]]).
Qed.

Section RenderFacts.

Variable startsHere : Z -> TimeSlot -> Event -> bool.
Variable getRowSpan : Z -> Z.
Variable clickable : bool.
Variable len : Z.

Local Abbreviation eventCell := (eventCell getRowSpan clickable).
Local Abbreviation inSpan := (inSpan getRowSpan len).
Local Abbreviation dayCells := (dayCells startsHere getRowSpan clickable).
Local Abbreviation layoutRows := (layoutRows startsHere getRowSpan clickable).
Local Abbreviation renderLayout :=
  (renderLayout startsHere getRowSpan clickable len).

Lemma renderEvent_step (day : string) (slotIndex : Z) (event : Event)
  (cells : list Cell) (occupied : Occupied) :
  renderEvent getRowSpan clickable len day slotIndex (cells, occupied) event
  = (cells ++ [eventCell day event],
     if 1 <? getRowSpan (duration event)
     then markOccupied day slotIndex (getRowSpan (duration event)) len occupied
     else occupied).
Proof.
  unfold renderEvent, eventCell.
  by destruct (1 <? getRowSpan (duration event)).
Qed.


Lemma renderEvent_fold (day : string) (slotIndex : Z) (events : list Event)
  (cells : list Cell) (occupied : Occupied) :
  exists occupied' : Occupied,
    fold_left (renderEvent getRowSpan clickable len day slotIndex) events
      (cells, occupied)
    = (cells ++ map (eventCell day) events, occupied') /\
    forall (d : string) (r : Z),
      (d, r) ∈ occupied' <->
      (d, r) ∈ occupied \/
      (d = day /\ exists e : Event, e ∈ events /\ inSpan slotIndex e r).
Proof.
  revert cells occupied. induction events as [|e events IH]; intros cells occupied.
  - exists occupied. simpl. rewrite app_nil_r. split; [done|].
    intros d r. split; [by left|].
    intros [?|(_ & e & ?%elem_of_nil & _)]; done.
  - cbn [fold_left map]. rewrite renderEvent_step.
    destruct (IH (cells ++ [eventCell day e])
                (if 1 <? getRowSpan (duration e)
                 then markOccupied day slotIndex (getRowSpan (duration e)) len
                        occupied
                 else occupied)) as (occupied' & Hfold & Hocc).
    exists occupied'. split; [by rewrite Hfold, <- app_assoc|].
    intros d r. rewrite Hocc. unfold inSpan.
    destruct (Z.ltb_spec 1 (getRowSpan (duration e))) as [Hspan|Hspan].
    + rewrite elem_of_markOccupied. split.
      * intros [[?|(-> & ? & ?)]|(-> & e' & He' & Hs)].
        -- by left.
        -- right. split; [done|]. exists e. split; [left|done].
        -- right. split; [done|]. exists e'. split; [by right|done].
      * intros [?|(-> & e' & [->|He']%elem_of_cons & Hs)].
        -- by left; left.
        -- left. right. done.
        -- right. split; [done|]. by exists e'.
    + split.
      * intros [?|(-> & e' & He' & Hs)]; [by left|].
        right. split; [done|]. exists e'. split; [by right|done].
      * intros [?|(-> & e' & [->|He']%elem_of_cons & Hs)].
        -- by left.
        -- lia.
        -- right. split; [done|]. by exists e'.
Qed.

Lemma dayCells_ext (occupied occupied' : Occupied) (slotIndex : Z)
  (timeSlot : TimeSlot) (entry : string * list Event) :
  ((fst entry, slotIndex) ∈ occupied <-> (fst entry, slotIndex) ∈ occupied') ->
  dayCells occupied slotIndex timeSlot entry
  = dayCells occupied' slotIndex timeSlot entry.
Proof.
  intros Hagree. unfold dayCells. repeat case_bool_decide; tauto.
Qed.

Lemma elem_of_filter_bool (f : Event -> bool) (events : list Event) (e : Event) :
  e ∈ List.filter f events <-> e ∈ events /\ f e = true.
Proof. rewrite !list_elem_of_In. apply filter_In. Qed.

Lemma renderDay_spec (slotIndex : Z) (timeSlot : TimeSlot)
  (cells : list Cell) (occupied : Occupied) (entry : string * list Event) :
  exists occupied' : Occupied,
    renderDay startsHere getRowSpan clickable len slotIndex timeSlot
      (cells, occupied) entry
    = (cells ++ dayCells occupied slotIndex timeSlot entry, occupied') /\
    forall (d : string) (r : Z),
      (d, r) ∈ occupied' <->
      (d, r) ∈ occupied \/
      (d = fst entry /\ ((fst entry, slotIndex) ∉ occupied) /\
       exists e : Event,
         e ∈ snd entry /\ startsHere slotIndex timeSlot e = true /\
         inSpan slotIndex e r).
Proof.
  destruct entry as [day events]. unfold renderDay, dayCells. simpl.
  case_bool_decide as Hocc.
  - exists occupied. rewrite app_nil_r. split; [done|].
    intros d r. split; [by left|]. intros [?|(_ & ? & _)]; done.
  - simpl. destruct (0 <? length (List.filter _ events))%nat eqn:Hlen.
    + destruct (renderEvent_fold day slotIndex
                  (List.filter (startsHere slotIndex timeSlot) events)
                  cells occupied) as (occupied' & Hfold & Hin).
      exists occupied'. split; [done|].
      intros d r. rewrite Hin. split.
      * intros [?|(-> & e & He & Hs)]; [by left|].
        apply elem_of_filter_bool in He as [He Hstart].
        right. split; [done|]. split; [done|]. exists e. done.
      * intros [?|(-> & _ & e & He & Hstart & Hs)]; [by left|].
        right. split; [done|]. exists e. split; [|done].
        by apply elem_of_filter_bool.
    + exists occupied. split; [done|].
      intros d r. split; [by left|].
      intros [?|(_ & _ & e & He & Hstart & _)]; [done|].
      assert (e ∈ List.filter (startsHere slotIndex timeSlot) events) as Hf
        by (by apply elem_of_filter_bool).
      apply Nat.ltb_ge in Hlen.
      destruct (List.filter _ events); [by apply elem_of_nil in Hf|simpl in Hlen; lia].
Qed.

Lemma inSpan_below (slotIndex : Z) (e : Event) (r : Z) :
  inSpan slotIndex e r -> slotIndex < r.
Proof. unfold inSpan. lia. Qed.

Lemma renderDay_fold (slotIndex : Z) (timeSlot : TimeSlot) (occupied0 : Occupied)
  (data : Schedule) (cells : list Cell) (occupied : Occupied) :
  (forall d : string, (d, slotIndex) ∈ occupied <-> (d, slotIndex) ∈ occupied0) ->
  exists occupied' : Occupied,
    fold_left (renderDay startsHere getRowSpan clickable len slotIndex timeSlot)
      data (cells, occupied)
    = (cells ++ concat (map (dayCells occupied0 slotIndex timeSlot) data),
       occupied') /\
    forall (d : string) (r : Z),
      (d, r) ∈ occupied' <->
      (d, r) ∈ occupied \/
      (exists (events : list Event) (e : Event),
         (d, events) ∈ data /\ ((d, slotIndex) ∉ occupied0) /\
         e ∈ events /\ startsHere slotIndex timeSlot e = true /\
         inSpan slotIndex e r).
Proof.
  revert cells occupied.
  induction data as [|entry data IH]; intros cells occupied Hagree.
  - exists occupied. simpl. rewrite app_nil_r. split; [done|].
    intros d r. split; [by left|].
    intros [?|(events & e & ?%elem_of_nil & _)]; done.
  - cbn [fold_left map concat].
    destruct (renderDay_spec slotIndex timeSlot cells occupied entry)
      as (occupied1 & Hstep & Hin1).
    rewrite Hstep.
    rewrite (dayCells_ext occupied occupied0) by apply Hagree.
    destruct (IH (cells ++ dayCells occupied0 slotIndex timeSlot entry) occupied1)
      as (occupied' & Hfold & Hin').
    { intros d. rewrite Hin1, <- Hagree. split; [|by left].
      intros [?|(_ & _ & e & _ & _ & Hs)]; [done|].
      apply inSpan_below in Hs. lia. }
    exists occupied'. split; [by rewrite Hfold, <- app_assoc|].
    intros d r. rewrite Hin', Hin1. split.
    + intros [[?|(-> & Hocc & e & He & Hstart & Hs)]
             |(events & e & Hd & Hocc & He & Hstart & Hs)].
      * by left.
      * right. exists entry.2, e. split; [destruct entry; left|].
        rewrite <- Hagree. done.
      * right. exists events, e. split; [by right|done].
    + intros [?|(events & e & [<-|Hd]%elem_of_cons & Hocc & He & Hstart & Hs)].
      * by left; left.
      * left. right. simpl. split; [done|]. split; [by rewrite Hagree|].
        by exists e.
      * right. by exists events, e.
Qed.

Lemma renderRow_spec (data : Schedule) (slotIndex : Z) (timeSlot : TimeSlot)
  (rows : list Row) (occupied : Occupied) :
  exists occupied' : Occupied,
    renderRow startsHere getRowSpan clickable len data slotIndex timeSlot
      (rows, occupied)
    = (rows ++ [mkRow timeSlot
                  (concat (map (dayCells occupied slotIndex timeSlot) data))],
       occupied') /\
    forall (d : string) (r : Z),
      (d, r) ∈ occupied' <->
      (d, r) ∈ occupied \/
      (exists (events : list Event) (e : Event),
         (d, events) ∈ data /\ ((d, slotIndex) ∉ occupied) /\
         e ∈ events /\ startsHere slotIndex timeSlot e = true /\
         inSpan slotIndex e r).
Proof.
  destruct (renderDay_fold slotIndex timeSlot occupied data [] occupied)
    as (occupied' & Hfold & Hin); [done|].
  exists occupied'. split; [|done]. unfold renderRow. by rewrite Hfold.
Qed.

Lemma layoutRows_lookup (occupied : Occupied) (data : Schedule) (slotIndex : Z)
  (timeSlots : list TimeSlot) (k : nat) :
  layoutRows occupied data slotIndex timeSlots !! k
  = (fun timeSlot =>
       mkRow timeSlot
         (concat (map (dayCells occupied (slotIndex + Z.of_nat k) timeSlot) data)))
    <$> timeSlots !! k.
Proof.
  revert slotIndex k. induction timeSlots as [|ts rest IH]; intros slotIndex k.
  - done.
  - destruct k as [|k]; simpl.
    + by rewrite Z.add_0_r.
    + rewrite IH. by replace (slotIndex + 1 + Z.of_nat k)
        with (slotIndex + Z.pos (Pos.of_succ_nat k)) by lia.
Qed.

Lemma renderRows_spec (data : Schedule) (timeSlots : list TimeSlot)
  (slotIndex : Z) (rows : list Row) (occupied : Occupied) :
  exists final : Occupied,
    renderRows startsHere getRowSpan clickable len data slotIndex timeSlots
      (rows, occupied)
    = (rows ++ layoutRows final data slotIndex timeSlots, final) /\
    forall (d : string) (r : Z),
      (d, r) ∈ final <->
      (d, r) ∈ occupied \/
      (exists (k : nat) (timeSlot : TimeSlot) (events : list Event) (e : Event),
         timeSlots !! k = Some timeSlot /\
         (d, events) ∈ data /\ ((d, slotIndex + Z.of_nat k) ∉ final) /\
         e ∈ events /\ startsHere (slotIndex + Z.of_nat k) timeSlot e = true /\
         inSpan (slotIndex + Z.of_nat k) e r).
Proof.
  revert slotIndex rows occupied.
  induction timeSlots as [|timeSlot rest IH]; intros slotIndex rows occupied.
  - exists occupied. simpl. rewrite app_nil_r. split; [done|].
    intros d r. split; [by left|]. intros [?|(k & ts & ? & ? & Hk & _)]; done.
  - cbn [renderRows layoutRows].
    destruct (renderRow_spec data slotIndex timeSlot rows occupied)
      as (occupied1 & Hrow & Hin1).
    rewrite Hrow.
    destruct (IH (slotIndex + 1)
                (rows ++ [mkRow timeSlot
                            (concat (map (dayCells occupied slotIndex timeSlot)
                                       data))]) occupied1)
      as (final & Hrest & Hinf).
    assert (Hagree : forall d : string,
              (d, slotIndex) ∈ occupied <-> (d, slotIndex) ∈ final).
    { intros d. rewrite Hinf, Hin1. split; [by left; left|].
      intros [[?|(? & e & _ & _ & _ & _ & Hs)]
             |(k & ? & ? & e & _ & _ & _ & _ & _ & Hs)]; [done|..];
        apply inSpan_below in Hs; lia. }
    exists final. split.
    { rewrite Hrest, <- app_assoc. simpl.
      replace (map (dayCells final slotIndex timeSlot) data)
        with (map (dayCells occupied slotIndex timeSlot) data); [done|].
      apply map_ext. intros entry. apply dayCells_ext, Hagree. }
    intros d r. rewrite Hinf, Hin1. split.
    + intros [[?|(events & e & Hd & Hocc & He & Hstart & Hs)]
             |(k & ts & events & e & Hk & Hd & Hocc & He & Hstart & Hs)].
      * by left.
      * right. exists O, timeSlot, events, e. rewrite Z.add_0_r.
        split; [done|]. split; [done|]. split; [by rewrite <- Hagree|done].
      * right. exists (S k), ts, events, e.
        replace (slotIndex + Z.of_nat (S k)) with (slotIndex + 1 + Z.of_nat k)
          by lia. done.
    + intros [?|(k & ts & events & e & Hk & Hd & Hocc & He & Hstart & Hs)].
      * by left; left.
      * destruct k as [|k].
        -- rewrite Z.add_0_r in *. injection Hk as ->. left. right.
           exists events, e. split; [done|]. split; [by rewrite Hagree|done].
        -- right. exists k, ts, events, e.
           replace (slotIndex + 1 + Z.of_nat k) with (slotIndex + Z.of_nat (S k))
             by lia. done.
Qed.

Lemma renderLayout_spec (timeSlots : list TimeSlot) (data : Schedule) :
  rows (renderLayout timeSlots data)
  = layoutRows (cellOccupied (renderLayout timeSlots data)) data 0 timeSlots /\
  forall (d : string) (r : Z),
    (d, r) ∈ cellOccupied (renderLayout timeSlots data) <->
    exists (k : nat) (timeSlot : TimeSlot) (events : list Event) (e : Event),
      timeSlots !! k = Some timeSlot /\
      (d, events) ∈ data /\
      ((d, Z.of_nat k) ∉ cellOccupied (renderLayout timeSlots data)) /\
      e ∈ events /\ startsHere (Z.of_nat k) timeSlot e = true /\
      inSpan (Z.of_nat k) e r.
Proof.
  unfold renderLayout.
  destruct (renderRows_spec data timeSlots 0 [] ∅) as (final & -> & Hin).
  simpl. split; [done|]. intros d r. rewrite Hin. split.
  - intros [?%not_elem_of_empty|?]; done.
  - intros ?. by right.
Qed.

Lemma elem_of_dayCells (occupied : Occupied) (slotIndex : Z) (timeSlot : TimeSlot)
  (data : Schedule) (cell : Cell) :
  cell ∈ concat (map (dayCells occupied slotIndex timeSlot) data) <->
  exists (day : string) (events : list Event),
    (day, events) ∈ data /\ ((day, slotIndex) ∉ occupied) /\
    ((exists e : Event,
        e ∈ events /\ startsHere slotIndex timeSlot e = true /\
        cell = eventCell day e) \/
     ((forall e : Event, e ∈ events -> startsHere slotIndex timeSlot e = false) /\
      cell = mkCell day EmptyCell)).
Proof.
  rewrite elem_of_concat. split.
  - intros (l & Hcell & Hl).
    apply list_elem_of_fmap in Hl as ([day events] & -> & Hentry).
    unfold dayCells in Hcell. simpl in Hcell.
    case_bool_decide as Hocc; [by apply elem_of_nil in Hcell|].
    exists day, events. split; [done|]. split; [done|].
    destruct (0 <? length (List.filter _ events))%nat eqn:Hlen.
    + left. apply list_elem_of_fmap in Hcell as (e & -> & He).
      apply elem_of_filter_bool in He as [He Hstart]. by exists e.
    + right. apply list_elem_of_singleton in Hcell as ->. split; [|done].
      intros e He. destruct (startsHere slotIndex timeSlot e) eqn:Hstart; [|done].
      assert (e ∈ List.filter (startsHere slotIndex timeSlot) events) as Hf
        by (by apply elem_of_filter_bool).
      apply Nat.ltb_ge in Hlen.
      destruct (List.filter _ events);
        [by apply elem_of_nil in Hf|simpl in Hlen; lia].
  - intros (day & events & Hentry & Hocc & Hcases).
    exists (dayCells occupied slotIndex timeSlot (day, events)).
    split; [|apply list_elem_of_fmap; by exists (day, events)].
    unfold dayCells. simpl. rewrite bool_decide_eq_false_2 by done.
    destruct Hcases as [(e & He & Hstart & ->)|(Hnone & ->)].
    + assert (e ∈ List.filter (startsHere slotIndex timeSlot) events) as Hf
        by (by apply elem_of_filter_bool).
      destruct (List.filter _ events) as [|e0 l] eqn:Hfilter;
        [by apply elem_of_nil in Hf|].
      cbn [length Nat.ltb Nat.leb].
      apply (list_elem_of_fmap_2 (eventCell day)) in Hf. exact Hf.
    + destruct (List.filter _ events) as [|e0 l] eqn:Hfilter; simpl; [left|].
      assert (e0 ∈ List.filter (startsHere slotIndex timeSlot) events) as Hf
        by (rewrite Hfilter; left).
      apply elem_of_filter_bool in Hf as [He0 Hstart].
      rewrite (Hnone e0 He0) in Hstart. done.
Qed.

(** Which cells stand in row [k] of the table. *)
Lemma elem_of_layout_row (timeSlots : list TimeSlot) (data : Schedule)
  (k : nat) (row : Row) (cell : Cell) :
  rows (renderLayout timeSlots data) !! k = Some row ->
  timeSlots !! k = Some (row_slot row) /\
  (cell ∈ row_cells row <->
   exists (day : string) (events : list Event),
     (day, events) ∈ data /\
     ((day, Z.of_nat k) ∉ cellOccupied (renderLayout timeSlots data)) /\
     ((exists e : Event,
         e ∈ events /\ startsHere (Z.of_nat k) (row_slot row) e = true /\
         cell = eventCell day e) \/
      ((forall e : Event,
          e ∈ events -> startsHere (Z.of_nat k) (row_slot row) e = false) /\
       cell = mkCell day EmptyCell))).
Proof.
  destruct (renderLayout_spec timeSlots data) as [-> _].
  rewrite layoutRows_lookup.
  destruct (timeSlots !! k) as [timeSlot|]; simpl; [|done].
  intros [= <-]. simpl. split; [done|]. apply elem_of_dayCells.
Qed.

Lemma placedAt_renderLayout (timeSlots : list TimeSlot) (data : Schedule)
  (k : nat) (d : string) (e : Event) :
  placedAt (renderLayout timeSlots data) k d e <->
  exists (timeSlot : TimeSlot) (events : list Event),
    timeSlots !! k = Some timeSlot /\
    (d, events) ∈ data /\ e ∈ events /\
    startsHere (Z.of_nat k) timeSlot e = true /\
    (d, Z.of_nat k) ∉ cellOccupied (renderLayout timeSlots data).
Proof.
  unfold placedAt. split.
  - intros (row & rowspan & c & Hrow & Hcell).
    destruct (elem_of_layout_row timeSlots data k row
                (mkCell d (EventCell e rowspan c)) Hrow) as [Hslot Hcells].
    apply Hcells in Hcell as (day & events & Hentry & Hocc & Hcases).
    destruct Hcases as [(e' & He' & Hstart & Heq)|(_ & Heq)]; [|done].
    unfold eventCell in Heq. injection Heq as -> -> _ _.
    by exists (row_slot row), events.
  - intros (timeSlot & events & Hslot & Hentry & He & Hstart & Hocc).
    destruct (renderLayout_spec timeSlots data) as [Hrows _].
    pose proof (layoutRows_lookup (cellOccupied (renderLayout timeSlots data))
                  data 0 timeSlots k) as Hlookup.
    rewrite <- Hrows, Hslot in Hlookup. simpl in Hlookup.
    eexists _, _, clickable. split; [exact Hlookup|].
    apply (elem_of_layout_row timeSlots data k _ (eventCell d e) Hlookup).
    exists d, events. split; [done|]. split; [done|]. left. by exists e.
Qed.


End RenderFacts.

(** ** Events hidden behind a span *)

Lemma V1_renderBody_renderLayout (options : Options) (timeSlots : list TimeSlot)
  (data : Schedule) :
  V1.renderBody options timeSlots data
  = renderLayout V1.startsHere (V1.getRowSpan options) (modalEnabled options)
      (Z.of_nat (length timeSlots)) timeSlots data.
Proof. reflexivity. Qed.

Lemma V2_renderBody_renderLayout (options : Options) (timeSlots : list TimeSlot)
  (data : Schedule) :
  V2.renderBody options timeSlots data
  = renderLayout (V2.startsHere options) (V2.getRowSpan options) false
      (Z.of_nat (length timeSlots)) timeSlots data.
Proof. reflexivity. Qed.

Lemma V1_startsHere_true (k : Z) (timeSlot : TimeSlot) (e : Event) :
  V1.startsHere k timeSlot e = true <-> slotIndex e = Some k.
Proof.
  unfold V1.startsHere. destruct (slotIndex e) as [index|]; [|done].
  destruct (Z.eqb_spec index k) as [->|Hne]; [done|].
  split; [done|]. intros [= ->]. done.
Qed.

Lemma V2_startsHere_true (options : Options) (k : Z) (timeSlot : TimeSlot)
  (e : Event) :
  V2.startsHere options k timeSlot e = true <->
  minutes timeSlot <= startMinutes e < minutes timeSlot + timeInterval options.
Proof. unfold V2.startsHere. rewrite andb_true_iff. lia. Qed.



(** C10.  A schedule with an omitted event exists in both revisions: with A
    from 09:00 to 10:00 and B from 09:30 to 11:00 on one Monday the
    construction returns, both events are in the schedule, rows under A are
    occupied, B starts in one of them, and the only event cell drawn is A's.
    In general an event cell for [e] stands in row [k] of day [d] exactly when
    [e] is an event of [d] starting in row [k] and that row is not occupied
    for [d]; so an event whose starting row is occupied has no cell in any
    row. *)
Theorem event_on_occupied_row_omitted :
  summary (V1.new true overlapRaw mondayOnly)
    = Some ([("A", Some 4); ("B", Some 6)], [(4%nat, "Monday", "A")],
            [("Monday", [5; 6; 7])]) /\
  summary (V2.new true overlapRaw mondayOnly)
    = Some ([("A", None); ("B", None)], [(0%nat, "Monday", "A")],
            [("Monday", [1; 2; 3])]) /\
  forall (options : Options) (timeSlots : list TimeSlot) (data : Schedule)
         (k : nat) (d : string) (e : Event),
    (placedAt (V1.renderBody options timeSlots data) k d e <->
     (k < length timeSlots)%nat /\
     (exists events : list Event, (d, events) ∈ data /\ e ∈ events) /\
     slotIndex e = Some (Z.of_nat k) /\
     (d, Z.of_nat k) ∉ cellOccupied (V1.renderBody options timeSlots data)) /\
    (slotIndex e = Some (Z.of_nat k) ->
     (d, Z.of_nat k) ∈ cellOccupied (V1.renderBody options timeSlots data) ->
     forall k' : nat, ~ placedAt (V1.renderBody options timeSlots data) k' d e) /\
    (placedAt (V2.renderBody options timeSlots data) k d e <->
     exists timeSlot : TimeSlot,
       timeSlots !! k = Some timeSlot /\
       (exists events : list Event, (d, events) ∈ data /\ e ∈ events) /\
       minutes timeSlot <= startMinutes e
         < minutes timeSlot + timeInterval options /\
       (d, Z.of_nat k) ∉ cellOccupied (V2.renderBody options timeSlots data)) /\
    (forall (start : Z) (timeSlot : TimeSlot),
       0 < timeInterval options ->
       regularGrid start (timeInterval options) timeSlots ->
       timeSlots !! k = Some timeSlot ->
       minutes timeSlot <= startMinutes e
         < minutes timeSlot + timeInterval options ->
       (d, Z.of_nat k) ∈ cellOccupied (V2.renderBody options timeSlots data) ->
       forall k' : nat, ~ placedAt (V2.renderBody options timeSlots data) k' d e).
Proof.
  split; [vm_compute; reflexivity|]. split; [vm_compute; reflexivity|].
  intros options timeSlots data k d e.
  rewrite V1_renderBody_renderLayout, V2_renderBody_renderLayout.
  split; [|split; [|split]].
  - rewrite placedAt_renderLayout. split.
    + intros (ts & events & Hts & Hentry & He & Hstart & Hocc).
      split; [by eapply lookup_lt_Some|]. split; [by exists events|].
      split; [by apply V1_startsHere_true in Hstart|done].
    + intros (Hk & (events & Hentry & He) & Hslot & Hocc).
      destruct (lookup_lt_is_Some_2 timeSlots k Hk) as [ts Hts].
      exists ts, events. split; [done|]. split; [done|]. split; [done|].
      split; [by apply V1_startsHere_true|done].
  - intros Hslot Hocc k' Hplaced.
    apply placedAt_renderLayout in Hplaced
      as (ts & events & _ & _ & _ & Hstart & Hfree).
    apply V1_startsHere_true in Hstart. rewrite Hslot in Hstart.
    injection Hstart as Hk. apply Nat2Z.inj in Hk as ->. done.
  - rewrite placedAt_renderLayout. split.
    + intros (ts & events & Hts & Hentry & He & Hstart & Hocc).
      exists ts. split; [done|]. split; [by exists events|].
      split; [by apply V2_startsHere_true in Hstart|done].
    + intros (ts & Hts & (events & Hentry & He) & Hwin & Hocc).
      exists ts, events. split; [done|]. split; [done|]. split; [done|].
      split; [by apply V2_startsHere_true|done].
  - intros start ts Hi Hreg Hts Hwin Hocc k' Hplaced.
    apply placedAt_renderLayout in Hplaced
      as (ts' & events & Hts' & _ & _ & Hstart & Hfree).
    apply V2_startsHere_true in Hstart.
    pose proof (regularGrid_lookup _ _ _ _ _ Hreg Hts) as Hm.
    pose proof (regularGrid_lookup _ _ _ _ _ Hreg Hts') as Hm'.
    assert (Z.of_nat k' = Z.of_nat k) as Hk by nia.
    apply Nat2Z.inj in Hk as ->. done.
Qed.

(** B is in Monday's bucket with [slotIndex] 6, row 6 is occupied, and B has
    no cell in any row. *)
Lemma event_on_occupied_row_omitted_witness :
  obj_get "Monday" (data overlapThis) = Some
    [mkEvent "09:00" "10:00" 540 600 60 "A" "TBD" "N/A" "All" "Other" EmptyString
       (Some 4); eventB] /\
  ("Monday", 6) ∈ cellOccupied overlapLayout /\
  forall k' : nat, ~ placedAt overlapLayout k' "Monday" eventB.
Proof.
  split; [vm_compute; reflexivity|].
  assert (("Monday", Z.of_nat 6) ∈ cellOccupied overlapLayout) as Hocc
    by (apply (bool_decide_unpack _); vm_compute; exact I).
  split; [exact Hocc|].
  destruct event_on_occupied_row_omitted as (_ & _ & Hrule).
  destruct (Hrule (options overlapThis) (timeSlots overlapThis)
              (data overlapThis) 6%nat "Monday" eventB) as (_ & Hhidden & _).
  apply Hhidden; [reflexivity|exact Hocc].
Defined.

(** ** The capture groups of the time pattern *)

Lemma is_digit_not_colon (c : ascii) :
  JS.is_digit c = true -> Ascii.eqb c ":" = false.
Proof.
  intros Hd. destruct (Ascii.eqb_spec c ":") as [->|]; [|done].
  vm_compute in Hd. discriminate.
Qed.

Lemma split_chars_no_sep (sep : ascii) (h rest cur : list ascii) :
  forallb (fun c => negb (Ascii.eqb c sep)) h = true ->
  JS.split_chars sep (h ++ rest) cur = JS.split_chars sep rest (rev h ++ cur).
Proof.
  revert cur. induction h as [|c h IH]; intros cur Hh; simpl; [done|].
  simpl in Hh. apply andb_true_iff in Hh as [Hc Hh].
  destruct (Ascii.eqb c sep); [done|].
  rewrite IH by done. by rewrite <- app_assoc.
Qed.

Lemma split_chars_last (sep : ascii) (m cur : list ascii) :
  forallb (fun c => negb (Ascii.eqb c sep)) m = true ->
  JS.split_chars sep m cur = [rev (rev m ++ cur)].
Proof.
  intros Hm. rewrite <- (app_nil_r m) at 1. by rewrite split_chars_no_sep.
Qed.

Lemma digits_no_colon (h : list ascii) :
  forallb JS.is_digit h = true ->
  forallb (fun c => negb (Ascii.eqb c ":")) h = true.
Proof.
  induction h as [|c h IH]; simpl; [done|].
  intros [Hc Hh]%andb_true_iff. rewrite (is_digit_not_colon c Hc). simpl.
  by apply IH.
Qed.

Lemma Number_digits_faithful (h : list ascii) :
  forallb JS.is_digit h = true ->
  JS.Number (string_of_list_ascii h)
  = Some (JS.Number_digits (string_of_list_ascii h)).
Proof.
  intros Hh. unfold JS.Number, JS.Number_digits.
  by rewrite list_ascii_of_string_of_list_ascii, Hh.
Qed.

Lemma hhmm_shape (cs g rest : list ascii) :
  hhmm cs = Some (g, rest) ->
  exists h m : list ascii,
    g = h ++ ":"%char :: m /\
    forallb JS.is_digit h = true /\ forallb JS.is_digit m = true.
Proof.
  unfold hhmm, p_alt, p_seq, p_digit, p_char.
  destruct cs as [|c1 [|c2 [|c3 [|c4 [|c5 tail]]]]]; simpl;
    repeat match goal with
           | |- context [if ?b then _ else _] => destruct b eqn:?
           end;
    try discriminate; intros [= <- <-];
    repeat match goal with
           | H : Ascii.eqb _ _ = true |- _ => apply Ascii.eqb_eq in H; subst
           end.
  all: first
    [ match goal with
      | H : JS.is_digit ":" = true |- _ => vm_compute in H; discriminate
      end
    | exists [c1; c2], [c4; c5]; simpl;
      repeat match goal with H : JS.is_digit _ = true |- _ => rewrite H end; done
    | exists [c1], [c3; c4]; simpl;
      repeat match goal with H : JS.is_digit _ = true |- _ => rewrite H end; done ].
Qed.

(** On a capture group, [time.split(":").map(Number)] is a pair of numbers
    and [getMinutes] is [hours * 60 + minutes] of it; [Number] never yields
    [NaN] there. *)
Lemma hhmm_digits (cs g rest : list ascii) :
  hhmm cs = Some (g, rest) ->
  exists hours minutes : Z,
    map JS.Number (JS.split ":" (string_of_list_ascii g))
      = [Some hours; Some minutes] /\
    getMinutes (string_of_list_ascii g) = hours * 60 + minutes.
Proof.
  intros (h & m & -> & Hh & Hm)%hhmm_shape.
  assert (JS.split ":" (string_of_list_ascii (h ++ ":"%char :: m))
          = [string_of_list_ascii h; string_of_list_ascii m]) as Hsplit.
  { unfold JS.split. rewrite list_ascii_of_string_of_list_ascii.
    rewrite split_chars_no_sep by (by apply digits_no_colon).
    simpl. rewrite split_chars_last by (by apply digits_no_colon).
    by rewrite !app_nil_r, !rev_involutive. }
  exists (JS.Number_digits (string_of_list_ascii h)),
         (JS.Number_digits (string_of_list_ascii m)).
  unfold getMinutes. rewrite Hsplit. simpl.
  by rewrite !Number_digits_faithful.
Qed.
(** * More of the class *)

(** ** Time labels *)

Lemma two_digits (n : Z) :
  0 <= n < 100 ->
  exists d1 d2 : ascii,
    JS.padStart2 (JS.toString n) = String d1 (String d2 EmptyString) /\
    JS.is_digit d1 = true /\ JS.is_digit d2 = true /\
    JS.digits_value [d1; d2] = n.
Proof.
  intros Hn.
  assert (forallb
            (fun k : nat =>
               match JS.padStart2 (JS.toString (Z.of_nat k)) with
               | String d1 (String d2 EmptyString) =>
                   JS.is_digit d1 && JS.is_digit d2 &&
                   (JS.digits_value [d1; d2] =? Z.of_nat k)
               | _ => false
               end) (seq 0 100) = true) as Hall by (vm_compute; reflexivity).
  rewrite forallb_forall in Hall.
  specialize (Hall (Z.to_nat n)). rewrite Z2Nat.id in Hall by lia.
  assert (In (Z.to_nat n) (seq 0 100)) as Hin by (apply in_seq; lia).
  specialize (Hall Hin).
  destruct (JS.padStart2 (JS.toString n)) as [|d1 [|d2 [|? ?]]]; try done.
  apply andb_true_iff in Hall as [[H1 H2]%andb_true_iff Hv%Z.eqb_eq].
  by exists d1, d2.
Qed.

Lemma formatTimeLabel_shape (t : Z) :
  0 <= t < 6000 ->
  exists h1 h2 m1 m2 : ascii,
    formatTimeLabel t
    = String h1 (String h2 (String ":" (String m1 (String m2 EmptyString)))) /\
    JS.is_digit h1 = true /\ JS.is_digit h2 = true /\
    JS.is_digit m1 = true /\ JS.is_digit m2 = true /\
    JS.digits_value [h1; h2] * 60 + JS.digits_value [m1; m2] = t.
Proof.
  intros Ht. unfold formatTimeLabel, JS.floor_div.
  assert (0 <= t / 60 < 100) as Hh
    by (split; [apply Z.div_pos; lia|apply Z.div_lt_upper_bound; lia]).
  assert (0 <= Z.rem t 60 < 60) as Hm by (apply Z.rem_bound_pos; lia).
  destruct (two_digits (t / 60) Hh) as (h1 & h2 & -> & ? & ? & Hhv).
  destruct (two_digits (Z.rem t 60) ltac:(lia)) as (m1 & m2 & -> & ? & ? & Hmv).
  exists h1, h2, m1, m2. split; [done|]. repeat (split; [done|]).
  rewrite Hhv, Hmv, Z.rem_mod_nonneg by lia.
  pose proof (Z.div_mod t 60 ltac:(lia)). lia.
Qed.

Lemma getMinutes_label (h1 h2 m1 m2 : ascii) :
  JS.is_digit h1 = true -> JS.is_digit h2 = true ->
  JS.is_digit m1 = true -> JS.is_digit m2 = true ->
  getMinutes
    (String h1 (String h2 (String ":" (String m1 (String m2 EmptyString)))))
  = JS.digits_value [h1; h2] * 60 + JS.digits_value [m1; m2].
Proof.
  intros H1 H2 H3 H4. unfold getMinutes, JS.split.
  change (list_ascii_of_string _) with ([h1; h2] ++ ":"%char :: [m1; m2]).
  rewrite split_chars_no_sep
    by (simpl; by rewrite !is_digit_not_colon by done).
  change (JS.split_chars ":" (":"%char :: [m1; m2]) (rev [h1; h2] ++ []))
    with (rev (rev [h1; h2] ++ []) :: JS.split_chars ":" [m1; m2] []).
  rewrite split_chars_last
    by (simpl; by rewrite !is_digit_not_colon by done).
  reflexivity.
Qed.

Lemma hhmm_label (h1 h2 m1 m2 : ascii) (rest : list ascii) :
  JS.is_digit h1 = true -> JS.is_digit h2 = true ->
  JS.is_digit m1 = true -> JS.is_digit m2 = true ->
  hhmm (h1 :: h2 :: ":"%char :: m1 :: m2 :: rest)
  = Some ([h1; h2; ":"%char; m1; m2], rest).
Proof.
  intros H1 H2 H3 H4.
  unfold hhmm, p_alt, p_seq, p_digit, p_char.
  by rewrite H1, H2, Ascii.eqb_refl, H3, H4.
Qed.

Lemma regex_match_here (cs : list ascii)
  (m : list ascii * list ascii * list ascii) :
  match_here cs = Some m -> regex_match cs = Some m.
Proof. intros Hm. destruct cs; cbn [regex_match]; by rewrite Hm. Qed.

(** X1.  Formatting two times of day and parsing the range back gives the
    same minutes: for [a] and [b] from 0 up to 99:59, [processTime] of
    [formatTimeLabel a], a dash and [formatTimeLabel b] returns the two labels,
    [a], [b] and the duration [b - a]; in particular [getMinutes] undoes
    [formatTimeLabel], and the label of a generated time slot is
    [formatTimeLabel] of its minutes. *)
Theorem formatTimeLabel_processTime (a b : Z) :
  0 <= a < 6000 -> 0 <= b < 6000 ->
  processTime (Some (formatTimeLabel a +:+ "-" +:+ formatTimeLabel b))
    = JS.Ok (mkTimeInfo (formatTimeLabel a) (formatTimeLabel b) a b (b - a)) /\
  getMinutes (formatTimeLabel a) = a /\
  label (makeSlot a) = formatTimeLabel a.
Proof.
  intros Ha Hb.
  destruct (formatTimeLabel_shape a Ha)
    as (h1 & h2 & m1 & m2 & Hla & Hh1 & Hh2 & Hm1 & Hm2 & Hva).
  destruct (formatTimeLabel_shape b Hb)
    as (k1 & k2 & n1 & n2 & Hlb & Hk1 & Hk2 & Hn1 & Hn2 & Hvb).
  split; [|split; [|reflexivity]].
  - rewrite Hla, Hlb. unfold processTime, time_match.
    change (list_ascii_of_string _)
      with (h1 :: h2 :: ":"%char :: m1 :: m2
            :: "-"%char :: [k1; k2; ":"%char; n1; n2]).
    rewrite (regex_match_here _
               ([h1; h2; ":"%char; m1; m2] ++ "-"%char
                :: [k1; k2; ":"%char; n1; n2],
                [h1; h2; ":"%char; m1; m2], [k1; k2; ":"%char; n1; n2])).
    + change (string_of_list_ascii [h1; h2; ":"%char; m1; m2])
        with (String h1 (String h2 (String ":" (String m1 (String m2
                EmptyString))))).
      change (string_of_list_ascii [k1; k2; ":"%char; n1; n2])
        with (String k1 (String k2 (String ":" (String n1 (String n2
                EmptyString))))).
      cbv beta iota zeta.
      rewrite !getMinutes_label by done. by rewrite Hva, Hvb.
    + unfold match_here. rewrite hhmm_label by done.
      unfold p_char at 1. rewrite Ascii.eqb_refl.
      by rewrite hhmm_label by done.
  - rewrite Hla, getMinutes_label by done. exact Hva.
Qed.

Lemma formatTimeLabel_processTime_witness :
  formatTimeLabel 545 = "09:05" /\
  processTime (Some "09:05-17:30")
    = JS.Ok (mkTimeInfo "09:05" "17:30" 545 1050 505).
Proof.
  split; [reflexivity|].
  apply (formatTimeLabel_processTime 545 1050); lia.
Defined.

(** ** More on the normalizer *)




(** *** What [processTime] accepts *)

Lemma digit_value_range (c : ascii) :
  JS.is_digit c = true -> 0 <= JS.digit_value c <= 9.
Proof.
  unfold JS.is_digit, JS.digit_value.
  intros [H1 H2]%andb_true_iff.
  apply Nat.leb_le in H1. apply Nat.leb_le in H2. lia.
Qed.

Lemma hhmm_consumes (cs g rest : list ascii) :
  hhmm cs = Some (g, rest) -> cs = g ++ rest.
Proof.
  unfold hhmm, p_alt, p_seq, p_digit, p_char.
  destruct cs as [|c1 [|c2 [|c3 [|c4 [|c5 tail]]]]]; simpl;
    repeat match goal with
           | |- context [if ?b then _ else _] => destruct b eqn:?
           end;
    try discriminate; by intros [= <- <-].
Qed.

Lemma hhmm_minutes_range (cs g rest : list ascii) :
  hhmm cs = Some (g, rest) ->
  0 <= getMinutes (string_of_list_ascii g) <= 99 * 60 + 99.
Proof.
  unfold hhmm, p_alt, p_seq, p_digit, p_char.
  destruct cs as [|c1 [|c2 [|c3 [|c4 [|c5 tail]]]]]; simpl;
    repeat match goal with
           | |- context [if ?b then _ else _] => destruct b eqn:?
           end;
    try discriminate; intros [= <- <-];
    repeat match goal with
           | H : Ascii.eqb _ _ = true |- _ => apply Ascii.eqb_eq in H; subst
           end;
    try match goal with
        | H : JS.is_digit ":" = true |- _ => vm_compute in H; discriminate
        end;
    unfold getMinutes, JS.split; simpl;
    rewrite ?is_digit_not_colon by done; simpl;
    rewrite ?is_digit_not_colon by done; simpl;
    unfold JS.Number_digits, JS.digits_value; simpl;
    repeat match goal with
           | H : JS.is_digit _ = true |- _ => apply digit_value_range in H
           end; lia.
Qed.

Lemma string_of_list_ascii_app (a b : list ascii) :
  string_of_list_ascii (a ++ b)
  = string_of_list_ascii a +:+ string_of_list_ascii b.
Proof. induction a as [|c a IH]; simpl; [done|by rewrite IH]. Qed.

Lemma regex_match_groups (cs range g1 g2 : list ascii) :
  regex_match cs = Some (range, g1, g2) ->
  range = g1 ++ "-"%char :: g2 /\
  (exists before after : list ascii, cs = before ++ range ++ after) /\
  (exists cs1 rest1 cs2 rest2 : list ascii,
     hhmm cs1 = Some (g1, rest1) /\ hhmm cs2 = Some (g2, rest2)).
Proof.
  induction cs as [|c cs IH]; simpl.
  - unfold match_here. simpl. done.
  - destruct (match_here (c :: cs)) as [[[r a] b]|] eqn:Hhere.
    + intros [= -> -> ->]. unfold match_here in Hhere.
      destruct (hhmm (c :: cs)) as [[a rest]|] eqn:H1; [|done].
      destruct (p_char "-" rest) as [[dash rest']|] eqn:Hdash; [|done].
      destruct (hhmm rest') as [[b rest'']|] eqn:H2; [|done].
      injection Hhere as <- <- <-. split; [done|]. split.
      * exists [], rest''. simpl.
        rewrite (hhmm_consumes _ _ _ H1).
        unfold p_char in Hdash. destruct rest as [|x rest]; [done|].
        destruct (Ascii.eqb_spec x "-") as [->|]; [|done].
        injection Hdash as _ <-.
        rewrite (hhmm_consumes _ _ _ H2). by rewrite <- !app_assoc.
      * by exists (c :: cs), rest, rest', rest''.
    + intros Hrest. destruct (IH Hrest) as (Hr & (before & after & ->) & Hg).
      split; [done|]. split; [|done]. by exists (c :: before), after.
Qed.

(** X3.  What [processTime] returns: the start and end it reports are the
    two sides of an occurrence of the pattern somewhere in the string, both
    lie between 0 and 99:99 (6039 minutes, not 23:59), and the duration is
    their difference, which nothing keeps positive. *)
Theorem processTime_range (timeStr : string) (timeInfo : TimeInfo) :
  processTime (Some timeStr) = JS.Ok timeInfo ->
  (exists before after : string,
     timeStr = before +:+ ti_startTime timeInfo +:+ "-" +:+
               ti_endTime timeInfo +:+ after) /\
  ti_startMinutes timeInfo = getMinutes (ti_startTime timeInfo) /\
  ti_endMinutes timeInfo = getMinutes (ti_endTime timeInfo) /\
  0 <= ti_startMinutes timeInfo <= 6039 /\
  0 <= ti_endMinutes timeInfo <= 6039 /\
  ti_duration timeInfo = ti_endMinutes timeInfo - ti_startMinutes timeInfo.
Proof.
  unfold processTime, time_match.
  destruct (regex_match (list_ascii_of_string timeStr))
    as [[[range g1] g2]|] eqn:Hmatch; [|done].
  intros [= <-]. simpl.
  apply regex_match_groups in Hmatch
    as (-> & (before & after & Hcs) & (cs1 & r1 & cs2 & r2 & H1 & H2)).
  split.
  { exists (string_of_list_ascii before), (string_of_list_ascii after).
    rewrite <- (string_of_list_ascii_of_string timeStr), Hcs.
    change ("-"%char :: g2) with (["-"%char] ++ g2).
    rewrite <- !app_assoc. by rewrite !string_of_list_ascii_app. }
  pose proof (hhmm_minutes_range _ _ _ H1).
  pose proof (hhmm_minutes_range _ _ _ H2).
  repeat split; lia.
Qed.

Lemma processTime_range_witness :
  processTime (Some "from 24:30-7:05 on")
    = JS.Ok (mkTimeInfo "24:30" "7:05" 1470 425 (-1045)) /\
  0 <= 1470 <= 6039 /\ 0 <= 425 <= 6039.
Proof.
  split; [reflexivity|].
  destruct (processTime_range "from 24:30-7:05 on"
              (mkTimeInfo "24:30" "7:05" 1470 425 (-1045)) eq_refl)
    as (_ & _ & _ & Hs & He & _).
  exact (conj Hs He).
Defined.

(** *** Missing and unusable fields *)

Section MissingFields.

Variable days : list string.
Variable categoryKey : string.

Lemma prepareData_missing_date (options : Options) (before after : list RawEvent)
  (event : RawEvent) :
  event !! "Date" = None ->
  prepareData days categoryKey options (before ++ event :: after)
    = JS.Throw JS.TypeError.
Proof.
  intros Hdate. unfold prepareData. rewrite forEach_app.
  pose proof (forEach_prepareEvent_no_diverge days categoryKey before
                (initPrepared options)) as Hnd.
  destruct (JS.forEach _ before _) as [prepared|[]|] eqn:Hbefore; simpl; [|done..].
  unfold prepareEvent. by rewrite Hdate.
Qed.

Lemma prepareData_missing_time (options : Options) (before after : list RawEvent)
  (event : RawEvent) (day : option string) :
  getDayOfWeek days (event !! "Date") = JS.Ok day ->
  JS.property_key day ∈ weekdays options ->
  event !! "Heure" = None ->
  prepareData days categoryKey options (before ++ event :: after)
    = JS.Throw JS.TypeError.
Proof.
  intros Hday Hin Hheure. unfold prepareData. rewrite forEach_app.
  pose proof (forEach_prepareEvent_no_diverge days categoryKey before
                (initPrepared options)) as Hnd.
  destruct (JS.forEach _ before _) as [prepared|[]|] eqn:Hbefore; simpl; [|done..].
  rewrite (prepareEvent_throws days categoryKey prepared event day Hday); [done| |].
  - by rewrite (prepareData_keys_after days categoryKey options before prepared).
  - by rewrite Hheure.
Qed.

Lemma getDayOfWeek_resolves (dateStr : option string) (day : option string) :
  getDayOfWeek days dateStr = JS.Ok day ->
  day = None \/ exists d : string, day = Some d /\ d ∈ days.
Proof.
  unfold getDayOfWeek. destruct dateStr as [s|]; [|done].
  intros [= <-]. unfold JS.index.
  destruct (JS.Date_getDay _ _ _) as [i|]; [|by left].
  destruct (i <? 0); [by left|].
  destruct (days !! Z.to_nat i) as [d|] eqn:Hd; [|by left].
  right. exists d. split; [done|]. by eapply list_elem_of_lookup_2.
Qed.

Lemma getDayOfWeek_few_parts (dateStr : string) :
  (length (JS.split "/" dateStr) < 3)%nat ->
  getDayOfWeek days (Some dateStr) = JS.Ok None.
Proof.
  intros Hlen. unfold getDayOfWeek.
  rewrite (lookup_ge_None_2 (JS.split "/" dateStr) 2) by lia.
  reflexivity.
Qed.

(** No record ever lands in a bucket whose name is neither in the table of
    [getDayOfWeek] nor "undefined". *)
Lemma bucketOf_unnamed (k : string) (rawData : list RawEvent) :
  k ∉ days -> k <> "undefined" -> bucketOf days categoryKey k rawData = [].
Proof.
  intros Hk Hundef. unfold bucketOf.
  induction rawData as [|event rawData IH]; simpl; [done|].
  rewrite IH, app_nil_r. unfold bucketEvent.
  destruct (getDayOfWeek days (event !! "Date")) as [day| |] eqn:Hday; [|done..].
  destruct (processTime _); [|done..].
  destruct (String.eqb_spec (JS.property_key day) k) as [Heq|]; [|done].
  apply getDayOfWeek_resolves in Hday as [->|(d & -> & Hd)]; simpl in Heq.
  - congruence.
  - by subst.
Qed.

End MissingFields.

(** X4.  A record without a [Date] makes normalization, and with it the
    construction, raise a [TypeError] wherever the record stands and whatever
    weekdays are configured; so does a record of a configured weekday without
    an [Heure] (both revisions). *)
Theorem missing_date_or_time_raises
  (container : bool) (userOptions : UserOptions)
  (before after : list RawEvent) (event : RawEvent) :
  (event !! "Date" = None ->
   V1.new container (before ++ event :: after) userOptions
     = JS.Throw JS.TypeError /\
   V2.new container (before ++ event :: after) userOptions
     = JS.Throw JS.TypeError) /\
  (event !! "Heure" = None ->
   (forall day : option string,
      getDayOfWeek V1.days (event !! "Date") = JS.Ok day ->
      JS.property_key day ∈ weekdays (V1.mergeDefaultOptions userOptions) ->
      V1.new container (before ++ event :: after) userOptions
        = JS.Throw JS.TypeError) /\
   (forall day : option string,
      getDayOfWeek V2.days (event !! "Date") = JS.Ok day ->
      JS.property_key day ∈ weekdays (V2.mergeDefaultOptions userOptions) ->
      V2.new container (before ++ event :: after) userOptions
        = JS.Throw JS.TypeError)).
Proof.
  split.
  - intros Hdate. unfold V1.new, V2.new, V1.prepareData, V2.prepareData.
    by rewrite !prepareData_missing_date.
  - intros Hheure. split; intros day Hday Hin.
    + unfold V1.new, V1.prepareData.
      by rewrite (prepareData_missing_time _ _ _ _ _ _ day Hday Hin Hheure).
    + unfold V2.new, V2.prepareData.
      by rewrite (prepareData_missing_time _ _ _ _ _ _ day Hday Hin Hheure).
Qed.

Lemma missing_date_or_time_raises_witness :
  V1.new true ([mondayRaw] ++ noDateRaw :: [tuesdayRaw]) noOptions
    = JS.Throw JS.TypeError /\
  V2.new true ([mondayRaw] ++ noTimeRaw :: [tuesdayRaw]) noOptions
    = JS.Throw JS.TypeError.
Proof.
  destruct (missing_date_or_time_raises true noOptions [mondayRaw] [tuesdayRaw]
              noDateRaw) as [Hdate _].
  destruct (missing_date_or_time_raises true noOptions [mondayRaw] [tuesdayRaw]
              noTimeRaw) as [_ Htime].
  split.
  - apply Hdate. reflexivity.
  - apply (proj2 (Htime eq_refl) (Some "Monday")); [reflexivity|]. compute_done.
Defined.

(** X5.  A date with fewer than three parts between slashes (an ISO date,
    say) resolves to no day; unless "undefined" is a configured weekday the
    record is then skipped without any error, its time string never looked
    at, and the construction comes out as without it (both revisions). *)
Theorem short_date_skipped
  (container : bool) (userOptions : UserOptions)
  (before after : list RawEvent) (event : RawEvent) (dateStr : string) :
  event !! "Date" = Some dateStr ->
  (length (JS.split "/" dateStr) < 3)%nat ->
  ("undefined" ∉ weekdays (V1.mergeDefaultOptions userOptions) ->
   V1.new container (before ++ event :: after) userOptions
     = V1.new container (before ++ after) userOptions) /\
  ("undefined" ∉ weekdays (V2.mergeDefaultOptions userOptions) ->
   V2.new container (before ++ event :: after) userOptions
     = V2.new container (before ++ after) userOptions).
Proof.
  intros Hdate Hlen. split; intros Hundef.
  - unfold V1.new, V1.prepareData.
    rewrite (proj1 (prepareData_drop V1.days V1.categoryKey _ before after
                      event None ltac:(rewrite Hdate;
                                       by apply getDayOfWeek_few_parts)
                      Hundef)). done.
  - unfold V2.new, V2.prepareData.
    rewrite (proj1 (prepareData_drop V2.days V2.categoryKey _ before after
                      event None ltac:(rewrite Hdate;
                                       by apply getDayOfWeek_few_parts)
                      Hundef)). done.
Qed.

Lemma short_date_skipped_witness :
  JS.split "/" "2025-03-10" = ["2025-03-10"] /\
  V1.new true ([mondayRaw] ++ isoDateRaw :: [tuesdayRaw]) noOptions
    = V1.new true ([mondayRaw] ++ [tuesdayRaw]) noOptions /\
  V2.new true ([mondayRaw] ++ isoDateRaw :: [tuesdayRaw]) noOptions
    = V2.new true ([mondayRaw] ++ [tuesdayRaw]) noOptions.
Proof.
  destruct (short_date_skipped true noOptions [mondayRaw] [tuesdayRaw]
              isoDateRaw "2025-03-10" eq_refl ltac:(vm_compute; lia))
    as [H1 H2].
  split; [reflexivity|]. split; [apply H1|apply H2]; compute_done.
Defined.

(** X6.  The first revision never files an event under "Saturday": the
    table of [getDayOfWeek] ends at Friday, so whatever the raw data, the
    bucket of a configured "Saturday" stays empty (a Saturday record is
    skipped). *)
Theorem V1_saturday_stays_empty
  (options : Options) (rawData : list RawEvent) (data : Schedule)
  (events : list Event) :
  V1.prepareData options rawData = JS.Ok data ->
  obj_get "Saturday" data = Some events ->
  events = [].
Proof.
  intros Hok Hget.
  apply prepareData_buckets in Hok as (_ & _ & Hbuckets).
  apply Hbuckets in Hget as [_ ->].
  apply bucketOf_unnamed; [|done].
  apply (bool_decide_unpack _). by vm_compute.
Qed.

(** With Saturday configured, the Saturday record is lost by the first
    revision and kept by the second. *)
Lemma V1_saturday_stays_empty_witness :
  V1.prepareData weekendOptions [saturdayRaw; mondayRaw]
    = JS.Ok weekendDataV1 /\
  obj_get "Saturday" weekendDataV1 = Some [] /\
  map name (eventsOf (V2.prepareData weekendOptions [saturdayRaw; mondayRaw]))
    = ["IN2R06"; "IN2R08"].
Proof.
  assert (V1.prepareData weekendOptions [saturdayRaw; mondayRaw]
          = JS.Ok weekendDataV1) as Hok by (vm_compute; reflexivity).
  split; [exact Hok|]. split; [|vm_compute; reflexivity].
  destruct (obj_get "Saturday" weekendDataV1) as [events|] eqn:Hget;
    [|vm_compute in Hget; discriminate].
  by rewrite (V1_saturday_stays_empty weekendOptions [saturdayRaw; mondayRaw]
                weekendDataV1 events Hok Hget).
Defined.

Lemma or_else_nonempty (field : option string) (sentinel : string) :
  sentinel <> EmptyString -> JS.or_else field sentinel <> EmptyString.
Proof.
  intros Hd. destruct field as [s|]; simpl; [|done].
  by destruct (String.eqb_spec s EmptyString).
Qed.

Lemma prepared_fields_nonempty (days : list string) (categoryKey : string)
  (options : Options) (rawData : list RawEvent) (data : Schedule) (e : Event) :
  prepareData days categoryKey options rawData = JS.Ok data ->
  e ∈ allEvents data ->
  name e <> EmptyString /\ location e <> EmptyString /\
  staff e <> EmptyString /\ group e <> EmptyString /\
  category e <> EmptyString.
Proof.
  intros Hok He.
  apply prepareData_buckets in Hok as (Hnd & _ & Hget).
  apply elem_of_concat in He as (events & He & Hevents).
  apply list_elem_of_fmap in Hevents as ([k events'] & -> & Hentry).
  simpl in He.
  apply (elem_of_obj_get _ _ _ Hnd), Hget in Hentry as [_ ->].
  apply elem_of_bucketOf in He
    as (event & d & timeInfo & _ & _ & _ & _ & ->).
  simpl. repeat split; apply or_else_nonempty; try done.
  by apply or_else_nonempty.
Qed.

(** X7.  Every event of a schedule that [prepareData] returns has a
    non-empty name, location, staff, group and category; only the remarks
    may be empty (both revisions). *)
Theorem normalized_fields_nonempty
  (options : Options) (rawData : list RawEvent) (data : Schedule) (e : Event) :
  V1.prepareData options rawData = JS.Ok data \/
  V2.prepareData options rawData = JS.Ok data ->
  e ∈ allEvents data ->
  name e <> EmptyString /\ location e <> EmptyString /\
  staff e <> EmptyString /\ group e <> EmptyString /\
  category e <> EmptyString.
Proof.
  intros [Hok|Hok]; by eapply prepared_fields_nonempty.
Qed.

Lemma normalized_fields_nonempty_witness :
  allEvents bareData = [bareEvent] /\
  name bareEvent <> EmptyString /\ location bareEvent <> EmptyString /\
  staff bareEvent <> EmptyString /\ group bareEvent <> EmptyString /\
  category bareEvent <> EmptyString.
Proof.
  assert (allEvents bareData = [bareEvent]) as Heq by (vm_compute; reflexivity).
  split; [exact Heq|].
  apply (normalized_fields_nonempty (V1.mergeDefaultOptions noOptions)
           [bareRaw] bareData bareEvent).
  - left. vm_compute. reflexivity.
  - rewrite Heq. left.
Defined.

(** ** The grid of the first revision *)

Lemma slotsLoop_diverges (interval endTime : Z) (fuel : nat) (time : Z) :
  interval <= 0 -> time < endTime ->
  slotsLoop fuel interval endTime time = JS.Diverge.
Proof.
  intros Hi. revert time. induction fuel as [|fuel IH]; intros time Ht; simpl.
  - by destruct (Z.ltb_spec time endTime); [|lia].
  - destruct (Z.ltb_spec time endTime); [|lia].
    by rewrite IH by lia.
Qed.

(** X8.  With a positive interval the first revision's grid is the same
    whatever the events: it starts at 08:00, its rows are the times below
    18:00 that lie a whole number of intervals after 08:00, there are
    [ceil(600 / interval)] of them, and every row is labelled with
    [formatTimeLabel] of its minutes. *)
Theorem V1_generateTimeSlots_window (options : Options) :
  0 < timeInterval options ->
  exists timeSlots : list TimeSlot,
    V1.generateTimeSlots options = JS.Ok timeSlots /\
    timeSlots
    = map makeSlot (gridTimes 480 (timeInterval options) (length timeSlots)) /\
    Z.of_nat (length timeSlots) = JS.ceil_div 600 (timeInterval options) /\
    timeSlots !! 0%nat = Some (makeSlot 480) /\
    (forall t : Z,
       t ∈ map minutes timeSlots <->
       480 <= t < 1080 /\ (timeInterval options | t - 480)) /\
    (forall slot : TimeSlot,
       slot ∈ timeSlots -> label slot = formatTimeLabel (minutes slot)).
Proof.
  intros Hi. unfold V1.generateTimeSlots.
  rewrite slotsBetween_total by done.
  change (8 * 60) with 480. change (18 * 60) with 1080.
  unfold slotCount. change (1080 - 480) with 600.
  pose proof (ceil_div_pos 600 (timeInterval options) Hi ltac:(lia)) as Hpos.
  pose proof (ceil_div_bounds 600 (timeInterval options) Hi) as Hceil.
  set (n := Z.to_nat (JS.ceil_div 600 (timeInterval options))) in *.
  assert (Z.of_nat n = JS.ceil_div 600 (timeInterval options)) as Hn
    by (unfold n; lia).
  eexists. split; [reflexivity|].
  rewrite length_map, gridTimes_length.
  split; [done|]. split; [done|]. split.
  { destruct n as [|n]; [lia|]. simpl. repeat f_equal; lia. }
  split.
  - intros t. rewrite minutes_makeSlot, elem_of_gridTimes. split.
    + intros (k & Hk & ->). split; [nia|].
      exists (Z.of_nat k). lia.
    + intros [Ht [q Hq]]. exists (Z.to_nat q).
      assert (0 <= q) by nia. rewrite Z2Nat.id by done.
      split; [|lia]. apply Nat2Z.inj_lt. rewrite Z2Nat.id by done. nia.
  - intros slot Hin. apply list_elem_of_fmap in Hin as (t & -> & _).
    reflexivity.
Qed.

Lemma V1_generateTimeSlots_window_witness :
  exists timeSlots : list TimeSlot,
    V1.generateTimeSlots (mkOptions defaultWeekdays 45 2 true true)
      = JS.Ok timeSlots /\
    map label timeSlots
    = ["08:00"; "08:45"; "09:30"; "10:15"; "11:00"; "11:45"; "12:30"; "13:15";
       "14:00"; "14:45"; "15:30"; "16:15"; "17:00"; "17:45"] /\
    Z.of_nat (length timeSlots) = JS.ceil_div 600 45.
Proof.
  destruct (V1_generateTimeSlots_window (mkOptions defaultWeekdays 45 2 true true))
    as (timeSlots & Hgen & _ & Hlen & _); [simpl; lia|].
  exists timeSlots. split; [exact Hgen|]. split; [|exact Hlen].
  vm_compute in Hgen. injection Hgen as <-. reflexivity.
Defined.

(** X9.  With a zero or negative interval the first revision's loop never
    leaves the window: no number of turns ends it, so
    [generateTimeSlots] does not return, and a construction whose records
    all normalize does not return either. *)
Theorem V1_nonpositive_interval_never_returns
  (container : bool) (rawData : list RawEvent) (userOptions : UserOptions) :
  timeInterval (V1.mergeDefaultOptions userOptions) <= 0 ->
  (forall fuel : nat,
     slotsLoop fuel (timeInterval (V1.mergeDefaultOptions userOptions))
       (18 * 60) (8 * 60) = JS.Diverge) /\
  V1.generateTimeSlots (V1.mergeDefaultOptions userOptions) = JS.Diverge /\
  (returned (V1.prepareData (V1.mergeDefaultOptions userOptions) rawData) = true ->
   V1.new container rawData userOptions = JS.Diverge) /\
  returned (V1.new container rawData userOptions) = false.
Proof.
  intros Hi.
  assert (forall fuel : nat,
            slotsLoop fuel (timeInterval (V1.mergeDefaultOptions userOptions))
              (18 * 60) (8 * 60) = JS.Diverge) as Hloop
    by (intros fuel; apply slotsLoop_diverges; [done|lia]).
  assert (V1.generateTimeSlots (V1.mergeDefaultOptions userOptions) = JS.Diverge)
    as Hgen by (unfold V1.generateTimeSlots, slotsBetween; apply Hloop).
  split; [done|]. split; [done|].
  unfold V1.new. rewrite Hgen.
  destruct (V1.prepareData _ rawData) as [data| |]; simpl; by split.
Qed.

Lemma V1_nonpositive_interval_never_returns_witness :
  V1.new true [mondayRaw] (mkUserOptions None (Some 0) None None None)
  = JS.Diverge.
Proof.
  apply (V1_nonpositive_interval_never_returns true [mondayRaw]
           (mkUserOptions None (Some 0) None None None)).
  - simpl. lia.
  - vm_compute. reflexivity.
Defined.

(** ** What [render] does to the instance *)

Section SortAgain.

Context {A : Type} (key : A -> Z).

Lemma sort_sorted_id (l : list A) :
  StronglySorted (fun a b => key a <= key b) l -> JS.sort (byKey key) l = l.
Proof.
  induction 1 as [|x l Hsorted IH Hall]; [done|].
  unfold JS.sort in *. simpl. rewrite IH.
  destruct l as [|y l']; [done|]. simpl.
  apply Forall_cons in Hall as [Hxy _]. unfold byKey.
  by destruct (Z.leb_spec (key x - key y) 0); [|lia].
Qed.

Lemma sort_idempotent (l : list A) :
  JS.sort (byKey key) (JS.sort (byKey key) l) = JS.sort (byKey key) l.
Proof. apply sort_sorted_id, sort_sorted. Qed.

Lemma sort_insert_map (f : A -> A) (x : A) (l : list A) :
  (forall a : A, key (f a) = key a) ->
  JS.sort_insert (byKey key) (f x) (map f l)
  = map f (JS.sort_insert (byKey key) x l).
Proof.
  intros Hf. induction l as [|y l IH]; simpl; [done|].
  unfold byKey in *. rewrite !Hf.
  destruct (key x - key y <=? 0); simpl; [done|]. by rewrite IH.
Qed.

(** Sorting commutes with a change of the elements that keeps their keys. *)
Lemma sort_map (f : A -> A) (l : list A) :
  (forall a : A, key (f a) = key a) ->
  JS.sort (byKey key) (map f l) = map f (JS.sort (byKey key) l).
Proof.
  intros Hf. induction l as [|x l IH]; [done|].
  unfold JS.sort in *. simpl. by rewrite IH, sort_insert_map.
Qed.

End SortAgain.

Lemma sortDays_idempotent (data : Schedule) :
  sortDays (sortDays data) = sortDays data.
Proof.
  unfold sortDays. rewrite map_map. apply map_ext. intros [day events]. simpl.
  f_equal. apply (sort_idempotent startMinutes).
Qed.

Lemma sortDays_map (f : Event -> Event) (data : Schedule) :
  (forall e : Event, startMinutes (f e) = startMinutes e) ->
  sortDays (map (fun entry : string * list Event => (entry.1, map f entry.2)) data)
  = map (fun entry : string * list Event => (entry.1, map f entry.2))
      (sortDays data).
Proof.
  intros Hf. unfold sortDays. rewrite !map_map. apply map_ext.
  intros [day events]. simpl. f_equal. apply (sort_map startMinutes f), Hf.
Qed.

Lemma assignSlot_withSlot (options : Options) (timeSlots : list TimeSlot)
  (event : Event) :
  timeSlots <> [] ->
  V1.assignSlot options timeSlots event
  = JS.Ok (withSlot options timeSlots event).
Proof.
  intros Hne. unfold V1.assignSlot, withSlot, V1.getTimeSlotIndex.
  by destruct timeSlots.
Qed.

Lemma assignSlotsDay_withSlot (options : Options) (timeSlots : list TimeSlot)
  (events : list Event) :
  timeSlots <> [] ->
  V1.assignSlotsDay options timeSlots events
  = JS.Ok (map (withSlot options timeSlots) events).
Proof.
  intros Hne. induction events as [|event events IH]; simpl; [done|].
  by rewrite assignSlot_withSlot, IH.
Qed.

Lemma assignSlots_withSlot (options : Options) (timeSlots : list TimeSlot)
  (data : Schedule) :
  timeSlots <> [] ->
  V1.assignSlots options timeSlots data
  = JS.Ok (map (fun entry : string * list Event =>
                  (entry.1, map (withSlot options timeSlots) entry.2)) data).
Proof.
  intros Hne. induction data as [|[day events] data IH]; simpl; [done|].
  by rewrite assignSlotsDay_withSlot, IH.
Qed.

(** Without rows the pre-processing pass raises at the first event it meets
    and returns the schedule as it is when there is none. *)
Lemma assignSlots_no_rows (options : Options) (data : Schedule) :
  V1.assignSlots options [] data
  = if bool_decide (allEvents data = []) then JS.Ok data
    else JS.Throw JS.TypeError.
Proof.
  induction data as [|[day events] data IH]; simpl; [done|].
  destruct events as [|event events]; simpl.
  - rewrite IH. unfold allEvents. simpl.
    by destruct (bool_decide (concat (map snd data) = [])).
  - done.
Qed.

Lemma withSlot_idempotent (options : Options) (timeSlots : list TimeSlot)
  (event : Event) :
  withSlot options timeSlots (withSlot options timeSlots event)
  = withSlot options timeSlots event.
Proof. reflexivity. Qed.

Lemma slotted_idempotent (options : Options) (timeSlots : list TimeSlot)
  (data : Schedule) :
  slotted options timeSlots (slotted options timeSlots data)
  = slotted options timeSlots data.
Proof.
  unfold slotted. rewrite sortDays_map by done.
  rewrite sortDays_idempotent, map_map. apply map_ext.
  intros [day events]. simpl. f_equal. rewrite map_map.
  apply map_ext, withSlot_idempotent.
Qed.

Lemma sortDays_no_events (data : Schedule) :
  allEvents data = [] -> sortDays data = data.
Proof.
  unfold allEvents, sortDays.
  induction data as [|[day events] data IH]; simpl; [done|].
  intros [-> Hrest]%app_eq_nil. by rewrite IH.
Qed.




(** X11.  Rendering again changes nothing: in the second revision a second
    [render] returns the instance and the table of the first; in the first
    revision, whenever [render] returns, rendering the instance it leaves
    returns that same instance and the same table. *)
Theorem render_idempotent :
  (forall this : Timetable,
     V2.render (V2.render this).1 = V2.render this) /\
  (forall (this this' : Timetable) (layout : option Layout),
     V1.render this = JS.Ok (this', layout) ->
     V1.render this' = JS.Ok (this', layout)).
Proof.
  split.
  - intros this. unfold V2.render.
    destruct (container this) eqn:Hc; simpl; rewrite ?Hc; simpl; [|done].
    by rewrite sortDays_idempotent.
  - intros this this' layout. unfold V1.render.
    destruct (container this) eqn:Hc; simpl.
    + destruct (timeSlots this) as [|slot slots] eqn:Hslots.
      * rewrite assignSlots_no_rows.
        case_bool_decide as Hev; simpl; [|done].
        intros [= <- <-]. simpl.
        rewrite sortDays_idempotent, assignSlots_no_rows.
        by rewrite bool_decide_eq_true_2.
      * rewrite assignSlots_withSlot by done. simpl.
        intros [= <- <-]. simpl.
        rewrite assignSlots_withSlot by done. simpl.
        change (map _ (sortDays (map _ (sortDays (data this)))))
          with (slotted (options this) (slot :: slots)
                  (slotted (options this) (slot :: slots) (data this))).
        by rewrite slotted_idempotent.
    + intros [= <- <-]. by rewrite Hc.
Qed.

Lemma render_idempotent_witness :
  V1.render overlapThis = JS.Ok (overlapThis, Some overlapLayout).
Proof.
  apply (proj2 render_idempotent
           (mkTimetable true (V1.mergeDefaultOptions mondayOnly)
              (match V1.prepareData (V1.mergeDefaultOptions mondayOnly)
                       overlapRaw with
               | JS.Ok data => data
               | _ => []
               end)
              (timeSlots overlapThis))
           overlapThis (Some overlapLayout)).
  vm_compute. reflexivity.
Defined.

(** ** More on the table body *)

Section LayoutFacts.

Variable startsHere : Z -> TimeSlot -> Event -> bool.
Variable getRowSpan : Z -> Z.
Variable clickable : bool.
Variable len : Z.

Local Abbreviation eventCell := (eventCell getRowSpan clickable).
Local Abbreviation inSpan := (inSpan getRowSpan len).
Local Abbreviation dayCells := (dayCells startsHere getRowSpan clickable).
Local Abbreviation layoutRows := (layoutRows startsHere getRowSpan clickable).
Local Abbreviation renderLayout :=
  (renderLayout startsHere getRowSpan clickable len).

Lemma layoutRows_slots (occupied : Occupied) (data : Schedule) (slotIndex : Z)
  (timeSlots : list TimeSlot) :
  map row_slot (layoutRows occupied data slotIndex timeSlots) = timeSlots.
Proof.
  revert slotIndex. induction timeSlots as [|timeSlot rest IH]; intros slotIndex;
    simpl; [done|]. by rewrite IH.
Qed.

Lemma renderLayout_slots (timeSlots : list TimeSlot) (data : Schedule) :
  map row_slot (rows (renderLayout timeSlots data)) = timeSlots.
Proof.
  rewrite (proj1 (renderLayout_spec startsHere getRowSpan clickable len
                    timeSlots data)).
  apply layoutRows_slots.
Qed.

Lemma renderLayout_no_events (timeSlots : list TimeSlot) (data : Schedule) :
  Forall (fun entry : string * list Event => entry.2 = []) data ->
  renderLayout timeSlots data = emptyTable timeSlots data.
Proof.
  intros Hempty.
  destruct (renderLayout_spec startsHere getRowSpan clickable len timeSlots data)
    as [Hrows Hocc].
  destruct (renderLayout timeSlots data) as [rows occupied]. simpl in *.
  assert (occupied = ∅) as ->.
  { apply set_eq. intros [d r]. rewrite Hocc. split; [|set_solver].
    intros (k & timeSlot & events & e & _ & Hin & _ & He & _).
    rewrite Forall_forall in Hempty. apply Hempty in Hin. simpl in Hin.
    subst. by apply elem_of_nil in He. }
  unfold emptyTable. f_equal. rewrite Hrows. clear Hrows Hocc.
  generalize 0. induction timeSlots as [|timeSlot rest IH]; intros slotIndex;
    simpl; [done|].
  rewrite IH. f_equal. f_equal. clear IH.
  induction Hempty as [|[day events] data Hday Hrest IH]; simpl; [done|].
  simpl in Hday. subst. by rewrite IH.
Qed.

(** An occupied row of a day lies under an event of that day picked in an
    earlier row. *)
Lemma occupied_from_above (timeSlots : list TimeSlot) (data : Schedule)
  (d : string) (k : nat) :
  (d, Z.of_nat k) ∈ cellOccupied (renderLayout timeSlots data) ->
  exists (k' : nat) (timeSlot : TimeSlot) (events : list Event) (e : Event),
    (k' < k)%nat /\ timeSlots !! k' = Some timeSlot /\
    (d, events) ∈ data /\ e ∈ events /\
    startsHere (Z.of_nat k') timeSlot e = true.
Proof.
  intros Hocc.
  apply (proj2 (renderLayout_spec startsHere getRowSpan clickable len
                  timeSlots data)) in Hocc
    as (k' & timeSlot & events & e & Hslot & Hin & _ & He & Hstart & Hspan).
  exists k', timeSlot, events, e. unfold inSpan in Hspan.
  repeat split; try done. lia.
Qed.

Lemma hasCell_renderLayout (timeSlots : list TimeSlot) (data : Schedule)
  (k : nat) (d : string) :
  hasCell (renderLayout timeSlots data) k d <->
  (k < length timeSlots)%nat /\ d ∈ map fst data /\
  (d, Z.of_nat k) ∉ cellOccupied (renderLayout timeSlots data).
Proof.
  split.
  - intros (row & cell & Hrow & Hcell & Hday).
    pose proof (elem_of_layout_row startsHere getRowSpan clickable len
                  timeSlots data k row cell Hrow) as [Hslot Hcells].
    apply Hcells in Hcell as (day & events & Hin & Hfree & Hcase).
    assert (day = d) as ->
      by (destruct Hcase as [(e & _ & _ & ->)|[_ ->]]; exact Hday).
    split; [by eapply lookup_lt_Some|]. split; [|done].
    apply list_elem_of_fmap. by exists (d, events).
  - intros (Hk & Hd & Hfree).
    apply list_elem_of_fmap in Hd as ([day events] & -> & Hin). simpl in *.
    destruct (lookup_lt_is_Some_2 timeSlots k Hk) as [timeSlot Hslot].
    pose proof (proj1 (renderLayout_spec startsHere getRowSpan clickable len
                         timeSlots data)) as Hrows.
    pose proof (layoutRows_lookup startsHere getRowSpan clickable
                  (cellOccupied (renderLayout timeSlots data)) data 0
                  timeSlots k) as Hlookup.
    rewrite <- Hrows, Hslot in Hlookup. simpl in Hlookup.
    pose proof (fun cell : Cell =>
                  proj2 (elem_of_layout_row startsHere getRowSpan clickable len
                           timeSlots data k _ cell Hlookup)) as Hrow.
    simpl in Hrow.
    destruct (List.filter (startsHere (Z.of_nat k) timeSlot) events)
      as [|e rest] eqn:Hfilter.
    + eexists _, (mkCell day EmptyCell). split; [exact Hlookup|].
      split; [|done].
      apply Hrow. exists day, events.
      split; [done|]. split; [done|]. right. split; [|done].
      intros e He. destruct (startsHere (Z.of_nat k) timeSlot e) eqn:Hs; [|done].
      assert (e ∈ List.filter (startsHere (Z.of_nat k) timeSlot) events) as Hmem
        by (apply elem_of_filter_bool; done).
      rewrite Hfilter in Hmem. by apply elem_of_nil in Hmem.
    + assert (e ∈ List.filter (startsHere (Z.of_nat k) timeSlot) events) as Hmem
        by (rewrite Hfilter; left).
      apply elem_of_filter_bool in Hmem as [He Hs].
      eexists _, (eventCell day e). split; [exact Hlookup|].
      split; [|done].
      apply Hrow. exists day, events.
      split; [done|]. split; [done|]. left. by exists e.
Qed.

Lemma event_cell_attributes (timeSlots : list TimeSlot) (data : Schedule)
  (k : nat) (row : Row) (d : string) (e : Event) (rowspan : option Z)
  (click : bool) :
  rows (renderLayout timeSlots data) !! k = Some row ->
  mkCell d (EventCell e rowspan click) ∈ row_cells row ->
  click = clickable /\
  rowspan = (if 1 <? getRowSpan (duration e)
             then Some (getRowSpan (duration e)) else None).
Proof.
  intros Hrow Hcell.
  apply (elem_of_layout_row startsHere getRowSpan clickable len
           timeSlots data k row _ Hrow) in Hcell
    as (day & events & _ & _ & [(e' & _ & _ & Heq)|[_ Heq]]); [|done].
  unfold eventCell in Heq. by injection Heq as -> -> -> ->.
Qed.

End LayoutFacts.

(** X12.  A schedule without events is drawn, in both revisions, as one row
    per time slot holding an empty cell for every day, in the order of the
    days, and nothing is marked occupied. *)
Theorem no_events_empty_table
  (options : Options) (timeSlots : list TimeSlot) (data : Schedule) :
  Forall (fun entry : string * list Event => entry.2 = []) data ->
  V1.renderBody options timeSlots data = emptyTable timeSlots data /\
  V2.renderBody options timeSlots data = emptyTable timeSlots data.
Proof.
  intros Hempty.
  rewrite V1_renderBody_renderLayout, V2_renderBody_renderLayout.
  by rewrite !renderLayout_no_events.
Qed.

Lemma no_events_empty_table_witness :
  V1.renderBody (V1.mergeDefaultOptions mondayOnly)
    (map makeSlot (gridTimes 480 15 40)) [("Monday", [])]
  = emptyTable (map makeSlot (gridTimes 480 15 40)) [("Monday", [])] /\
  map row_cells
    (rows (emptyTable (map makeSlot (gridTimes 480 15 40)) [("Monday", [])]))
  = replicate 40 [mkCell "Monday" EmptyCell] /\
  V2.renderBody (V2.mergeDefaultOptions mondayOnly) [] [("Monday", [])]
  = emptyTable [] [("Monday", [])].
Proof.
  split; [|split; [reflexivity|]].
  - apply (proj1 (no_events_empty_table (V1.mergeDefaultOptions mondayOnly)
                    (map makeSlot (gridTimes 480 15 40)) [("Monday", [])]
                    ltac:(by repeat constructor))).
  - apply (proj2 (no_events_empty_table (V2.mergeDefaultOptions mondayOnly)
                    [] [("Monday", [])] ltac:(by repeat constructor))).
Defined.



(** X14.  The table body is a grid with holes only under events: in both
    revisions it has one row per time slot, in order, and row [k] has a
    cell in the column of a day exactly when [k] is not marked occupied for
    that day. *)
Theorem column_covered_or_filled
  (options : Options) (timeSlots : list TimeSlot) (data : Schedule) :
  (map row_slot (rows (V1.renderBody options timeSlots data)) = timeSlots /\
   forall (k : nat) (d : string),
     (k < length timeSlots)%nat -> d ∈ map fst data ->
     (hasCell (V1.renderBody options timeSlots data) k d <->
      (d, Z.of_nat k) ∉ cellOccupied (V1.renderBody options timeSlots data))) /\
  (map row_slot (rows (V2.renderBody options timeSlots data)) = timeSlots /\
   forall (k : nat) (d : string),
     (k < length timeSlots)%nat -> d ∈ map fst data ->
     (hasCell (V2.renderBody options timeSlots data) k d <->
      (d, Z.of_nat k) ∉ cellOccupied (V2.renderBody options timeSlots data))).
Proof.
  rewrite V1_renderBody_renderLayout, V2_renderBody_renderLayout.
  split; (split; [apply renderLayout_slots|]); intros k d Hk Hd;
    rewrite hasCell_renderLayout; tauto.
Qed.

Lemma column_covered_or_filled_witness :
  (hasCell overlapLayout 4 "Monday" /\ ~ hasCell overlapLayout 5 "Monday") /\
  (hasCell overlapLayout2 0 "Monday" /\ ~ hasCell overlapLayout2 1 "Monday").
Proof.
  destruct (column_covered_or_filled (options overlapThis)
              (timeSlots overlapThis) (data overlapThis)) as [[_ Hcells] _].
  destruct (column_covered_or_filled (options overlapThis2)
              (timeSlots overlapThis2) (data overlapThis2)) as [_ [_ Hcells2]].
  split; split.
  - apply (Hcells 4%nat "Monday"); [vm_compute; lia|compute_done|].
    apply (bool_decide_unpack _). by vm_compute.
  - intros Hcell.
    apply (Hcells 5%nat "Monday") in Hcell; [|vm_compute; lia|compute_done].
    apply Hcell. apply (bool_decide_unpack _). by vm_compute.
  - apply (Hcells2 0%nat "Monday"); [vm_compute; lia|compute_done|].
    apply (bool_decide_unpack _). by vm_compute.
  - intros Hcell.
    apply (Hcells2 1%nat "Monday") in Hcell; [|vm_compute; lia|compute_done].
    apply Hcell. apply (bool_decide_unpack _). by vm_compute.
Defined.

(** X15.  The attributes of an event cell.  In the first revision the event
    takes clicks exactly when the modal is enabled, and [rowspan] is set
    only for an event longer than one interval, to the least number of
    intervals that cover it.  In the second revision no event takes clicks,
    and with [minRowSpan] at least 2 every event cell has a [rowspan], at
    least [minRowSpan] and enough to cover the event. *)
Theorem event_cell_rowspan_and_click
  (options : Options) (timeSlots : list TimeSlot) (data : Schedule)
  (k : nat) (row : Row) (d : string) (e : Event) (rowspan : option Z)
  (click : bool) :
  0 < timeInterval options ->
  (rows (V1.renderBody options timeSlots data) !! k = Some row ->
   mkCell d (EventCell e rowspan click) ∈ row_cells row ->
   click = modalEnabled options /\
   (rowspan = None <-> duration e <= timeInterval options) /\
   (forall n : Z,
      rowspan = Some n ->
      2 <= n /\
      (n - 1) * timeInterval options < duration e <= n * timeInterval options)) /\
  (rows (V2.renderBody options timeSlots data) !! k = Some row ->
   mkCell d (EventCell e rowspan click) ∈ row_cells row ->
   click = false /\
   (2 <= minRowSpan options ->
    exists n : Z,
      rowspan = Some n /\ minRowSpan options <= n /\
      duration e <= n * timeInterval options)).
Proof.
  intros Hi. split.
  - rewrite V1_renderBody_renderLayout. intros Hrow Hcell.
    destruct (event_cell_attributes _ _ _ _ _ _ _ _ _ _ _ _ Hrow Hcell)
      as [-> ->].
    split; [done|]. unfold V1.getRowSpan.
    pose proof (ceil_div_bounds (duration e) (timeInterval options) Hi).
    destruct (Z.ltb_spec 1 (JS.ceil_div (duration e) (timeInterval options))).
    + split; [split; [done|nia]|]. intros n [= <-]. lia.
    + split; [split; [nia|done]|]. by intros n.
  - rewrite V2_renderBody_renderLayout. intros Hrow Hcell.
    destruct (event_cell_attributes _ _ _ _ _ _ _ _ _ _ _ _ Hrow Hcell)
      as [-> ->].
    split; [done|]. intros Hmin. unfold V2.getRowSpan.
    pose proof (ceil_div_bounds (duration e) (timeInterval options) Hi).
    destruct (Z.ltb_spec 1 (Z.max (minRowSpan options)
                              (JS.ceil_div (duration e) (timeInterval options))));
      [|lia].
    eexists. split; [done|]. nia.
Qed.

Lemma event_cell_rowspan_and_click_witness :
  rows overlapLayout !! 4%nat
  = Some (mkRow (makeSlot 540) [mkCell "Monday" (EventCell eventA (Some 4) true)])
  /\ 3 * 15 < duration eventA <= 4 * 15 /\
  rows overlapLayout2 !! 0%nat
  = Some (mkRow (makeSlot 540)
            [mkCell "Monday" (EventCell eventA2 (Some 4) false)]) /\
  exists n : Z, Some 4 = Some n /\ 2 <= n /\ duration eventA2 <= n * 15.
Proof.
  assert (rows overlapLayout !! 4%nat
          = Some (mkRow (makeSlot 540)
                    [mkCell "Monday" (EventCell eventA (Some 4) true)]))
    as Hrow by (vm_compute; reflexivity).
  assert (rows overlapLayout2 !! 0%nat
          = Some (mkRow (makeSlot 540)
                    [mkCell "Monday" (EventCell eventA2 (Some 4) false)]))
    as Hrow2 by (vm_compute; reflexivity).
  split; [exact Hrow|]. split; [|split; [exact Hrow2|]].
  - destruct (event_cell_rowspan_and_click (options overlapThis)
                (timeSlots overlapThis) (data overlapThis) 4
                (mkRow (makeSlot 540)
                   [mkCell "Monday" (EventCell eventA (Some 4) true)])
                "Monday" eventA (Some 4) true ltac:(vm_compute; reflexivity))
      as [H1 _].
    destruct (H1 Hrow ltac:(left)) as (_ & _ & Hn).
    destruct (Hn 4 eq_refl) as [_ Hbounds].
    exact Hbounds.
  - destruct (event_cell_rowspan_and_click (options overlapThis2)
                (timeSlots overlapThis2) (data overlapThis2) 0
                (mkRow (makeSlot 540)
                   [mkCell "Monday" (EventCell eventA2 (Some 4) false)])
                "Monday" eventA2 (Some 4) false ltac:(vm_compute; reflexivity))
      as [_ H2].
    destruct (H2 Hrow2 ltac:(left)) as [_ Hn].
    exact (Hn ltac:(vm_compute; discriminate)).
Defined.

(** ** Class names and event elements *)

Lemma is_ascii_whitespace_is_space (c : ascii) :
  is_ascii_whitespace c = true -> is_space c = true.
Proof.
  unfold is_ascii_whitespace, is_space.
  generalize (nat_of_ascii c). intros n.
  rewrite !orb_true_iff, andb_true_iff, !Nat.eqb_eq, !Nat.leb_le. lia.
Qed.

Lemma hyphenate_no_space (inRun : bool) (cs : list ascii) :
  existsb is_space (hyphenate inRun cs) = false.
Proof.
  revert inRun. induction cs as [|c cs IH]; intros inRun; simpl; [done|].
  destruct (is_space c) eqn:Hc.
  - destruct inRun; simpl; by rewrite IH.
  - simpl. by rewrite Hc, IH.
Qed.

Lemma hyphenate_nonempty (cs : list ascii) :
  cs <> [] -> hyphenate false cs <> [].
Proof. destruct cs as [|c cs]; [done|]. simpl. by destruct (is_space c). Qed.

Lemma string_of_list_ascii_nil (cs : list ascii) :
  string_of_list_ascii cs = EmptyString <-> cs = [].
Proof. by destruct cs. Qed.

(** What [hyphenate] returns is a class token unless it is empty. *)
Lemma validateToken_hyphenate (inRun : bool) (cs : list ascii) :
  validateToken (string_of_list_ascii (hyphenate inRun cs))
  = if bool_decide (hyphenate inRun cs = []) then Some SyntaxError else None.
Proof.
  unfold validateToken.
  destruct (String.eqb_spec (string_of_list_ascii (hyphenate inRun cs))
              EmptyString) as [Heq|Hne].
  - apply string_of_list_ascii_nil in Heq. by rewrite bool_decide_eq_true_2.
  - rewrite string_of_list_ascii_nil in Hne.
    rewrite bool_decide_eq_false_2 by done.
    rewrite list_ascii_of_string_of_list_ascii.
    destruct (existsb is_ascii_whitespace (hyphenate inRun cs)) eqn:Hex; [|done].
    apply existsb_exists in Hex as (c & Hin & Hc).
    apply is_ascii_whitespace_is_space in Hc.
    assert (existsb is_space (hyphenate inRun cs) = true) as Hsp
      by (apply existsb_exists; by exists c).
    by rewrite hyphenate_no_space in Hsp.
Qed.

Lemma V2_categoryClass_valid (category : string) :
  category <> EmptyString -> validateToken (V2More.categoryClass category) = None.
Proof.
  intros Hne. unfold V2More.categoryClass.
  rewrite validateToken_hyphenate, bool_decide_eq_false_2; [done|].
  apply hyphenate_nonempty. unfold toLowerCase.
  destruct category; [done|]. done.
Qed.

Lemma V1_cleanCategoryForCss_token (category : string) :
  validateToken (V1More.cleanCategoryForCss category)
  = if String.eqb (V1More.cleanCategoryForCss category) EmptyString
    then Some SyntaxError else None.
Proof.
  unfold V1More.cleanCategoryForCss.
  destruct (String.eqb category EmptyString); [done|].
  rewrite validateToken_hyphenate.
  destruct (String.eqb_spec (string_of_list_ascii
              (hyphenate false
                 (trim (toLowerCase
                    (stripParentheticals
                       (length (list_ascii_of_string category))
                       (list_ascii_of_string category))))))
              EmptyString) as [Heq|Hne].
  - apply string_of_list_ascii_nil in Heq. by rewrite bool_decide_eq_true_2.
  - rewrite string_of_list_ascii_nil in Hne. by rewrite bool_decide_eq_false_2.
Qed.



Lemma appendToken_Forall (P : string -> Prop) (classes : list string)
  (token : string) :
  Forall P classes -> P token -> Forall P (appendToken classes token).
Proof.
  intros Hcl Ht. unfold appendToken.
  destruct (existsb (String.eqb token) classes); [done|].
  apply Forall_app. by split; [|constructor].
Qed.

Lemma elem_of_appendToken (classes : list string) (token : string) :
  token ∈ appendToken classes token /\
  forall t : string, t ∈ classes -> t ∈ appendToken classes token.
Proof.
  unfold appendToken.
  destruct (existsb (String.eqb token) classes) eqn:Hex.
  - split; [|done].
    apply existsb_exists in Hex as (t & Hin & Heq).
    apply String.eqb_eq in Heq as ->. by apply list_elem_of_In.
  - split; [|intros t Ht]; apply elem_of_app; [right; left|by left].
Qed.

Lemma durationClass_valid (event : Event) : validToken (durationClass event).
Proof.
  unfold durationClass.
  by destruct (duration event <=? 30), (duration event <=? 60).
Qed.

Section ElementsFacts.

Variable build : Event -> DOMException + EventDiv.

Local Abbreviation cellEvents :=
  (omap (fun cell : Cell =>
           match cell_content cell with
           | EventCell e _ _ => Some e
           | EmptyCell => None
           end)).

Lemma buildCells_spec (cells : list Cell) :
  match buildCells build cells with
  | inr divs => Forall2 (fun e div => build e = inr div) (cellEvents cells) divs
  | inl err =>
      exists e : Event, e ∈ cellEvents cells /\ build e = inl err
  end.
Proof.
  induction cells as [|[day [e rs c|]] cells IH]; simpl; [constructor| |done].
  destruct (build e) as [err|div] eqn:He.
  - exists e. split; [left|done].
  - destruct (buildCells build cells) as [err|divs].
    + destruct IH as (e' & Hin & He'). exists e'. split; [by right|done].
    + by constructor.
Qed.

Lemma buildRows_spec (layout : Layout) :
  match buildRows build (rows layout) with
  | inr divs => Forall2 (fun e div => build e = inr div) (drawnEvents layout) divs
  | inl err =>
      exists e : Event, e ∈ drawnEvents layout /\ build e = inl err
  end.
Proof.
  unfold drawnEvents. destruct layout as [rows occupied]. simpl.
  induction rows as [|row rows IH]; simpl; [constructor|].
  pose proof (buildCells_spec (row_cells row)) as Hrow.
  destruct (buildCells build (row_cells row)) as [err|divs].
  - destruct Hrow as (e & Hin & He). exists e.
    split; [|done]. apply elem_of_app. by left.
  - destruct (buildRows build rows) as [err|divs'].
    + destruct IH as (e & Hin & He). exists e.
      split; [|done]. apply elem_of_app. by right.
    + by apply Forall2_app.
Qed.

End ElementsFacts.

Section EventElementFacts.

Variable categoryClass : string -> string.
Variable clickable : bool.


Lemma makeEventDiv_valid (options : Options) (event : Event) :
  validateToken (categoryClass (category event)) = None ->
  makeEventDiv categoryClass clickable options event
  = inr (builtDiv categoryClass clickable options event).
Proof.
  intros Hok. unfold makeEventDiv, classList_add. simpl.
  change (validateToken "event") with (@None DOMException).
  change (validateToken "event-color-bar") with (@None DOMException). simpl.
  by rewrite Hok.
Qed.

Lemma builtDiv_tokens (options : Options) (event : Event) :
  validateToken (categoryClass (category event)) = None ->
  Forall validToken
    (div_classes (builtDiv categoryClass clickable options event) ++
     bar_classes (builtDiv categoryClass clickable options event)).
Proof.
  intros Hok. unfold builtDiv. simpl. apply Forall_app. split.
  - apply appendToken_Forall; [|apply durationClass_valid].
    apply appendToken_Forall; [|done]. by repeat constructor.
  - apply appendToken_Forall; [|done]. by repeat constructor.
Qed.

(** When the class of every drawn event is a token, every element is
    built. *)
Lemma buildRows_valid (options : Options) (layout : Layout) :
  Forall (fun e => validateToken (categoryClass (category e)) = None)
    (drawnEvents layout) ->
  buildRows (makeEventDiv categoryClass clickable options) (rows layout)
  = inr (map (builtDiv categoryClass clickable options) (drawnEvents layout)).
Proof.
  intros Hall.
  pose proof (buildRows_spec (makeEventDiv categoryClass clickable options)
                layout) as Hspec.
  destruct (buildRows _ (rows layout)) as [err|divs].
  - destruct Hspec as (e & Hin & He).
    rewrite Forall_forall in Hall. by rewrite makeEventDiv_valid in He by auto.
  - f_equal. induction Hspec as [|e div events divs He _ IH]; [done|].
    apply Forall_cons in Hall as [Hok Hall].
    rewrite makeEventDiv_valid in He by done. injection He as <-.
    simpl. by rewrite IH.
Qed.

End EventElementFacts.

Lemma elem_of_drawnEvents (layout : Layout) (e : Event) :
  e ∈ drawnEvents layout <-> exists (k : nat) (d : string), placedAt layout k d e.
Proof.
  unfold drawnEvents, placedAt. rewrite elem_of_concat. split.
  - intros (l & He & Hl).
    apply list_elem_of_fmap in Hl as (row & -> & Hrow).
    apply list_elem_of_lookup in Hrow as [k Hk].
    apply list_elem_of_omap in He as ([d [e' rs c|]] & Hcell & Heq); [|done].
    simpl in Heq. injection Heq as ->.
    by exists k, d, row, rs, c.
  - intros (k & d & row & rs & c & Hk & Hcell).
    eexists. split; [|apply list_elem_of_fmap; exists row; split; [done|]].
    + apply list_elem_of_omap. by exists (mkCell d (EventCell e rs c)).
    + by eapply list_elem_of_lookup_2.
Qed.

(** X16.  The second revision always builds its event elements: whenever
    the construction returns with a table, every event cell gets its
    element, [classList.add] never raising; the class made from the category
    is not empty and holds no white space, every class on the element and
    on its colour bar is a valid token, and no element takes clicks. *)
Theorem V2_event_elements_built
  (rawData : list RawEvent) (userOptions : UserOptions)
  (this : Timetable) (layout : Layout) :
  V2.new true rawData userOptions = JS.Ok (this, Some layout) ->
  buildRows (V2More.makeEventDiv (options this)) (rows layout)
  = inr (map (builtDiv V2More.categoryClass false (options this))
           (drawnEvents layout)) /\
  Forall (fun e : Event =>
            validToken (V2More.categoryClass (category e)) /\
            Forall validToken
              (div_classes (builtDiv V2More.categoryClass false (options this) e)
               ++ bar_classes
                    (builtDiv V2More.categoryClass false (options this) e)))
    (drawnEvents layout).
Proof.
  unfold V2.new.
  destruct (V2.prepareData (V2.mergeDefaultOptions userOptions) rawData)
    as [data0| |] eqn:Hprep; simpl; [|done..].
  destruct (V2.generateTimeSlots _ data0) as [slots| |]; simpl; [|done..].
  unfold V2.render. simpl. intros [= <- <-]. cbn [options].
  assert (Forall (fun e => validateToken (V2More.categoryClass (category e)) = None)
            (drawnEvents (V2.renderBody (V2.mergeDefaultOptions userOptions)
                            slots (sortDays data0)))) as Hall.
  { apply Forall_forall. intros e (k & d & Hplaced)%elem_of_drawnEvents.
    rewrite V2_renderBody_renderLayout in Hplaced.
    apply placedAt_renderLayout in Hplaced
      as (timeSlot & events & _ & Hin & He & _).
    apply V2_categoryClass_valid.
    apply list_elem_of_fmap in Hin as ([d0 events0] & [= -> ->] & Hin0).
    simpl in He.
    apply (prepared_fields_nonempty _ _ _ _ _ e Hprep).
    apply elem_of_concat. exists events0. split.
    - by rewrite <- (sort_Permutation startMinutes events0).
    - apply list_elem_of_fmap. by exists (d0, events0). }
  split.
  - by apply buildRows_valid.
  - apply Forall_forall. intros e He. rewrite Forall_forall in Hall.
    split; [by apply Hall|].
    apply (builtDiv_tokens V2More.categoryClass false
             (V2.mergeDefaultOptions userOptions) e).
    by apply Hall.
Qed.

Lemma V2_event_elements_built_witness :
  exists (this : Timetable) (layout : Layout),
    V2.new true [parenthesizedRaw] mondayOnly = JS.Ok (this, Some layout) /\
    buildRows (V2More.makeEventDiv (options this)) (rows layout)
    = inr (map (builtDiv V2More.categoryClass false (options this))
             (drawnEvents layout)) /\
    map div_classes
      (map (builtDiv V2More.categoryClass false (options this))
         (drawnEvents layout))
    = [["event"; "(td)"; "medium-event"]].
Proof.
  destruct (V2.new true [parenthesizedRaw] mondayOnly)
    as [[this [layout|]]| |] eqn:Hnew; try (vm_compute in Hnew; discriminate).
  exists this, layout. split; [reflexivity|].
  split; [exact (proj1 (V2_event_elements_built [parenthesizedRaw] mondayOnly
                          this layout Hnew))|].
  vm_compute in Hnew. injection Hnew as <- <-. vm_compute. reflexivity.
Defined.



(** ** The modal of the first revision *)



(** X19.  When the class cleaned from the category is empty, opening the
    modal raises a [SyntaxError] and shows nothing: the colour indicator is
    back to its own class, and the title, the blocks, the active flag and
    the scrolling of the body stay as they were. *)
Theorem modal_open_raises
  (options : Options) (page : Page) (modal : Modal) (event : Event) :
  modalElement page = Some modal ->
  modalEnabled options = true ->
  V1More.cleanCategoryForCss (category event) = EmptyString ->
  V1More.openModal options page event
  = inl (SyntaxError,
         mkPage (Some (mkModal ["modal-color-indicator"] (modal_title modal)
                         (modal_body modal) (modal_footerButton modal)
                         (modal_active modal)))
           (bodyOverflow page)).
Proof.
  intros Hmodal Henabled Hclass.
  unfold V1More.openModal, classList_add. rewrite Hmodal, Henabled. simpl.
  pose proof (V1_cleanCategoryForCss_token (category event)) as Htoken.
  rewrite Hclass in Htoken at 2. simpl in Htoken. by rewrite Htoken.
Qed.

Lemma modal_open_raises_witness :
  V1More.openModal (V1.mergeDefaultOptions noOptions)
    (openedPage categoryOnlyEvent) parenthesizedEvent
  = inl (SyntaxError,
         mkPage (Some (mkModal ["modal-color-indicator"] "Travaux Dirigés (TD)"
                         (V1More.modalContent categoryOnlyEvent) true true))
           "hidden").
Proof.
  apply (modal_open_raises (V1.mergeDefaultOptions noOptions)
           (openedPage categoryOnlyEvent)
           (mkModal ["modal-color-indicator"; "travaux-dirigés"]
              "Travaux Dirigés (TD)" (V1More.modalContent categoryOnlyEvent)
              true true)
           parenthesizedEvent);
    vm_compute; reflexivity.
Defined.

(** ** From the raw record to what is shown *)




(** ** Nothing lost, nothing invented *)



Section Counting.

Variable days : list string.
Variable categoryKey : string.




End Counting.



(** ** Every day shows something *)

Lemma obj_entry_unique {V : Type} (k : string) (v v' : V) (o : Obj V) :
  NoDup (map fst o) -> (k, v) ∈ o -> (k, v') ∈ o -> v = v'.
Proof.
  intros Hnd Hv Hv'.
  apply (elem_of_obj_get _ _ _ Hnd) in Hv.
  apply (elem_of_obj_get _ _ _ Hnd) in Hv'. congruence.
Qed.

Lemma sortDays_keys (data : Schedule) : map fst (sortDays data) = map fst data.
Proof. unfold sortDays. rewrite map_map. by apply map_ext. Qed.

Lemma slotted_keys (options : Options) (timeSlots : list TimeSlot)
  (data : Schedule) :
  map fst (slotted options timeSlots data) = map fst data.
Proof. unfold slotted. rewrite map_map. simpl. apply sortDays_keys. Qed.

Lemma elem_of_sortDays (d : string) (events : list Event) (data : Schedule) :
  (d, events) ∈ sortDays data ->
  exists events0 : list Event,
    (d, events0) ∈ data /\ events = JS.sort (byKey startMinutes) events0.
Proof.
  intros ([d0 events0] & [= -> ->] & Hin)%list_elem_of_fmap.
  by exists events0.
Qed.

Lemma sort_head_least (events : list Event) (a : Event) (rest : list Event) :
  JS.sort (byKey startMinutes) events = a :: rest ->
  a ∈ events /\
  forall b : Event, b ∈ a :: rest -> startMinutes a <= startMinutes b.
Proof.
  intros Hsort. split.
  - rewrite <- (sort_Permutation startMinutes events).
    rewrite Hsort. left.
  - pose proof (sort_sorted startMinutes events) as Hsorted.
    rewrite Hsort in Hsorted.
    apply StronglySorted_inv in Hsorted as [_ Hall].
    intros b [->|Hb]%elem_of_cons; [lia|].
    rewrite Forall_forall in Hall. by apply Hall.
Qed.

Lemma V1_getTimeSlotIndex_mono (options : Options) (timeSlots : list TimeSlot)
  (t t' index index' : Z) :
  0 < timeInterval options -> t <= t' ->
  V1.getTimeSlotIndex options timeSlots t = JS.Ok index ->
  V1.getTimeSlotIndex options timeSlots t' = JS.Ok index' ->
  index <= index'.
Proof.
  intros Hi Ht. unfold V1.getTimeSlotIndex, JS.floor_div.
  destruct timeSlots as [|first rest]; [done|].
  intros [= <-] [= <-].
  pose proof (Z.div_le_mono (t - minutes first) (t' - minutes first)
                (timeInterval options) Hi ltac:(lia)).
  lia.
Qed.

Section FirstRow.

Variable startsHere : Z -> TimeSlot -> Event -> bool.
Variable getRowSpan : Z -> Z.
Variable clickable : bool.
Variable len : Z.

Local Abbreviation renderLayout :=
  (renderLayout startsHere getRowSpan clickable len).

(** A row before which no event of the day is picked is free for the
    day. *)
Lemma first_row_free (timeSlots : list TimeSlot) (data : Schedule)
  (d : string) (events : list Event) (k : nat) :
  NoDup (map fst data) ->
  (d, events) ∈ data ->
  (forall (e' : Event) (k' : nat) (timeSlot' : TimeSlot),
     e' ∈ events -> timeSlots !! k' = Some timeSlot' ->
     startsHere (Z.of_nat k') timeSlot' e' = true -> (k <= k')%nat) ->
  (d, Z.of_nat k) ∉ cellOccupied (renderLayout timeSlots data).
Proof.
  intros Hnd Hin Hfirst
    (k' & timeSlot' & events' & e' & Hlt & Hslot' & Hin' & He' & Hs)
    %occupied_from_above.
  rewrite (obj_entry_unique _ _ _ _ Hnd Hin' Hin) in He'.
  specialize (Hfirst e' k' timeSlot' He' Hslot' Hs). lia.
Qed.

End FirstRow.

(** X22.  No day loses all its events.  First revision: whenever the
    construction returns with a table, every day that holds events has an
    event cell, that of its earliest event.  Second revision, with a
    positive interval: the same for every day whose events end after they
    start. *)
Theorem nonempty_day_shows_an_event
  (rawData : list RawEvent) (userOptions : UserOptions)
  (this : Timetable) (layout : Layout) (d : string) (events : list Event) :
  (d, events) ∈ data this ->
  events <> [] ->
  (V1.new true rawData userOptions = JS.Ok (this, Some layout) ->
   exists (k : nat) (e : Event), e ∈ events /\ placedAt layout k d e) /\
  (V2.new true rawData userOptions = JS.Ok (this, Some layout) ->
   0 < timeInterval (options this) ->
   Forall (fun e => startMinutes e < endMinutes e) events ->
   exists (k : nat) (e : Event), e ∈ events /\ placedAt layout k d e).
Proof.
  intros Hin Hne. split.
  - unfold V1.new.
    destruct (V1.prepareData (V1.mergeDefaultOptions userOptions) rawData)
      as [data0| |] eqn:Hprep; simpl; [|done..].
    set (opts := V1.mergeDefaultOptions userOptions) in *.
    destruct (Z.le_gt_cases (timeInterval opts) 0) as [Hbad|Hi].
    { unfold V1.generateTimeSlots, slotsBetween.
      by rewrite slotsLoop_diverges by (done || lia). }
    destruct (V1_generateTimeSlots_regular opts Hi)
      as (slots & -> & Hslots & Hgrid). simpl.
    unfold V1.render. simpl. rewrite assignSlots_withSlot by done. simpl.
    intros [= <- <-]. simpl in Hin.
    apply prepareData_buckets in Hprep as (Hnd & _ & _).
    assert (NoDup (map fst (slotted opts slots data0))) as Hnd'
      by (by rewrite slotted_keys).
    unfold slotted in Hin.
    apply list_elem_of_fmap in Hin as ([d0 sorted] & [= <- ->] & Hin).
    simpl in *.
    apply elem_of_sortDays in Hin as (events0 & Hin0 & ->).
    destruct (JS.sort (byKey startMinutes) events0) as [|a rest] eqn:Hsort;
      [done|].
    apply sort_head_least in Hsort as Hleast. destruct Hleast as [_ Hleast].
    destruct (V1.getTimeSlotIndex opts slots (startMinutes a)) as [index| |]
      eqn:Hindex; try (by destruct slots).
    assert (0 <= index <= Z.of_nat (length slots) - 1) as Hrange.
    { unfold V1.getTimeSlotIndex in Hindex. destruct slots as [|s0 ss]; [done|].
      injection Hindex as <-. simpl length. lia. }
    assert (slotIndex (withSlot opts slots a) = Some index) as Hrow
      by (unfold withSlot; simpl; by rewrite Hindex).
    destruct (lookup_lt_is_Some_2 slots (Z.to_nat index) ltac:(lia))
      as [timeSlot Hslot].
    exists (Z.to_nat index), (withSlot opts slots a). split; [left|].
    rewrite V1_renderBody_renderLayout. apply placedAt_renderLayout.
    exists timeSlot, (map (withSlot opts slots) (a :: rest)).
    split; [done|]. split.
    { apply list_elem_of_fmap.
      exists (d, JS.sort (byKey startMinutes) events0).
      split; [by rewrite Hsort|].
      apply list_elem_of_fmap. by exists (d, events0). }
    split; [left|]. split.
    { apply V1_startsHere_true. rewrite Hrow. f_equal. lia. }
    apply (first_row_free _ _ _ _ _ _ d (map (withSlot opts slots) (a :: rest)));
      [done| |].
    { apply list_elem_of_fmap.
      exists (d, JS.sort (byKey startMinutes) events0).
      split; [by rewrite Hsort|].
      apply list_elem_of_fmap. by exists (d, events0). }
    intros e' k' timeSlot' He' _ Hs. apply V1_startsHere_true in Hs.
    apply list_elem_of_fmap in He' as (b & -> & Hb).
    unfold withSlot in Hs. simpl in Hs.
    destruct (V1.getTimeSlotIndex opts slots (startMinutes b)) as [index'| |]
      eqn:Hindex'; try done.
    injection Hs as Hs.
    pose proof (V1_getTimeSlotIndex_mono opts slots _ _ _ _ Hi
                  (Hleast b Hb) Hindex Hindex'). lia.
  - unfold V2.new.
    destruct (V2.prepareData (V2.mergeDefaultOptions userOptions) rawData)
      as [data0| |] eqn:Hprep; simpl; [|done..].
    set (opts := V2.mergeDefaultOptions userOptions) in *.
    destruct (V2.generateTimeSlots opts data0) as [slots| |] eqn:Hgen;
      simpl; [|done..].
    unfold V2.render. simpl. intros [= <- <-]. simpl. intros Hi Hpos.
    simpl in Hin.
    apply prepareData_buckets in Hprep as (Hnd & _ & _).
    assert (NoDup (map fst (sortDays data0))) as Hnd'
      by (by rewrite sortDays_keys).
    pose proof Hin as Hin'.
    apply elem_of_sortDays in Hin as (events0 & Hin0 & ->).
    destruct (JS.sort (byKey startMinutes) events0) as [|a rest] eqn:Hsort;
      [done|].
    apply sort_head_least in Hsort as Hleast.
    destruct Hleast as [Ha Hleast].
    apply Forall_cons in Hpos as [Hapos _].
    assert (a ∈ allEvents data0) as Hall.
    { apply elem_of_concat. exists events0. split; [done|].
      apply list_elem_of_fmap. by exists (d, events0). }
    destruct (V2_event_row_in_grid opts data0 a Hi Hall Hapos)
      as (slots' & k & timeSlot & Hgen' & Hslot & Hs & _).
    rewrite Hgen in Hgen'. injection Hgen' as <-.
    assert (exists start : Z, regularGrid start (timeInterval opts) slots)
      as [start Hgrid].
    { unfold V2.generateTimeSlots in Hgen.
      destruct (V2.bounds data0) as [lo hi].
      rewrite slotsBetween_total in Hgen by done. injection Hgen as <-.
      eexists. apply regularGrid_makeSlot. }
    exists k, a. split; [left|].
    rewrite V2_renderBody_renderLayout. apply placedAt_renderLayout.
    exists timeSlot, (a :: rest). repeat split; try done; [left|].
    apply (first_row_free _ _ _ _ _ _ d (a :: rest)); [done..|].
    intros e' k' timeSlot' He' Hslot' Hs'.
    apply V2_startsHere_true in Hs, Hs'.
    rewrite (regularGrid_lookup _ _ _ _ _ Hgrid Hslot) in Hs.
    rewrite (regularGrid_lookup _ _ _ _ _ Hgrid Hslot') in Hs'.
    specialize (Hleast e' He'). nia.
Qed.

Lemma nonempty_day_shows_an_event_witness :
  (exists (k : nat) (e : Event),
     e ∈ [eventA; eventB] /\ placedAt overlapLayout k "Monday" e) /\
  (exists (k : nat) (e : Event),
     e ∈ [eventA2; eventB2] /\ placedAt overlapLayout2 k "Monday" e).
Proof.
  split.
  - apply (proj1 (nonempty_day_shows_an_event overlapRaw mondayOnly overlapThis
                    overlapLayout "Monday" [eventA; eventB]
                    ltac:(vm_compute; left) ltac:(done))).
    vm_compute. reflexivity.
  - apply (proj2 (nonempty_day_shows_an_event overlapRaw mondayOnly overlapThis2
                    overlapLayout2 "Monday" [eventA2; eventB2]
                    ltac:(vm_compute; left) ltac:(done))).
    + vm_compute. reflexivity.
    + vm_compute. reflexivity.
    + repeat constructor; vm_compute; reflexivity.
Defined.
